(** * ThermoSim: Otto and Diesel cycles over two equations of state

    A shallow embedding of [src/transformations.py], [src/gas_models.py]
    and [src/cycles.py], with the properties of the specification that
    concern them and further properties read off the code.  The plotting
    methods and the two front ends are not modelled.

    Numbers.  The program computes with Python floats and with numpy
    float64 values.  They are read in two ways.

    On the first reading they are real numbers ([num]): rounding and
    overflow are left out.  What is modelled is the way the two kinds
    of number behave where real arithmetic is undefined:
    - a Python float division by zero, or [0.0 ** y] with [y < 0],
      raises [ZeroDivisionError];
    - the same operation with a numpy operand raises nothing and yields
      [inf] or [nan];
    - a negative Python float raised to a non-integral power yields a
      complex number, a negative numpy value yields [nan].
    A number therefore carries a flag telling whether it is a numpy
    value, and a computation has three outcomes: it returns a real
    number, it raises, or it leaves the real numbers ([NotReal]: a
    complex, infinite or nan value was produced; Python goes on, the
    model makes no statement about what follows).  The statements made
    on this reading say which expression is computed, from which
    operands, and which exception is raised.

    On the second reading ([Binary64]) every operation is rounded as
    the program rounds it.  The statements that compare two numbers
    computed along different paths are made there: evaluated on
    primitive binary64 numbers where a value is exhibited, and on real
    numbers with an explicit rounding function where an error is
    bounded. *)

From Stdlib Require Import Reals Lra List Floats.
From stdpp Require Import gmap strings.
Import ListNotations.
Open Scope R_scope.
Set Warnings "-inexact-float".

(** ** Numbers and outcomes *)

Record num := Num { val : R; np : bool }.

(** A Python float (or int) and a numpy float64. *)
Definition Py (x : R) : num := Num x false.
Definition Np (x : R) : num := Num x true.

Inductive exn :=
  ZeroDivisionError | KeyError | NotImplementedError | OverflowError.

Inductive py (A : Type) : Type :=
| Ret (a : A)
| Raise (e : exn)
| NotReal.
Arguments Ret {A} a.
Arguments Raise {A} e.
Arguments NotReal {A}.

#[global] Instance py_ret : MRet py := @Ret.
#[global] Instance py_bind : MBind py := fun A B f m =>
  match m with
  | Ret a => f a
  | Raise e => Raise e
  | NotReal => NotReal
  end.

(** [returns m x]: the computation returns a number whose value is [x]. *)
Definition returns (m : py num) (x : R) : Prop :=
  exists r, m = Ret r /\ val r = x.

(** The result of an operation is a numpy value as soon as one operand is. *)
Definition add (a b : num) : num := Num (val a + val b) (np a || np b).
Definition sub (a b : num) : num := Num (val a - val b) (np a || np b).
Definition mul (a b : num) : num := Num (val a * val b) (np a || np b).
Definition neg (a : num) : num := Num (- val a) (np a).
Definition abs (a : num) : num := Num (Rabs (val a)) (np a).

(** [a / b] *)
Definition div (a b : num) : py num :=
  if Req_dec_T (val b) 0 then
    if np a || np b then NotReal else Raise ZeroDivisionError
  else Ret (Num (val a / val b) (np a || np b)).

(** [a ** b] *)
Definition pow (a b : num) : py num :=
  let f := np a || np b in
  if Rlt_dec 0 (val a) then Ret (Num (Rpower (val a) (val b)) f)
  else if Req_dec_T (val a) 0 then
    if Rlt_dec 0 (val b) then Ret (Num 0 f)
    else if Req_dec_T (val b) 0 then Ret (Num 1 f)
    else if f then NotReal else Raise ZeroDivisionError
  else if Req_dec_T (frac_part (val b)) 0 then
    Ret (Num (powerRZ (val a) (Int_part (val b))) f)
  else NotReal.

(** [np.log(a)]: [-inf] at zero and [nan] below, with a warning. *)
Definition np_log (a : num) : py num :=
  if Rlt_dec 0 (val a) then Ret (Np (ln (val a))) else NotReal.

(** [np.maximum(a, b)] *)
Definition np_maximum (a b : num) : num := Np (Rmax (val a) (val b)).

(** [np.linspace(start, stop, num)]: [num] evenly spaced samples, both
    ends included. *)
Definition linspace (start stop : num) (n_points : nat) : list num :=
  map (fun i => Np (val start + INR i * ((val stop - val start) / INR (n_points - 1))))
      (seq 0 n_points).

(** ** transformations.py *)

Definition CONST_R : num := Py 8.314.

(** [P = nRT / V] *)
Definition isotherme (V n T : num) : py num :=
  div (mul (mul n CONST_R) T) V.

(** [P = P0 * (V0 / V)**gamma] *)
Definition adiabatique (V P0 V0 gamma : num) : py num :=
  q ← div V0 V;
  p ← pow q gamma;
  mret (mul P0 p).

(** [P = nRT/(V-nb) - an^2/V^2] *)
Definition van_der_waals (V n T a b : num) : py num :=
  term1 ← div (mul (mul n CONST_R) T) (sub V (mul n b));
  n2 ← pow n (Py 2);
  V2 ← pow V (Py 2);
  term2 ← div (mul a n2) V2;
  mret (sub term1 term2).

(** ** gas_models.py *)

(** An instance of [ModeleGaz] or of one of its subclasses: its
    attributes and the methods its class binds.  [gaz_b] is
    [getattr(self, 'b', 0)]. *)
Record ModeleGaz := {
  gaz_n : num;
  gaz_gamma : num;
  gaz_R : num;
  gaz_b : num;
  pression : num -> num -> py num;               (* pression(V, T) *)
  temperature : num -> num -> py num;            (* temperature(P, V) *)
  pression_adiabatique : num -> num -> num -> py num  (* (V, P0, V0) *)
}.

(** The base class: the two state equations are left to the subclasses. *)
Definition ModeleGaz_base (n gamma : num) : ModeleGaz := {|
  gaz_n := n; gaz_gamma := gamma; gaz_R := Py 8.314; gaz_b := Py 0;
  pression := fun _ _ => Raise NotImplementedError;
  temperature := fun _ _ => Raise NotImplementedError;
  pression_adiabatique := fun V P0 V0 => adiabatique V P0 V0 gamma |}.

Definition GazParfait (n gamma : num) : ModeleGaz := {|
  gaz_n := n; gaz_gamma := gamma; gaz_R := Py 8.314; gaz_b := Py 0;
  pression := fun V T => isotherme V n T;
  temperature := fun P V => div (mul P V) (mul n (Py 8.314));  (* self.R *)
  pression_adiabatique := fun V P0 V0 => adiabatique V P0 V0 gamma |}.

Module GazVanDerWaals.
Section Methods.
Variables n gamma a b : num.

Definition pression (V T : num) : py num := van_der_waals V n T a b.

Definition temperature (P V : num) : py num :=
n2 ← pow n (Py 2);
V2 ← pow V (Py 2);
q ← div (mul a n2) V2;
let term1 := add P q in
let term2 := sub V (mul n b) in
div (mul term1 term2) (mul n (Py 8.314)).

(** [T * (V - nb)^(gamma - 1)] is constant along the path.  The test
  [if np.any(V <= self.n * self.b): pass] has no effect. *)
Definition pression_adiabatique (V P0 V0 : num) : py num :=
T0 ← temperature P0 V0;
q ← div (sub V0 (mul n b)) (sub V (mul n b));
p ← pow q (sub gamma (Py 1));
let T_new := mul T0 p in
pression V T_new.
End Methods.
End GazVanDerWaals.

Definition GazVanDerWaals (n gamma a b : num) : ModeleGaz := {|
  gaz_n := n; gaz_gamma := gamma; gaz_R := Py 8.314; gaz_b := b;
  pression := GazVanDerWaals.pression n a b;
  temperature := GazVanDerWaals.temperature n a b;
  pression_adiabatique := GazVanDerWaals.pression_adiabatique n gamma a b |}.

(** [ModeleGaz.variation_entropie], inherited by both gases. *)
Definition variation_entropie (self : ModeleGaz) (T V T_ref V_ref : num) : py num :=
  Cv ← div (mul (gaz_n self) (gaz_R self)) (sub (gaz_gamma self) (Py 1));
  let b := mul (gaz_b self) (gaz_n self) in
  q ← div T T_ref;
  l ← np_log q;
  let term_T := mul Cv l in
  let V_eff := np_maximum (Py 1e-10) (sub V b) in
  let V_ref_eff := np_maximum (Py 1e-10) (sub V_ref b) in
  qV ← div V_eff V_ref_eff;
  lV ← np_log qV;
  let term_V := mul (mul (gaz_n self) (gaz_R self)) lV in
  mret (add term_T term_V).

(** ** cycles.py *)

(** A corner of the cycle: [(V, P, T)]. *)
Abbreviation point := (num * num * num)%type.

(** The attributes of a [CycleOtto] instance; [CycleDiesel] inherits the
    constructor and adds none. *)
Record Cycle := {
  gaz : ModeleGaz;
  V_min : num;
  V_max : num;
  V_A : num;
  T_A : num;
  P_A : num;
  T_C : num;
  points : gmap string point;
  tau : num
}.

Definition set_points (self : Cycle) (pts : gmap string point) : Cycle := {|
  gaz := gaz self; V_min := V_min self; V_max := V_max self;
  V_A := V_A self; T_A := T_A self; P_A := P_A self; T_C := T_C self;
  points := pts; tau := tau self |}.

(** [d[k]] on a dict *)
Definition getitem (d : gmap string point) (k : string) : py point :=
  match d !! k with
  | Some p => Ret p
  | None => Raise KeyError
  end.

(** The dict [{'A': a, 'B': b, 'C': c, 'D': d}]. *)
Definition corners (a b c d : point) : gmap string point :=
  <["A" := a]> (<["B" := b]> (<["C" := c]> (<["D" := d]> ∅))).

(** A value stored in the dict of results: a number, or [float('nan')]. *)
Inductive entry := Value (v : num) | nan.

(** The dict returned by [calculer_rendement]. *)
Record rendement := {
  W_total : num;
  Q_in : num;
  eta_numerique : num;
  eta_theorique : entry
}.

Module CycleOtto.

Definition __init__ (modele_gaz : ModeleGaz) (V_min V_max T_A P_A T_C_max : num)
  : py Cycle :=
  tau ← div V_max V_min;
  mret {| gaz := modele_gaz; V_min := V_min; V_max := V_max; V_A := V_max;
          T_A := T_A; P_A := P_A; T_C := T_C_max; points := ∅; tau := tau |}.

Definition calculer_points_cycle (self : Cycle) : py Cycle :=
  let V_A := V_max self in
  let P_A := P_A self in
  let T_A := T_A self in
  let V_B := V_min self in
  P_B ← pression_adiabatique (gaz self) V_B P_A V_A;
  T_B ← temperature (gaz self) P_B V_B;
  let V_C := V_B in
  let T_C := T_C self in
  P_C ← pression (gaz self) V_C T_C;
  let V_D := V_A in
  P_D ← pression_adiabatique (gaz self) V_D P_C V_C;
  T_D ← temperature (gaz self) P_D V_D;
  mret (set_points self
          (corners (V_A, P_A, T_A) (V_B, P_B, T_B) (V_C, P_C, T_C) (V_D, P_D, T_D))).

(** The gas method is applied to the numpy array [V_values], of
    [n_points >= 1] samples: numpy evaluates it entry by entry.  What
    the method computes from [P_start] and [V_start] alone is computed
    once in Python and once per entry here, with the same outcome. *)
Definition obtenir_courbe_adiabatique (self : Cycle) (point_depart point_fin : string)
    (n_points : nat) : py (list num * list num) :=
  '(V_start, P_start, _) ← getitem (points self) point_depart;
  '(V_end, _, _) ← getitem (points self) point_fin;
  let V_values := linspace V_start V_end n_points in
  P_values ← mapM (fun V => pression_adiabatique (gaz self) V P_start V_start) V_values;
  mret (V_values, P_values).

Section Rendement.
(** [scipy.integrate.simpson(y, x=x)] on real samples.  The library is
    not part of the program, and its rule for an even number of samples
    has changed between versions: it is a parameter. *)
Variable simpson : list R -> list R -> R.

Definition calculer_rendement (self : Cycle) : py rendement :=
  '(V_ab, P_ab) ← obtenir_courbe_adiabatique self "A" "B" 100;
  let W_ab := neg (Np (simpson (map val P_ab) (map val V_ab))) in
  '(V_cd, P_cd) ← obtenir_courbe_adiabatique self "C" "D" 100;
  let W_cd := neg (Np (simpson (map val P_cd) (map val V_cd))) in
  let W_total := add W_ab W_cd in
  '(V_B, P_B, T_B) ← getitem (points self) "B";
  '(V_C, P_C, T_C) ← getitem (points self) "C";
  Cv ← div (gaz_R (gaz self)) (sub (gaz_gamma (gaz self)) (Py 1));
  let Q_in := mul (mul (gaz_n (gaz self)) Cv) (sub T_C T_B) in
  eta_simpson ← div (abs W_total) Q_in;
  p ← pow (tau self) (sub (gaz_gamma (gaz self)) (Py 1));
  q ← div (Py 1) p;
  let eta_th := sub (Py 1) q in
  mret {| W_total := W_total; Q_in := Q_in;
          eta_numerique := eta_simpson; eta_theorique := Value eta_th |}.
End Rendement.

End CycleOtto.

Module CycleDiesel.

Section Points.
(** [scipy.optimize.fsolve(func, x0)[0]], a parameter as well.  The
    solver evaluates [func] on numpy values and returns one. *)
Variable fsolve : (num -> py num) -> num -> py num.

Definition func_p (self : Cycle) (T_C P_C : num) (v : num) : py num :=
  p ← pression (gaz self) v T_C;
  mret (sub p P_C).

Definition calculer_points_cycle (self : Cycle) : py Cycle :=
  let V_A := V_max self in
  let P_A := P_A self in
  let T_A := T_A self in
  let V_B := V_min self in
  P_B ← pression_adiabatique (gaz self) V_B P_A V_A;
  T_B ← temperature (gaz self) P_B V_B;
  let T_C := T_C self in
  let P_C := P_B in
  q ← div T_C T_B;
  let V_C_guess := mul V_B q in
  V_C ← fsolve (func_p self T_C P_C) V_C_guess;
  let V_D := V_A in
  P_D ← pression_adiabatique (gaz self) V_D P_C V_C;
  T_D ← temperature (gaz self) P_D V_D;
  mret (set_points self
          (corners (V_A, P_A, T_A) (V_B, P_B, T_B) (V_C, P_C, T_C) (V_D, P_D, T_D))).
End Points.

Section Rendement.
Variable simpson : list R -> list R -> R.

Definition calculer_rendement (self : Cycle) : py rendement :=
  '(V_ab, P_ab) ← CycleOtto.obtenir_courbe_adiabatique self "A" "B" 100;
  let W_ab := neg (Np (simpson (map val P_ab) (map val V_ab))) in
  '(V_B, _, _) ← getitem (points self) "B";
  '(V_C, _, _) ← getitem (points self) "C";
  '(_, P_B, _) ← getitem (points self) "B";
  let W_bc := mul (neg P_B) (sub V_C V_B) in
  '(V_cd, P_cd) ← CycleOtto.obtenir_courbe_adiabatique self "C" "D" 100;
  let W_cd := neg (Np (simpson (map val P_cd) (map val V_cd))) in
  let W_total := add (add W_ab W_bc) W_cd in
  '(_, _, T_B) ← getitem (points self) "B";
  '(_, _, T_C) ← getitem (points self) "C";
  Cp ← div (mul (gaz_gamma (gaz self)) (gaz_R (gaz self)))
           (sub (gaz_gamma (gaz self)) (Py 1));
  let Q_in := mul (mul (gaz_n (gaz self)) Cp) (sub T_C T_B) in
  eta ← div (abs W_total) Q_in;
  mret {| W_total := W_total; Q_in := Q_in;
          eta_numerique := eta; eta_theorique := nan |}.
End Rendement.

End CycleDiesel.

(** [np.full(n, x)] *)
Definition np_full (n : nat) (x : num) : list num := replicate n (Np (val x)).

(** The four segments of a cycle, in the order they are traversed. *)
Definition segments : list (string * string) :=
  [("A", "B"); ("B", "C"); ("C", "D"); ("D", "A")].

Section Entropie.
Variable fsolve : (num -> py num) -> num -> py num.

(** [isinstance(self, CycleDiesel)]: the class of the instance, which
    also selects the method that [self.calculer_points_cycle()] runs. *)
Variable diesel : bool.

Definition self_calculer_points_cycle (self : Cycle) : py Cycle :=
  if diesel then CycleDiesel.calculer_points_cycle fsolve self
  else CycleOtto.calculer_points_cycle self.

(** The body of the loop of [generer_donnees_entropie] over the
    segments: the arrays [S_space] and [T_space] of one segment.  The
    gas methods are applied to arrays, entry by entry. *)
Definition segment_entropie (self : Cycle) (n_points : nat) (V_ref T_ref : num)
    (segment : string * string) : py (list num * list num) :=
  let '(p_start, p_end) := segment in
  '(V_start, P_start, T_start) ← getitem (points self) p_start;
  '(V_end, P_end, T_end) ← getitem (points self) p_end;
  let is_isochoric :=
    if Rlt_dec (Rabs (val V_end - val V_start)) 1e-9 then true else false in
  '(V_space, T_space) ←
    (if (String.eqb p_start "A" && String.eqb p_end "B")
        || (String.eqb p_start "C" && String.eqb p_end "D")
     then
       let V_space := linspace V_start V_end n_points in
       P_space ← mapM (fun V => pression_adiabatique (gaz self) V P_start V_start)
                      V_space;
       T_space ← mapM (fun PV => temperature (gaz self) PV.1 PV.2)
                      (zip P_space V_space);
       mret (V_space, T_space)
     else
       let is_diesel_combustion := diesel && String.eqb p_start "B" in
       if is_diesel_combustion then
         let V_space := linspace V_start V_end n_points in
         let P_space := np_full n_points P_start in
         T_space ← mapM (fun PV => temperature (gaz self) PV.1 PV.2)
                        (zip P_space V_space);
         mret (V_space, T_space)
       else if is_isochoric then
         mret (np_full n_points V_start, linspace T_start T_end n_points)
       else
         mret (linspace V_start V_end n_points, linspace T_start T_end n_points));
  S_space ← mapM (fun vt => variation_entropie (gaz self) vt.2 vt.1 T_ref V_ref)
                 (zip V_space T_space);
  mret (S_space, T_space).

(** Returns the state of the instance, whose corners it computes when
    there are none, with [(S_data, T_data, labels)]. *)
Definition generer_donnees_entropie (self : Cycle) (n_points : nat)
  : py (Cycle * (list (list num) * list (list num) * list string)) :=
  self ← (if bool_decide (size (points self) = 0%nat)
          then self_calculer_points_cycle self else mret self);
  match points self !! "A" with
  | None => mret (self, ([], [], []))
  | Some (V_ref, _, T_ref) =>
      data ← mapM (segment_entropie self n_points V_ref T_ref) segments;
      mret (self, (map fst data, map snd data,
                   map (fun '(p_start, p_end) => p_start +:+ "->" +:+ p_end) segments))
  end.
End Entropie.

(** ** Python floats as binary64 numbers *)

(** The functions of the gas models once more, this time with every
    operation rounded as the program rounds it.  They are written over
    an implementation of the arithmetic of Python's [float], so that
    the same text is read in two ways: on primitive binary64 numbers,
    where a call is evaluated, and on real numbers with an explicit
    rounding function, where the error of a result is bounded.  Only
    Python floats are covered: the calls that [calculer_points_cycle]
    and [calculer_rendement] make on scalars. *)
Module Binary64.

Record arithmetic := {
  F : Type;
  lit_1 : F;                     (* the int 1, converted as an operand *)
  lit_2 : F;                     (* the int 2 *)
  lit_8_314 : F;                 (* the literal 8.314 *)
  fadd : F -> F -> F;            (* a + b *)
  fsub : F -> F -> F;            (* a - b *)
  fmul : F -> F -> F;            (* a * b *)
  truediv : F -> F -> py F;      (* a / b *)
  power : F -> F -> py F         (* a ** b *)
}.
Arguments lit_1 {a}.
Arguments lit_2 {a}.
Arguments lit_8_314 {a}.
Arguments fadd {a}.
Arguments fsub {a}.
Arguments fmul {a}.
Arguments truediv {a}.
Arguments power {a}.

Section Program.
Context {A : arithmetic}.
Local Abbreviation F := (F A).

(** *** transformations.py *)

Definition CONST_R : F := lit_8_314.

Definition isotherme (V n T : F) : py F :=
  truediv (fmul (fmul n CONST_R) T) V.

Definition adiabatique (V P0 V0 gamma : F) : py F :=
  q ← truediv V0 V;
  p ← power q gamma;
  mret (fmul P0 p).

Definition van_der_waals (V n T a b : F) : py F :=
  term1 ← truediv (fmul (fmul n CONST_R) T) (fsub V (fmul n b));
  n2 ← power n lit_2;
  V2 ← power V lit_2;
  term2 ← truediv (fmul a n2) V2;
  mret (fsub term1 term2).

(** *** gas_models.py *)

Record ModeleGaz := {
  gaz_n : F;
  gaz_gamma : F;
  gaz_R : F;
  pression : F -> F -> py F;
  temperature : F -> F -> py F;
  pression_adiabatique : F -> F -> F -> py F
}.

Definition GazParfait (n gamma : F) : ModeleGaz := {|
  gaz_n := n; gaz_gamma := gamma; gaz_R := lit_8_314;
  pression := fun V T => isotherme V n T;
  temperature := fun P V => truediv (fmul P V) (fmul n lit_8_314);
  pression_adiabatique := fun V P0 V0 => adiabatique V P0 V0 gamma |}.

Definition GazVanDerWaals_temperature (n a b P V : F) : py F :=
  n2 ← power n lit_2;
  V2 ← power V lit_2;
  q ← truediv (fmul a n2) V2;
  let term1 := fadd P q in
  let term2 := fsub V (fmul n b) in
  truediv (fmul term1 term2) (fmul n lit_8_314).

(** The test [if np.any(V <= self.n * self.b): pass] has no effect. *)
Definition GazVanDerWaals_pression_adiabatique (n gamma a b V P0 V0 : F) : py F :=
  T0 ← GazVanDerWaals_temperature n a b P0 V0;
  q ← truediv (fsub V0 (fmul n b)) (fsub V (fmul n b));
  p ← power q (fsub gamma lit_1);
  let T_new := fmul T0 p in
  van_der_waals V n T_new a b.

Definition GazVanDerWaals (n gamma a b : F) : ModeleGaz := {|
  gaz_n := n; gaz_gamma := gamma; gaz_R := lit_8_314;
  pression := fun V T => van_der_waals V n T a b;
  temperature := GazVanDerWaals_temperature n a b;
  pression_adiabatique := GazVanDerWaals_pression_adiabatique n gamma a b |}.

(** *** cycles.py *)

(** [self.tau], as [CycleOtto.__init__] sets it. *)
Definition tau (V_min V_max : F) : py F := truediv V_max V_min.

(** [eta_th] of [CycleOtto.calculer_rendement], from the two attributes
    it reads: [1 - 1 / (self.tau**(self.gaz.gamma - 1))]. *)
Definition eta_th (tau gamma : F) : py F :=
  p ← power tau (fsub gamma lit_1);
  q ← truediv lit_1 p;
  mret (fsub lit_1 q).

(** [V_C_guess] and [func_p] of [CycleDiesel.calculer_points_cycle].
    The solver calls [func_p] on numpy values; away from a zero
    divisor they give the same binary64 numbers. *)
Definition V_C_guess (V_B T_C T_B : F) : py F :=
  q ← truediv T_C T_B;
  mret (fmul V_B q).

Definition func_p (gaz : ModeleGaz) (T_C P_C v : F) : py F :=
  p ← pression gaz v T_C;
  mret (fsub p P_C).

End Program.
Arguments ModeleGaz : clear implicits.

(** *** Primitive binary64 numbers

    [+], [-] and [*] on Python floats are the IEEE 754 operations and
    raise nothing; [/] raises on a zero divisor; [**] is CPython's
    [float_pow], which settles the special cases itself and leaves the
    others to the [pow] of the C library, a parameter here. *)

(** [x == floor(x)] for a finite [x] *)
Definition is_integer (x : float) : bool :=
  match Prim2SF x with
  | S754_finite _ m e =>
      (0 <=? e)%Z || (Z.pos m mod 2 ^ (- e) =? 0)%Z
  | _ => true
  end.

(** [DOUBLE_IS_ODD_INTEGER(x)]: [fmod(fabs(x), 2.0) == 1.0] *)
Definition is_odd_integer (x : float) : bool :=
  match Prim2SF x with
  | S754_finite _ m e =>
      if (0 <? e)%Z then false
      else (Z.pos m mod 2 ^ (- e) =? 0)%Z && Z.odd (Z.pos m / 2 ^ (- e))
  | _ => false
  end.

Definition float_div (a b : float) : py float :=
  if (b =? 0)%float then Raise ZeroDivisionError else Ret (a / b)%float.

Definition float_pow (libm_pow : float -> float -> float) (iv iw : float)
  : py float :=
  if (iw =? 0)%float then Ret 1%float
  else if PrimFloat.is_nan iv then Ret iv
  else if PrimFloat.is_nan iw then Ret (if (iv =? 1)%float then 1%float else iw)
  else if PrimFloat.is_infinity iw then
    let iv := PrimFloat.abs iv in
    if (iv =? 1)%float then Ret 1%float
    else if Bool.eqb (0 <? iw)%float (1 <? iv)%float then Ret (PrimFloat.abs iw)
    else Ret 0%float
  else if PrimFloat.is_infinity iv then
    let iw_is_odd := is_odd_integer iw in
    if (0 <? iw)%float then Ret (if iw_is_odd then iv else PrimFloat.abs iv)
    else Ret (if iw_is_odd && (iv <? 0)%float then (- 0)%float else 0%float)
  else if (iv =? 0)%float then
    if (iw <? 0)%float then Raise ZeroDivisionError
    else Ret (if is_odd_integer iw then iv else 0%float)
  else if (iv <? 0)%float && negb (is_integer iw) then NotReal
  else
    let negate_result := (iv <? 0)%float && is_odd_integer iw in
    let iv := PrimFloat.abs iv in
    if (iv =? 1)%float then Ret (if negate_result then (- 1)%float else 1%float)
    else
      let ix := libm_pow iv iw in
      if PrimFloat.is_infinity ix then Raise OverflowError
      else Ret (if negate_result then (- ix)%float else ix).

Definition prim (libm_pow : float -> float -> float) : arithmetic := {|
  F := float;
  lit_1 := 1%float;
  lit_2 := 2%float;
  lit_8_314 := 8.314%float;
  fadd := PrimFloat.add;
  fsub := PrimFloat.sub;
  fmul := PrimFloat.mul;
  truediv := float_div;
  power := float_pow libm_pow |}.

(** *** Real numbers with a rounding function

    [rnd] maps a real number to the binary64 number an operation
    returns for it, and [libm_pow] is the [pow] of the C library on the
    numbers it is called on.  Infinite values and [nan] do not occur:
    overflow is not modelled here. *)

Definition real_pow (libm_pow : R -> R -> R) (x y : R) : py R :=
  if Req_dec_T y 0 then Ret 1
  else if Req_dec_T x 0 then
    if Rlt_dec y 0 then Raise ZeroDivisionError else Ret 0
  else if Rlt_dec x 0 then
    if Req_dec_T (frac_part y) 0 then
      let r := if Req_dec_T x (-1) then 1 else libm_pow (- x) y in
      Ret (if Z.odd (Int_part y) then - r else r)
    else NotReal
  else if Req_dec_T x 1 then Ret 1
  else Ret (libm_pow x y).

Definition rounded (rnd : R -> R) (libm_pow : R -> R -> R) : arithmetic := {|
  F := R;
  lit_1 := 1;
  lit_2 := 2;
  lit_8_314 := rnd 8.314;
  fadd := fun x y => rnd (x + y);
  fsub := fun x y => rnd (x - y);
  fmul := fun x y => rnd (x * y);
  truediv := fun x y =>
    if Req_dec_T y 0 then Raise ZeroDivisionError else Ret (rnd (x / y));
  power := real_pow libm_pow |}.

End Binary64.

(** ** Rounding errors

    [tol u k] bounds the relative error that [k] operations leave when
    each one has relative error at most [u]; [within u k x y] says that
    [x] is [y] up to [k] such errors. *)
Definition tol (u : R) (k : nat) : R := / (1 - u) ^ k - 1.

Definition within (u : R) (k : nat) (x y : R) : Prop :=
  exists q, x = y * q /\ (1 - u) ^ k <= q <= / (1 - u) ^ k.

(** ** A solver, a quadrature, an engine and a rounding function for
    the examples *)

(** A solver of which only the first step is modelled: started on an
    exact root it returns it, as [fsolve] does; any other run is
    outside the model. *)
Definition fsolve_from_root (f : num -> py num) (x0 : num) : py num :=
  z ← f (Np (val x0));
  if Req_dec_T (val z) 0 then Ret (Np (val x0)) else NotReal.

(** The trapezoidal rule, a quadrature with which the parameter
    [simpson] can be instantiated. *)
Fixpoint trapezes (y x : list R) : R :=
  match y, x with
  | y0 :: ((y1 :: _) as y'), x0 :: ((x1 :: _) as x') =>
      (x1 - x0) * (y0 + y1) / 2 + trapezes y' x'
  | _, _ => 0
  end.

(** An engine on one mole of ideal gas, of compression ratio 4, with
    its corners filled in. *)
Definition engine_tau_4 : Cycle := {|
  gaz := GazParfait (Py 1) (Py 1.4);
  V_min := Py 2; V_max := Py 8; V_A := Py 8;
  T_A := Py 300; P_A := Py 101300; T_C := Py 2000;
  points := corners (Py 8, Py 101300, Py 300) (Py 2, Py 705000, Py 522)
                    (Py 2, Py 2700000, Py 2000) (Py 8, Py 388000, Py 1150);
  tau := Py 4 |}.

(** A rounding function for the examples, which keeps three decimals
    of a number that is at least 1 in magnitude and leaves a smaller
    one as it is. *)
Definition decimal3 (x : R) : R :=
  if Rlt_dec (Rabs x) 1 then x else IZR (up (1000 * x - / 2)) / 1000.

(** * Properties *)

(** ** Arithmetic on the real domain *)

Lemma div_ok (a b : num) :
  val b <> 0 -> div a b = Ret (Num (val a / val b) (np a || np b)).
Proof.
  intros Hb. unfold div. destruct (Req_dec_T (val b) 0) as [E|_]; [contradiction|reflexivity].
Qed.

Lemma div_zero_py (a b : num) :
  val b = 0 -> np a = false -> np b = false -> div a b = Raise ZeroDivisionError.
Proof.
  intros Hb Ha Hn. unfold div.
  destruct (Req_dec_T (val b) 0) as [_|N]; [|contradiction].
  now rewrite Ha, Hn.
Qed.

Lemma div_zero_np (a b : num) :
  val b = 0 -> np a || np b = true -> div a b = NotReal.
Proof.
  intros Hb Hn. unfold div.
  destruct (Req_dec_T (val b) 0) as [_|N]; [|contradiction].
  now rewrite Hn.
Qed.

Lemma pow_pos (a b : num) :
  0 < val a -> pow a b = Ret (Num (Rpower (val a) (val b)) (np a || np b)).
Proof.
  intros Ha. unfold pow. destruct (Rlt_dec 0 (val a)); [reflexivity|contradiction].
Qed.

Lemma frac_part_2 : frac_part 2 = 0.
Proof.
  unfold frac_part. change 2 with (INR 2). rewrite Int_part_INR.
  change (Z.of_nat 2) with 2%Z. simpl. lra.
Qed.

Lemma Int_part_2 : Int_part 2 = 2%Z.
Proof. change 2 with (INR 2). now rewrite Int_part_INR. Qed.

(** [x ** 2] is [x * x] whatever the sign of [x]. *)
Lemma pow_2 (a : num) : pow a (Py 2) = Ret (Num (val a * val a) (np a || false)).
Proof.
  unfold pow; simpl val; simpl np.
  destruct (Rlt_dec 0 (val a)) as [Hp|Hn].
  - do 2 f_equal. change 2 with (INR 2). rewrite Rpower_pow by assumption. simpl. lra.
  - destruct (Req_dec_T (val a) 0) as [E|N].
    + destruct (Rlt_dec 0 2) as [_|C]; [|lra]. do 2 f_equal. rewrite E. lra.
    + destruct (Req_dec_T (frac_part 2) 0) as [_|C]; [|now destruct C; apply frac_part_2].
      do 2 f_equal. rewrite Int_part_2. simpl. lra.
Qed.

Lemma np_log_pos (a : num) : 0 < val a -> np_log a = Ret (Np (ln (val a))).
Proof.
  intros Ha. unfold np_log. destruct (Rlt_dec 0 (val a)); [reflexivity|contradiction].
Qed.

Lemma Rpower_1_l (y : R) : Rpower 1 y = 1.
Proof. unfold Rpower. rewrite ln_1, Rmult_0_r. apply exp_0. Qed.

Lemma Rpower_succ (x y : R) : 0 < x -> Rpower x (y - 1) * x = Rpower x y.
Proof.
  intros Hx. rewrite <- (Rpower_1 x Hx) at 2. rewrite <- Rpower_plus. f_equal. lra.
Qed.

Lemma returns_inj (m : py num) (x y : R) : returns m x -> returns m y -> x = y.
Proof. intros (r & Hr & <-) (r' & Hr' & <-). congruence. Qed.

(** Rewrites the next operation of a computation whose operands are in
    the real domain, then evaluates the bind. *)
Ltac py_step :=
  first
    [ rewrite pow_2
    | rewrite div_ok by (simpl; try nra; try lra; auto)
    | rewrite pow_pos by (simpl; try nra; try lra; auto)
    | rewrite np_log_pos by (simpl; try nra; try lra; auto) ];
  cbn [mbind py_bind mret py_ret].

Ltac py_run := unfold returns; repeat py_step; eexists; split; [reflexivity|simpl].

(** ** The two equations of state on their domain *)

Section IdealGas.
Variables n gamma : num.

Lemma isotherme_returns (V T : num) :
  val V <> 0 ->
  returns (isotherme V n T) (val n * 8.314 * val T / val V).
Proof. intros HV. unfold isotherme. py_run. reflexivity. Qed.

Lemma GazParfait_temperature_returns (P V : num) :
  val n <> 0 ->
  returns (temperature (GazParfait n gamma) P V) (val P * val V / (val n * 8.314)).
Proof. intros Hn. simpl temperature. py_run. reflexivity. Qed.

Lemma adiabatique_returns (V P0 V0 : num) :
  0 < val V -> 0 < val V0 ->
  returns (adiabatique V P0 V0 gamma)
          (val P0 * Rpower (val V0 / val V) (val gamma)).
Proof.
  intros HV HV0. unfold adiabatique.
  assert (0 < val V0 / val V) by (apply Rdiv_lt_0_compat; assumption).
  py_run. reflexivity.
Qed.
End IdealGas.

Section VanDerWaals.
Variables n gamma a b : num.

Lemma van_der_waals_returns (V T : num) :
  val V <> 0 -> val V - val n * val b <> 0 ->
  returns (van_der_waals V n T a b)
          (val n * 8.314 * val T / (val V - val n * val b)
           - val a * (val n * val n) / (val V * val V)).
Proof. intros HV Hb. unfold van_der_waals. py_run. reflexivity. Qed.

Lemma GazVanDerWaals_temperature_returns (P V : num) :
  val V <> 0 -> val n <> 0 ->
  returns (GazVanDerWaals.temperature n a b P V)
          ((val P + val a * (val n * val n) / (val V * val V))
           * (val V - val n * val b) / (val n * 8.314)).
Proof. intros HV Hn. unfold GazVanDerWaals.temperature. py_run. reflexivity. Qed.

Lemma GazVanDerWaals_pression_adiabatique_returns (V P0 V0 : num) :
  val n <> 0 ->
  0 < val V -> val n * val b < val V ->
  0 < val V0 -> val n * val b < val V0 ->
  returns (GazVanDerWaals.pression_adiabatique n gamma a b V P0 V0)
          (val n * 8.314
           * ((val P0 + val a * (val n * val n) / (val V0 * val V0))
              * (val V0 - val n * val b) / (val n * 8.314)
              * Rpower ((val V0 - val n * val b) / (val V - val n * val b))
                       (val gamma - 1))
           / (val V - val n * val b)
           - val a * (val n * val n) / (val V * val V)).
Proof.
  intros Hn HV HVb HV0 HV0b. unfold GazVanDerWaals.pression_adiabatique.
  destruct (GazVanDerWaals_temperature_returns P0 V0) as (T0 & -> & HT0); [lra|assumption|].
  cbn [mbind py_bind].
  assert (0 < (val V0 - val n * val b) / (val V - val n * val b))
    by (apply Rdiv_lt_0_compat; lra).
  do 2 py_step.
  destruct (van_der_waals_returns V
              (mul T0 (Num (Rpower ((val V0 - val n * val b) / (val V - val n * val b))
                                   (val gamma - 1))
                           (np (sub V0 (mul n b)) || np (sub V (mul n b))
                            || np (sub gamma (Py 1))))))
    as (p & Hp & Hv); [lra|lra|].
  exists p. split; [exact Hp|]. rewrite Hv. simpl. rewrite HT0. reflexivity.
Qed.
End VanDerWaals.

(** ** Sampled paths *)

Lemma mapM_py_inv {A B} (f : A -> py B) (l : list A) (ys : list B) :
  mapM f l = Ret ys -> Forall2 (fun x y => f x = Ret y) l ys.
Proof.
  revert ys. induction l as [|x l IH]; intros ys; simpl.
  - intros [= <-]. constructor.
  - destruct (f x) as [y| |] eqn:Hx; try discriminate. cbn [mbind py_bind].
    destruct (mapM f l) as [k| |]; try discriminate. cbn [mbind py_bind mret py_ret].
    intros [= <-]. constructor; [exact Hx|]. now apply IH.
Qed.

Lemma mapM_py_returns {A B} (f : A -> py B) (l : list A) :
  Forall (fun x => exists y, f x = Ret y) l ->
  exists ys, mapM f l = Ret ys.
Proof.
  induction 1 as [|x l (y & Hy) _ (ys & Hys)]; simpl.
  - now exists [].
  - rewrite Hy. cbn [mbind py_bind]. rewrite Hys. now exists (y :: ys).
Qed.

Lemma linspace_first (a b : num) (k : nat) :
  exists v l, linspace a b (S k) = v :: l /\ val v = val a /\ np v = true.
Proof.
  unfold linspace. simpl seq. simpl map. eexists _, _. split; [reflexivity|].
  split; [simpl; lra|reflexivity].
Qed.

(** Every sample lies between the two ends. *)
Lemma linspace_range (a b : num) (k : nat) :
  Forall (fun v => Rmin (val a) (val b) <= val v <= Rmax (val a) (val b))
         (linspace a b k).
Proof.
  unfold linspace. apply List.Forall_forall. intros v Hv.
  apply in_map_iff in Hv as (i & <- & Hi). apply in_seq in Hi. simpl val.
  destruct (Nat.eq_dec (k - 1)%nat 0%nat) as [E|N].
  - assert (i = 0%nat) as -> by lia. simpl INR. rewrite Rmult_0_l, Rplus_0_r.
    split; [apply Rmin_l | apply Rmax_l].
  - set (m := INR (k - 1)). set (t := INR i / m).
    assert (Hm : 0 < m) by (apply lt_0_INR; lia).
    assert (Ht : 0 <= t <= 1).
    { unfold t. split.
      - apply Rmult_le_pos; [apply pos_INR | left; now apply Rinv_0_lt_compat].
      - apply Rmult_le_reg_r with m; [assumption|].
        replace (INR i / m * m) with (INR i) by (field; lra).
        rewrite Rmult_1_l. apply le_INR. lia. }
    replace (INR i * ((val b - val a) / m)) with (t * (val b - val a))
      by (unfold t; field; lra).
    pose proof (Rmin_l (val a) (val b)). pose proof (Rmin_r (val a) (val b)).
    pose proof (Rmax_l (val a) (val b)). pose proof (Rmax_r (val a) (val b)).
    split; nra.
Qed.

Lemma obtenir_courbe_adiabatique_inv (self : Cycle) (d f : string) (k : nat)
    (Vs Ps : list num) :
  CycleOtto.obtenir_courbe_adiabatique self d f k = Ret (Vs, Ps) ->
  exists V_start P_start T_start V_end P_end T_end,
    points self !! d = Some (V_start, P_start, T_start) /\
    points self !! f = Some (V_end, P_end, T_end) /\
    Vs = linspace V_start V_end k /\
    Forall2 (fun V P => pression_adiabatique (gaz self) V P_start V_start = Ret P) Vs Ps.
Proof.
  unfold CycleOtto.obtenir_courbe_adiabatique, getitem.
  destruct (points self !! d) as [[[V_start P_start] T_start]|]; [|discriminate].
  destruct (points self !! f) as [[[V_end P_end] T_end]|]; [|discriminate].
  cbn [mbind py_bind].
  destruct (mapM _ _) as [ps| |] eqn:HM; try discriminate.
  cbn [mbind py_bind mret py_ret]. intros [= <- <-].
  exists V_start, P_start, T_start, V_end, P_end, T_end.
  repeat split; try reflexivity. now apply mapM_py_inv.
Qed.

Lemma obtenir_courbe_adiabatique_returns (self : Cycle) (d f : string) (k : nat)
    (V_start P_start T_start V_end P_end T_end : num) :
  points self !! d = Some (V_start, P_start, T_start) ->
  points self !! f = Some (V_end, P_end, T_end) ->
  (forall V, Rmin (val V_start) (val V_end) <= val V <= Rmax (val V_start) (val V_end) ->
             exists P, pression_adiabatique (gaz self) V P_start V_start = Ret P) ->
  exists Ps, CycleOtto.obtenir_courbe_adiabatique self d f k
             = Ret (linspace V_start V_end k, Ps).
Proof.
  intros Hd Hf Hdom. unfold CycleOtto.obtenir_courbe_adiabatique, getitem.
  rewrite Hd, Hf. cbn [mbind py_bind].
  destruct (mapM_py_returns
              (fun V => pression_adiabatique (gaz self) V P_start V_start)
              (linspace V_start V_end k)) as (Ps & HPs).
  { eapply Forall_impl; [apply linspace_range|]. intros V HV. now apply Hdom. }
  rewrite HPs. now exists Ps.
Qed.

(** Both gases compute the adiabatic pressure wherever the volume and
    the reference volume exceed the covolume. *)
Lemma pression_adiabatique_total (n gamma a b V P0 V0 : num) :
  0 < val n -> 0 < val V -> val n * val b < val V ->
  0 < val V0 -> val n * val b < val V0 ->
  (exists P, pression_adiabatique (GazParfait n gamma) V P0 V0 = Ret P) /\
  (exists P, pression_adiabatique (GazVanDerWaals n gamma a b) V P0 V0 = Ret P).
Proof.
  intros Hn HV HVb HV0 HV0b. split.
  - destruct (adiabatique_returns gamma V P0 V0) as (p & Hp & _); [lra|lra|]. now exists p.
  - destruct (GazVanDerWaals_pression_adiabatique_returns n gamma a b V P0 V0)
      as (p & Hp & _); [lra|lra|lra|lra|lra|]. now exists p.
Qed.

Lemma Rmin_Rmax_gt (lo x y v : R) :
  lo < x -> lo < y -> Rmin x y <= v <= Rmax x y -> lo < v.
Proof.
  intros Hx Hy [Hv _]. unfold Rmin in Hv. destruct (Rle_dec x y); lra.
Qed.

(** ** Entropy *)

Lemma Rmax_floor_pos (x : R) : 0 < Rmax 1e-10 x.
Proof. pose proof (Rmax_l 1e-10 x). lra. Qed.

(** C7, as the code has it.  For every gas model, with [gamma <> 1] and
    positive [T] and [T_ref], the entropy difference is
    [Cv ln(T/T_ref) + n R ln(V_eff / V_ref_eff)] where [Cv = n R / (gamma - 1)]
    is the heat capacity of the [n] moles and [V_eff], [V_ref_eff] are
    [V - n b] and [V_ref - n b] raised to the floor [1e-10]; it is
    computed whatever the volumes are. *)
Theorem variation_entropie_formula (self : ModeleGaz) (T V T_ref V_ref : num) :
  val (gaz_gamma self) <> 1 -> 0 < val T -> 0 < val T_ref ->
  returns (variation_entropie self T V T_ref V_ref)
    (val (gaz_n self) * val (gaz_R self) / (val (gaz_gamma self) - 1)
       * ln (val T / val T_ref)
     + val (gaz_n self) * val (gaz_R self)
       * ln (Rmax 1e-10 (val V - val (gaz_b self) * val (gaz_n self))
             / Rmax 1e-10 (val V_ref - val (gaz_b self) * val (gaz_n self)))).
Proof.
  intros Hg HT HTref. unfold variation_entropie.
  assert (0 < val T / val T_ref) by (apply Rdiv_lt_0_compat; assumption).
  pose proof (Rmax_floor_pos (val V - val (gaz_b self) * val (gaz_n self))).
  pose proof (Rmax_floor_pos (val V_ref - val (gaz_b self) * val (gaz_n self))).
  assert (0 < Rmax 1e-10 (val V - val (gaz_b self) * val (gaz_n self))
              / Rmax 1e-10 (val V_ref - val (gaz_b self) * val (gaz_n self)))
    by (apply Rdiv_lt_0_compat; assumption).
  py_run. reflexivity.
Qed.

Lemma variation_entropie_formula_witness :
  returns (variation_entropie (GazVanDerWaals (Py 2) (Py 1.4) (Py 0.14) (Py 1))
             (Py 600) (Py 1) (Py 300) (Py 5))
    (2 * 8.314 / (1.4 - 1) * ln (600 / 300)
     + 2 * 8.314 * ln (Rmax 1e-10 (1 - 1 * 2) / Rmax 1e-10 (5 - 1 * 2))).
Proof.
  apply (variation_entropie_formula (GazVanDerWaals (Py 2) (Py 1.4) (Py 0.14) (Py 1))
           (Py 600) (Py 1) (Py 300) (Py 5)); simpl; lra.
Defined.

(** C7 as the specification words it, [n Cv ln(T/T_ref) + ...] with
    [Cv = n R / (gamma - 1)], counts [n] twice: for two moles of ideal
    gas with [gamma = 2], heated from [T_ref = 1] to [T = 2] at constant
    volume, the code does not return that value. *)
Lemma variation_entropie_not_n_Cv :
  let n := 2 in let gamma := 2 in
  let Cv := n * 8.314 / (gamma - 1) in
  ~ returns (variation_entropie (GazParfait (Py n) (Py gamma)) (Py 2) (Py 1) (Py 1) (Py 1))
      (n * Cv * ln (2 / 1)
       + n * 8.314 * ln (Rmax 1e-10 (1 - 0 * n) / Rmax 1e-10 (1 - 0 * n))).
Proof.
  intros n gamma Cv Hc.
  pose proof (variation_entropie_formula (GazParfait (Py n) (Py gamma))
                (Py 2) (Py 1) (Py 1) (Py 1)) as Hf.
  simpl in Hf. specialize (Hf ltac:(unfold gamma; lra) ltac:(lra) ltac:(lra)).
  pose proof (returns_inj _ _ _ Hc Hf) as E.
  unfold Cv, n, gamma in E.
  pose proof ln_lt_2 as Hl.
  replace (2 / 1) with 2 in E by lra.
  set (l := ln (Rmax 1e-10 (1 - 0 * 2) / Rmax 1e-10 (1 - 0 * 2))) in *.
  lra.
Qed.

(** ** Volumes at or below the covolume *)

Lemma frac_part_04 : frac_part (1.4 - 1) <> 0.
Proof.
  destruct (Int_part_frac_part_spec (1.4 - 1) 0 0.4) as [_ <-]; simpl; lra.
Qed.

(** C1 fails below the covolume.  One mole with [b = 2] at [V = 1]:
    the pressure is returned, and is negative; the adiabatic pressure
    from [V0 = 3] raises nothing either, its value is a complex number. *)
Lemma pression_below_covolume_returns :
  let g := GazVanDerWaals (Py 1) (Py 1.4) (Py 0) (Py 2) in
  1 <= val (gaz_n g) * val (gaz_b g) /\
  (exists P, pression g (Py 1) (Py 300) = Ret P /\ val P = -2494.2) /\
  pression_adiabatique g (Py 1) (Py 101300) (Py 3) = NotReal.
Proof.
  simpl. split; [lra|]. split.
  - unfold GazVanDerWaals.pression.
    destruct (van_der_waals_returns (Py 1) (Py 0) (Py 2) (Py 1) (Py 300))
      as (P & HP & Hv); simpl; try lra.
    exists P. split; [exact HP|]. rewrite Hv. simpl. lra.
  - unfold GazVanDerWaals.pression_adiabatique.
    destruct (GazVanDerWaals_temperature_returns (Py 1) (Py 0) (Py 2) (Py 101300) (Py 3))
      as (T0 & -> & _); simpl; try lra.
    cbn [mbind py_bind]. py_step.
    unfold pow. simpl val.
    destruct (Rlt_dec 0 ((3 - 1 * 2) / (1 - 1 * 2))) as [C|_]; [lra|].
    destruct (Req_dec_T ((3 - 1 * 2) / (1 - 1 * 2)) 0) as [C|_]; [lra|].
    destruct (Req_dec_T (frac_part (1.4 - 1)) 0) as [C|_]; [now apply frac_part_04 in C|].
    reflexivity.
Qed.

(** C1, as the code has it.  With Python floats, a volume equal to the
    covolume [n b] makes both the pressure and the adiabatic pressure
    of the Van der Waals gas fail, with [ZeroDivisionError]; a non-zero
    volume below [n b] is accepted, and the pressure returned there is
    [nRT/(V - nb) - a n^2/V^2], negative for positive [n] and [T] and
    non-negative [a]. *)
Theorem GazVanDerWaals_covolume (n gamma a b V T P0 V0 : num) :
  np n = false -> np a = false -> np b = false -> np V = false ->
  np T = false -> np P0 = false -> np V0 = false ->
  (val V = val n * val b ->
     pression (GazVanDerWaals n gamma a b) V T = Raise ZeroDivisionError /\
     pression_adiabatique (GazVanDerWaals n gamma a b) V P0 V0
       = Raise ZeroDivisionError) /\
  (val V < val n * val b -> val V <> 0 ->
     returns (pression (GazVanDerWaals n gamma a b) V T)
       (val n * 8.314 * val T / (val V - val n * val b)
        - val a * (val n * val n) / (val V * val V)) /\
     (0 < val n -> 0 < val T -> 0 <= val a ->
      val n * 8.314 * val T / (val V - val n * val b)
        - val a * (val n * val n) / (val V * val V) < 0)).
Proof.
  intros Nn Na Nb NV NT NP0 NV0. split.
  - intros E. split.
    + simpl. unfold GazVanDerWaals.pression, van_der_waals.
      rewrite div_zero_py; [reflexivity|simpl; lra|simpl; now rewrite Nn, NT|
                            simpl; now rewrite NV, Nn, Nb].
    + simpl. unfold GazVanDerWaals.pression_adiabatique, GazVanDerWaals.temperature.
      do 2 py_step.
      destruct (Req_dec_T (val V0) 0) as [Z|NZ].
      { rewrite (div_zero_py (mul a _) (Num (val V0 * val V0) _));
          [reflexivity|simpl; rewrite Z; lra|simpl; now rewrite Na, Nn|simpl; now rewrite NV0]. }
      rewrite (div_ok (mul a _) (Num (val V0 * val V0) _)) by (simpl; nra).
      cbn [mbind py_bind].
      destruct (Req_dec_T (val n) 0) as [Zn|NZn].
      { rewrite (div_zero_py (mul (add P0 _) _) (mul n (Py 8.314)));
          [reflexivity|simpl; rewrite Zn; lra|
           simpl; now rewrite NP0, Na, Nn, NV0, Nb|simpl; now rewrite Nn]. }
      rewrite (div_ok (mul (add P0 _) _) (mul n (Py 8.314))) by (simpl; nra).
      cbn [mbind py_bind].
      rewrite div_zero_py; [reflexivity|simpl; lra|simpl; now rewrite NV0, Nn, Nb|
                            simpl; now rewrite NV, Nn, Nb].
  - intros Hlt HV. split.
    + apply van_der_waals_returns; lra.
    + intros Hn HT Ha.
      assert (H1 : val n * 8.314 * val T / (val V - val n * val b) < 0).
      { apply Ropp_lt_cancel. rewrite Ropp_0.
        replace (- (val n * 8.314 * val T / (val V - val n * val b)))
          with (val n * 8.314 * val T / (val n * val b - val V)) by (field; lra).
        apply Rdiv_lt_0_compat; nra. }
      assert (H2 : 0 <= val a * (val n * val n) / (val V * val V)).
      { apply Rmult_le_pos; [nra|]. left. apply Rinv_0_lt_compat. nra. }
      lra.
Qed.

Lemma GazVanDerWaals_covolume_witness :
  let g := GazVanDerWaals (Py 1) (Py 1.4) (Py 0.14) (Py 2) in
  (pression g (Py 2) (Py 300) = Raise ZeroDivisionError /\
   pression_adiabatique g (Py 2) (Py 101300) (Py 3) = Raise ZeroDivisionError) /\
  returns (pression g (Py 1) (Py 300))
    (1 * 8.314 * 300 / (1 - 1 * 2) - 0.14 * (1 * 1) / (1 * 1)).
Proof.
  split.
  - refine (proj1 (GazVanDerWaals_covolume (Py 1) (Py 1.4) (Py 0.14) (Py 2)
                     (Py 2) (Py 300) (Py 101300) (Py 3)
                     eq_refl eq_refl eq_refl eq_refl eq_refl eq_refl eq_refl) _).
    simpl. lra.
  - refine (proj1 (proj2 (GazVanDerWaals_covolume (Py 1) (Py 1.4) (Py 0.14) (Py 2)
                            (Py 1) (Py 300) (Py 101300) (Py 3)
                            eq_refl eq_refl eq_refl eq_refl eq_refl eq_refl eq_refl)
                     _ _)); simpl; lra.
Defined.

(** ** The four corners of the Otto cycle *)

Lemma corners_lookup (a b c d : point) :
  corners a b c d !! "A" = Some a /\ corners a b c d !! "B" = Some b /\
  corners a b c d !! "C" = Some c /\ corners a b c d !! "D" = Some d.
Proof. repeat split; reflexivity. Qed.

Lemma calculer_points_cycle_returns (self : Cycle) (P_B T_B P_C P_D T_D : num) :
  pression_adiabatique (gaz self) (V_min self) (P_A self) (V_max self) = Ret P_B ->
  temperature (gaz self) P_B (V_min self) = Ret T_B ->
  pression (gaz self) (V_min self) (T_C self) = Ret P_C ->
  pression_adiabatique (gaz self) (V_max self) P_C (V_min self) = Ret P_D ->
  temperature (gaz self) P_D (V_max self) = Ret T_D ->
  CycleOtto.calculer_points_cycle self
  = Ret (set_points self
           (corners (V_max self, P_A self, T_A self) (V_min self, P_B, T_B)
                    (V_min self, P_C, T_C self) (V_max self, P_D, T_D))).
Proof.
  intros H1 H2 H3 H4 H5. unfold CycleOtto.calculer_points_cycle.
  rewrite H1. cbn [mbind py_bind]. rewrite H2. cbn [mbind py_bind].
  rewrite H3. cbn [mbind py_bind]. rewrite H4. cbn [mbind py_bind].
  rewrite H5. reflexivity.
Qed.

(** C3. For every gas model, [calculer_points_cycle] returns exactly
    when the five gas evaluations it makes return, and then stores
    A = (V_max, P_A, T_A), B = (V_min, P_B, T_B) with P_B the adiabatic
    pressure at V_min from (P_A, V_max) and T_B the temperature at
    (P_B, V_min), C = (V_min, P_C, T_C) with T_C the imposed temperature
    and P_C the pressure at (V_min, T_C), D = (V_max, P_D, T_D) with P_D
    the adiabatic pressure at V_max from (P_C, V_min) and T_D the
    temperature at (P_D, V_max); the other attributes are unchanged. *)
Theorem calculer_points_cycle_corners (self self' : Cycle) :
  CycleOtto.calculer_points_cycle self = Ret self' <->
  exists P_B T_B P_C P_D T_D,
    pression_adiabatique (gaz self) (V_min self) (P_A self) (V_max self) = Ret P_B /\
    temperature (gaz self) P_B (V_min self) = Ret T_B /\
    pression (gaz self) (V_min self) (T_C self) = Ret P_C /\
    pression_adiabatique (gaz self) (V_max self) P_C (V_min self) = Ret P_D /\
    temperature (gaz self) P_D (V_max self) = Ret T_D /\
    self' = set_points self
              (corners (V_max self, P_A self, T_A self) (V_min self, P_B, T_B)
                       (V_min self, P_C, T_C self) (V_max self, P_D, T_D)) /\
    points self' !! "A" = Some (V_max self, P_A self, T_A self) /\
    points self' !! "B" = Some (V_min self, P_B, T_B) /\
    points self' !! "C" = Some (V_min self, P_C, T_C self) /\
    points self' !! "D" = Some (V_max self, P_D, T_D).
Proof.
  split.
  - unfold CycleOtto.calculer_points_cycle.
    destruct (pression_adiabatique (gaz self) (V_min self) (P_A self) (V_max self))
      as [P_B| |] eqn:H1; try discriminate. cbn [mbind py_bind].
    destruct (temperature (gaz self) P_B (V_min self)) as [T_B| |] eqn:H2;
      try discriminate. cbn [mbind py_bind].
    destruct (pression (gaz self) (V_min self) (T_C self)) as [P_C| |] eqn:H3;
      try discriminate. cbn [mbind py_bind].
    destruct (pression_adiabatique (gaz self) (V_max self) P_C (V_min self))
      as [P_D| |] eqn:H4; try discriminate. cbn [mbind py_bind].
    destruct (temperature (gaz self) P_D (V_max self)) as [T_D| |] eqn:H5;
      try discriminate. cbn [mbind py_bind mret py_ret].
    intros [= <-]. exists P_B, T_B, P_C, P_D, T_D.
    repeat split; try assumption; reflexivity.
  - intros (P_B & T_B & P_C & P_D & T_D & H1 & H2 & H3 & H4 & H5 & -> & _).
    now apply calculer_points_cycle_returns.
Qed.

(** With either gas the corners are computed as soon as the amount of
    gas is positive and both volumes are positive and above the covolume. *)
Lemma calculer_points_cycle_total (self : Cycle) (n gamma a b : num) :
  gaz self = GazParfait n gamma \/ gaz self = GazVanDerWaals n gamma a b ->
  0 < val n ->
  0 < val (V_min self) -> val n * val b < val (V_min self) ->
  0 < val (V_max self) -> val n * val b < val (V_max self) ->
  exists self', CycleOtto.calculer_points_cycle self = Ret self'.
Proof.
  intros Hg Hn Hmin Hminb Hmax Hmaxb.
  assert (Had : forall V P0 V0, 0 < val V -> val n * val b < val V ->
            0 < val V0 -> val n * val b < val V0 ->
            exists P, pression_adiabatique (gaz self) V P0 V0 = Ret P).
  { intros V P0 V0 H1 H2 H3 H4.
    destruct (pression_adiabatique_total n gamma a b V P0 V0) as [Hi Hv]; try lra.
    destruct Hg as [-> | ->]; assumption. }
  assert (Ht : forall P V, 0 < val V -> exists T, temperature (gaz self) P V = Ret T).
  { intros P V HV. destruct Hg as [-> | ->].
    - destruct (GazParfait_temperature_returns n gamma P V) as (T & HT & _); [lra|].
      now exists T.
    - destruct (GazVanDerWaals_temperature_returns n a b P V) as (T & HT & _); [lra|lra|].
      now exists T. }
  assert (Hp : forall V T, 0 < val V -> val n * val b < val V ->
            exists P, pression (gaz self) V T = Ret P).
  { intros V T H1 H2. destruct Hg as [-> | ->].
    - destruct (isotherme_returns n V T) as (P & HP & _); [lra|]. now exists P.
    - destruct (van_der_waals_returns n a b V T) as (P & HP & _); [lra|lra|]. now exists P. }
  destruct (Had (V_min self) (P_A self) (V_max self)) as (P_B & HPB); try assumption.
  destruct (Ht P_B (V_min self)) as (T_B & HTB); try assumption.
  destruct (Hp (V_min self) (T_C self)) as (P_C & HPC); try assumption.
  destruct (Had (V_max self) P_C (V_min self)) as (P_D & HPD); try assumption.
  destruct (Ht P_D (V_max self)) as (T_D & HTD); try assumption.
  eexists. apply (calculer_points_cycle_returns self P_B T_B P_C P_D T_D); assumption.
Qed.

(** ** Compression ratios of at most one *)

(** C2 fails at [tau = 1]: an engine with [V_min = V_max] is built, and
    its corners are computed, without any failure. *)
Lemma tau_one_not_rejected :
  exists self self',
    CycleOtto.__init__ (GazParfait (Py 1) (Py 1.4))
      (Py 0.001) (Py 0.001) (Py 300) (Py 101300) (Py 2000) = Ret self /\
    val (tau self) = 1 /\
    CycleOtto.calculer_points_cycle self = Ret self'.
Proof.
  unfold CycleOtto.__init__. rewrite div_ok by (simpl; lra).
  cbn [mbind py_bind mret py_ret].
  set (s := {| gaz := GazParfait (Py 1) (Py 1.4);
               V_min := Py 0.001; V_max := Py 0.001; V_A := Py 0.001;
               T_A := Py 300; P_A := Py 101300; T_C := Py 2000;
               points := ∅; tau := Py (0.001 / 0.001) |}).
  assert (Hs : exists self', CycleOtto.calculer_points_cycle s = Ret self').
  { apply (calculer_points_cycle_total s (Py 1) (Py 1.4) (Py 0) (Py 0));
      [now left|simpl; lra..]. }
  destruct Hs as (self' & H).
  exists s, self'. split; [reflexivity|]. split; [|exact H]. simpl. lra.
Qed.

(** C2, as the code has it.  No configuration is rejected for its
    compression ratio: whenever [V_min] is not zero the constructor
    returns an engine with [tau = V_max / V_min] and no corner yet, also
    when [tau <= 1]; and with an ideal gas ([n > 0]) and
    [V_min = V_max > 0] the corners are computed, B at the pressure of A. *)
Theorem init_accepts_any_ratio (g : ModeleGaz) (Vmin Vmax TA PA TC : num) :
  val Vmin <> 0 ->
  exists self,
    CycleOtto.__init__ g Vmin Vmax TA PA TC = Ret self /\
    val (tau self) = val Vmax / val Vmin /\
    points self = ∅ /\
    (forall n gamma,
       g = GazParfait n gamma -> 0 < val n -> 0 < val Vmin -> val Vmax = val Vmin ->
       exists self' P_B T_B,
         CycleOtto.calculer_points_cycle self = Ret self' /\
         points self' !! "B" = Some (Vmin, P_B, T_B) /\
         val P_B = val PA).
Proof.
  intros Hmin. unfold CycleOtto.__init__. rewrite div_ok by assumption.
  cbn [mbind py_bind mret py_ret]. eexists. split; [reflexivity|].
  split; [reflexivity|]. split; [reflexivity|].
  intros n gamma -> Hn Hpos Heq.
  match goal with |- context [CycleOtto.calculer_points_cycle ?s] => set (self := s) end.
  destruct (adiabatique_returns gamma Vmin PA Vmax) as (P_B & HPB & HvB); [lra|lra|].
  destruct (GazParfait_temperature_returns n gamma P_B Vmin) as (T_B & HTB & _); [lra|].
  destruct (isotherme_returns n Vmin TC) as (P_C & HPC & _); [lra|].
  destruct (adiabatique_returns gamma Vmax P_C Vmin) as (P_D & HPD & _); [lra|lra|].
  destruct (GazParfait_temperature_returns n gamma P_D Vmax) as (T_D & HTD & _); [lra|].
  eexists _, P_B, T_B. split.
  - apply (calculer_points_cycle_returns self P_B T_B P_C P_D T_D); assumption.
  - split; [reflexivity|]. rewrite HvB, Heq.
    replace (val Vmin / val Vmin) with 1 by (field; lra).
    rewrite Rpower_1_l. lra.
Qed.

Lemma init_accepts_any_ratio_witness :
  exists self,
    CycleOtto.__init__ (GazParfait (Py 1) (Py 1.4))
      (Py 0.002) (Py 0.001) (Py 300) (Py 101300) (Py 2000) = Ret self /\
    val (tau self) = 0.001 / 0.002.
Proof.
  destruct (init_accepts_any_ratio (GazParfait (Py 1) (Py 1.4))
              (Py 0.002) (Py 0.001) (Py 300) (Py 101300) (Py 2000))
    as (self & H1 & H2 & _); [simpl; lra|].
  exists self. split; [exact H1|exact H2].
Defined.

(** ** Work, heat and efficiency of the Diesel cycle *)

Section DieselRendement.
Variable simpson : list R -> list R -> R.
Variable self : Cycle.

Lemma CycleDiesel_calculer_rendement_returns
    (V_ab P_ab V_cd P_cd : list num) (V_B P_B T_B V_C P_C T_C Cp eta : num) :
  let W_ab := neg (Np (simpson (map val P_ab) (map val V_ab))) in
  let W_bc := mul (neg P_B) (sub V_C V_B) in
  let W_cd := neg (Np (simpson (map val P_cd) (map val V_cd))) in
  CycleOtto.obtenir_courbe_adiabatique self "A" "B" 100 = Ret (V_ab, P_ab) ->
  CycleOtto.obtenir_courbe_adiabatique self "C" "D" 100 = Ret (V_cd, P_cd) ->
  points self !! "B" = Some (V_B, P_B, T_B) ->
  points self !! "C" = Some (V_C, P_C, T_C) ->
  div (mul (gaz_gamma (gaz self)) (gaz_R (gaz self)))
      (sub (gaz_gamma (gaz self)) (Py 1)) = Ret Cp ->
  div (abs (add (add W_ab W_bc) W_cd))
      (mul (mul (gaz_n (gaz self)) Cp) (sub T_C T_B)) = Ret eta ->
  CycleDiesel.calculer_rendement simpson self
  = Ret {| W_total := add (add W_ab W_bc) W_cd;
           Q_in := mul (mul (gaz_n (gaz self)) Cp) (sub T_C T_B);
           eta_numerique := eta;
           eta_theorique := nan |}.
Proof.
  intros W_ab W_bc W_cd Hab Hcd HB HC HCp Heta.
  unfold CycleDiesel.calculer_rendement, getitem.
  rewrite Hab. cbn [mbind py_bind].
  rewrite HB, HC. cbn [mbind py_bind].
  rewrite Hcd. cbn [mbind py_bind].
  rewrite HCp. cbn [mbind py_bind].
  unfold W_ab, W_bc, W_cd in Heta. rewrite Heta.
  reflexivity.
Qed.

(** C4. [calculer_rendement] of the Diesel cycle returns exactly
    when the two adiabatic curves are sampled, B and C are in the
    corners, [Cp = gamma R / (gamma - 1)] is computed and the
    quotient [|W_total| / Q_in] is; its result then has
    [W_total = W_ab + W_bc + W_cd] with [W_bc = -P_B (V_C - V_B)] and
    [W_ab], [W_cd] the opposites of the two Simpson integrals,
    [Q_in = n Cp (T_C - T_B)], and [nan] as theoretical efficiency. *)
Theorem CycleDiesel_calculer_rendement_spec (r : rendement) :
  CycleDiesel.calculer_rendement simpson self = Ret r <->
  exists V_ab P_ab V_cd P_cd V_B P_B T_B V_C P_C T_C Cp,
    CycleOtto.obtenir_courbe_adiabatique self "A" "B" 100 = Ret (V_ab, P_ab) /\
    CycleOtto.obtenir_courbe_adiabatique self "C" "D" 100 = Ret (V_cd, P_cd) /\
    points self !! "B" = Some (V_B, P_B, T_B) /\
    points self !! "C" = Some (V_C, P_C, T_C) /\
    returns (div (mul (gaz_gamma (gaz self)) (gaz_R (gaz self)))
                 (sub (gaz_gamma (gaz self)) (Py 1)))
            (val (gaz_gamma (gaz self)) * val (gaz_R (gaz self))
             / (val (gaz_gamma (gaz self)) - 1)) /\
    div (mul (gaz_gamma (gaz self)) (gaz_R (gaz self)))
        (sub (gaz_gamma (gaz self)) (Py 1)) = Ret Cp /\
    div (abs (W_total r)) (Q_in r) = Ret (eta_numerique r) /\
    W_total r = add (add (neg (Np (simpson (map val P_ab) (map val V_ab))))
                         (mul (neg P_B) (sub V_C V_B)))
                    (neg (Np (simpson (map val P_cd) (map val V_cd)))) /\
    val (W_total r) = - simpson (map val P_ab) (map val V_ab)
                      + - val P_B * (val V_C - val V_B)
                      + - simpson (map val P_cd) (map val V_cd) /\
    Q_in r = mul (mul (gaz_n (gaz self)) Cp) (sub T_C T_B) /\
    val (Q_in r) = val (gaz_n (gaz self))
                   * (val (gaz_gamma (gaz self)) * val (gaz_R (gaz self))
                      / (val (gaz_gamma (gaz self)) - 1))
                   * (val T_C - val T_B) /\
    eta_theorique r = nan.
Proof.
  split.
  - unfold CycleDiesel.calculer_rendement, getitem.
    destruct (CycleOtto.obtenir_courbe_adiabatique self "A" "B" 100)
      as [[V_ab P_ab]| |] eqn:Hab; try discriminate. cbn [mbind py_bind].
    destruct (points self !! "B") as [[[V_B P_B] T_B]|] eqn:HB;
      try discriminate. cbn [mbind py_bind].
    destruct (points self !! "C") as [[[V_C P_C] T_C]|] eqn:HC;
      try discriminate. cbn [mbind py_bind].
    destruct (CycleOtto.obtenir_courbe_adiabatique self "C" "D" 100)
      as [[V_cd P_cd]| |] eqn:Hcd; try discriminate. cbn [mbind py_bind].
    destruct (div (mul (gaz_gamma (gaz self)) (gaz_R (gaz self))) _)
      as [Cp| |] eqn:HCp; try discriminate. cbn [mbind py_bind].
    destruct (div (abs _) _) as [eta| |] eqn:Heta; try discriminate.
    cbn [mbind py_bind mret py_ret]. intros [= <-].
    exists V_ab, P_ab, V_cd, P_cd, V_B, P_B, T_B, V_C, P_C, T_C, Cp.
    assert (HvCp : val Cp = val (gaz_gamma (gaz self)) * val (gaz_R (gaz self))
                            / (val (gaz_gamma (gaz self)) - 1)).
    { unfold div in HCp. destruct (Req_dec_T _ 0).
      - destruct (_ || _); discriminate.
      - injection HCp as <-. reflexivity. }
    repeat split; try reflexivity; try assumption.
    + exists Cp. split; [reflexivity|exact HvCp].
    + simpl. rewrite HvCp. reflexivity.
  - intros (V_ab & P_ab & V_cd & P_cd & V_B & P_B & T_B & V_C & P_C & T_C & Cp
            & Hab & Hcd & HB & HC & _ & HCp & Heta & HW & _ & HQ & _ & Hn).
    rewrite (CycleDiesel_calculer_rendement_returns
               V_ab P_ab V_cd P_cd V_B P_B T_B V_C P_C T_C Cp (eta_numerique r)
               Hab Hcd HB HC HCp).
    + destruct r; simpl in *. now subst.
    + rewrite <- HW, <- HQ. exact Heta.
Qed.
End DieselRendement.

(** ** The cycle results are computed on valid corners *)

Lemma heat_nonzero (n c g t1 t2 : R) :
  0 < n -> c <> 0 -> g <> 1 -> t2 <> t1 -> n * (c / (g - 1)) * (t2 - t1) <> 0.
Proof.
  intros Hn Hc Hg Ht.
  apply Rmult_integral_contrapositive_currified; [|lra].
  apply Rmult_integral_contrapositive_currified; [lra|].
  apply Rmult_integral_contrapositive_currified; [assumption|].
  apply Rinv_neq_0_compat. lra.
Qed.

Section RendementTotal.
Variable simpson : list R -> list R -> R.
Variables (self : Cycle) (n gamma a b : num).
Variables (pA pB pC pD : point).

Hypothesis self_gaz :
  gaz self = GazParfait n gamma \/ gaz self = GazVanDerWaals n gamma a b.
Hypothesis n_pos : 0 < val n.
Hypothesis gamma_ne_1 : val gamma <> 1.
Hypothesis self_points : points self = corners pA pB pC pD.
Hypothesis volumes :
  Forall (fun p : point => 0 < val (p.1.1) /\ val n * val b < val (p.1.1))
         [pA; pB; pC; pD].
Hypothesis heating : val (pC.2) <> val (pB.2).

Lemma gaz_attributes :
  gaz_n (gaz self) = n /\ gaz_gamma (gaz self) = gamma /\ gaz_R (gaz self) = Py 8.314.
Proof. destruct self_gaz as [-> | ->]; repeat split. Qed.

Lemma courbe_total (d f : string) (p1 p2 : point) (k : nat) :
  points self !! d = Some p1 -> points self !! f = Some p2 ->
  0 < val (p1.1.1) -> val n * val b < val (p1.1.1) ->
  0 < val (p2.1.1) -> val n * val b < val (p2.1.1) ->
  exists Ps, CycleOtto.obtenir_courbe_adiabatique self d f k
             = Ret (linspace (p1.1.1) (p2.1.1) k, Ps).
Proof.
  destruct p1 as [[V1 P1] T1], p2 as [[V2 P2] T2]. simpl.
  intros Hd Hf H1 H1b H2 H2b.
  apply (obtenir_courbe_adiabatique_returns self d f k V1 P1 T1 V2 P2 T2 Hd Hf).
  intros V HV.
  pose proof (Rmin_Rmax_gt 0 _ _ _ H1 H2 HV).
  pose proof (Rmin_Rmax_gt (val n * val b) _ _ _ H1b H2b HV).
  destruct (pression_adiabatique_total n gamma a b V P1 V1) as [Hi Hw]; try assumption.
  destruct self_gaz as [-> | ->]; assumption.
Qed.

Lemma CycleOtto_calculer_rendement_total :
  0 < val (tau self) ->
  exists r, CycleOtto.calculer_rendement simpson self = Ret r.
Proof.
  intros Htau.
  destruct gaz_attributes as (Hn & Hg & HR).
  pose proof volumes as Hvol.
  apply Forall_cons_1 in Hvol as [[HA HAb] Hvol].
  apply Forall_cons_1 in Hvol as [[HB HBb] Hvol].
  apply Forall_cons_1 in Hvol as [[HC HCb] Hvol].
  apply Forall_cons_1 in Hvol as [[HD HDb] _].
  destruct (corners_lookup pA pB pC pD) as (LA & LB & LC & LD).
  rewrite <- self_points in LA, LB, LC, LD.
  destruct (courbe_total "A" "B" pA pB 100 LA LB) as (P_ab & Hab); try assumption.
  destruct (courbe_total "C" "D" pC pD 100 LC LD) as (P_cd & Hcd); try assumption.
  unfold CycleOtto.calculer_rendement, getitem.
  rewrite Hab, Hcd. cbn [mbind py_bind]. rewrite LB, LC.
  destruct pB as [[V_B P_B] T_B], pC as [[V_C P_C] T_C]. cbn [mbind py_bind].
  rewrite Hn, Hg, HR. simpl in heating.
  rewrite (div_ok (Py 8.314)) by (simpl; lra). cbn [mbind py_bind].
  rewrite (div_ok (abs _)).
  2:{ simpl. apply heat_nonzero; try assumption. lra. }
  cbn [mbind py_bind]. rewrite pow_pos by assumption. cbn [mbind py_bind].
  rewrite (div_ok (Py 1)) by (simpl; apply Rgt_not_eq, exp_pos).
  cbn [mbind py_bind mret py_ret]. eexists. reflexivity.
Qed.

Lemma CycleDiesel_calculer_rendement_total :
  val gamma <> 0 ->
  exists r, CycleDiesel.calculer_rendement simpson self = Ret r.
Proof.
  intros Hg0.
  destruct gaz_attributes as (Hn & Hg & HR).
  pose proof volumes as Hvol.
  apply Forall_cons_1 in Hvol as [[HA HAb] Hvol].
  apply Forall_cons_1 in Hvol as [[HB HBb] Hvol].
  apply Forall_cons_1 in Hvol as [[HC HCb] Hvol].
  apply Forall_cons_1 in Hvol as [[HD HDb] _].
  destruct (corners_lookup pA pB pC pD) as (LA & LB & LC & LD).
  rewrite <- self_points in LA, LB, LC, LD.
  destruct (courbe_total "A" "B" pA pB 100 LA LB) as (P_ab & Hab); try assumption.
  destruct (courbe_total "C" "D" pC pD 100 LC LD) as (P_cd & Hcd); try assumption.
  destruct pB as [[V_B P_B] T_B], pC as [[V_C P_C] T_C]. simpl in heating.
  eexists.
  eapply (CycleDiesel_calculer_rendement_returns simpson self _ _ _ _
            V_B P_B T_B V_C P_C T_C);
    try eassumption.
  - rewrite Hg, HR. apply div_ok. simpl. lra.
  - rewrite Hn. apply div_ok. simpl. apply heat_nonzero; try assumption.
    apply Rmult_integral_contrapositive_currified; [assumption|lra].
Qed.
End RendementTotal.

Lemma engine_tau_4_rendement (simpson : list R -> list R -> R) :
  (exists r, CycleOtto.calculer_rendement simpson engine_tau_4 = Ret r) /\
  (exists r, CycleDiesel.calculer_rendement simpson engine_tau_4 = Ret r).
Proof.
  split.
  - eapply (CycleOtto_calculer_rendement_total simpson engine_tau_4
              (Py 1) (Py 1.4) (Py 0) (Py 0)); try reflexivity;
      try (now left); try (simpl; lra).
    repeat constructor; simpl; lra.
  - eapply (CycleDiesel_calculer_rendement_total simpson engine_tau_4
              (Py 1) (Py 1.4) (Py 0) (Py 0)); try reflexivity;
      try (now left); try (simpl; lra).
    repeat constructor; simpl; lra.
Qed.

Lemma CycleDiesel_calculer_rendement_spec_witness :
  exists r, CycleDiesel.calculer_rendement trapezes engine_tau_4 = Ret r /\
            eta_theorique r = nan /\
            val (Q_in r) = 1 * (1.4 * 8.314 / (1.4 - 1)) * (2000 - 522).
Proof.
  destruct (engine_tau_4_rendement trapezes) as [_ (r & Hr)].
  exists r. split; [exact Hr|].
  apply CycleDiesel_calculer_rendement_spec in Hr
    as (V_ab & P_ab & V_cd & P_cd & V_B & P_B & T_B & V_C & P_C & T_C & Cp
        & _ & _ & HB & HC & _ & _ & _ & _ & _ & _ & HQ & Hn).
  split; [exact Hn|]. rewrite HQ.
  injection HB as <- <- <-. injection HC as <- <- <-. reflexivity.
Defined.

(** * Further properties of the gas models *)

(** ** Both gases under one equation of state

    The ideal gas computes what the Van der Waals formulas give for
    [a = 0] and [b = 0]; [gaz_b] is then the covolume of either. *)

Section EitherGas.
Variables (g : ModeleGaz) (n gamma a b : num).
Hypothesis g_gas :
  (g = GazParfait n gamma /\ val a = 0 /\ val b = 0) \/ g = GazVanDerWaals n gamma a b.
Hypothesis n_pos : 0 < val n.

Lemma gas_attributes :
  gaz_n g = n /\ gaz_gamma g = gamma /\ gaz_R g = Py 8.314 /\ val (gaz_b g) = val b.
Proof.
  destruct g_gas as [(-> & _ & Hb) | ->]; repeat split. simpl. now rewrite Hb.
Qed.

Lemma gas_pression_returns (V T : num) :
  0 < val V -> val n * val b < val V ->
  returns (pression g V T)
          (val n * 8.314 * val T / (val V - val n * val b)
           - val a * (val n * val n) / (val V * val V)).
Proof.
  intros HV Hb. destruct g_gas as [(-> & Ha & Hb0) | ->].
  - destruct (isotherme_returns n V T) as (p & Hp & Hv); [lra|].
    exists p. split; [exact Hp|]. rewrite Hv, Ha, Hb0. field. lra.
  - apply van_der_waals_returns; lra.
Qed.

Lemma gas_temperature_returns (P V : num) :
  0 < val V ->
  returns (temperature g P V)
          ((val P + val a * (val n * val n) / (val V * val V))
           * (val V - val n * val b) / (val n * 8.314)).
Proof.
  intros HV. destruct g_gas as [(-> & Ha & Hb0) | ->].
  - destruct (GazParfait_temperature_returns n gamma P V) as (t & Ht & Hv); [lra|].
    exists t. split; [exact Ht|]. rewrite Hv, Ha, Hb0. field. lra.
  - apply GazVanDerWaals_temperature_returns; lra.
Qed.

Lemma gas_pression_adiabatique_returns (V P0 V0 : num) :
  0 < val V -> val n * val b < val V ->
  0 < val V0 -> val n * val b < val V0 ->
  returns (pression_adiabatique g V P0 V0)
          (val n * 8.314
           * ((val P0 + val a * (val n * val n) / (val V0 * val V0))
              * (val V0 - val n * val b) / (val n * 8.314)
              * Rpower ((val V0 - val n * val b) / (val V - val n * val b))
                       (val gamma - 1))
           / (val V - val n * val b)
           - val a * (val n * val n) / (val V * val V)).
Proof.
  intros HV HVb HV0 HV0b. destruct g_gas as [(-> & Ha & Hb0) | ->].
  - destruct (adiabatique_returns gamma V P0 V0) as (p & Hp & Hv); [lra..|].
    exists p. split; [exact Hp|]. rewrite Hv, Ha, Hb0.
    replace (val V0 - val n * 0) with (val V0) by lra.
    replace (val V - val n * 0) with (val V) by lra.
    assert (Hq : 0 < val V0 / val V) by (apply Rdiv_lt_0_compat; lra).
    rewrite <- (Rpower_succ (val V0 / val V) (val gamma) Hq). field. lra.
  - apply GazVanDerWaals_pression_adiabatique_returns; lra.
Qed.

End EitherGas.

(** ** Entropy differences *)

Lemma variation_entropie_returns (self : ModeleGaz) (T V T_ref V_ref : num) :
  val (gaz_gamma self) <> 1 -> val T_ref <> 0 -> 0 < val T / val T_ref ->
  returns (variation_entropie self T V T_ref V_ref)
    (val (gaz_n self) * val (gaz_R self) / (val (gaz_gamma self) - 1)
       * ln (val T / val T_ref)
     + val (gaz_n self) * val (gaz_R self)
       * ln (Rmax 1e-10 (val V - val (gaz_b self) * val (gaz_n self))
             / Rmax 1e-10 (val V_ref - val (gaz_b self) * val (gaz_n self)))).
Proof.
  intros Hg HTref HT. unfold variation_entropie.
  pose proof (Rmax_floor_pos (val V - val (gaz_b self) * val (gaz_n self))).
  pose proof (Rmax_floor_pos (val V_ref - val (gaz_b self) * val (gaz_n self))).
  assert (0 < Rmax 1e-10 (val V - val (gaz_b self) * val (gaz_n self))
              / Rmax 1e-10 (val V_ref - val (gaz_b self) * val (gaz_n self)))
    by (apply Rdiv_lt_0_compat; assumption).
  py_run. reflexivity.
Qed.

(** X4. For every gas model with [gamma <> 1], the entropy of a state
    relative to itself is zero, whatever its volume: both logarithms
    are those of 1. *)
Theorem variation_entropie_same_state (self : ModeleGaz) (T V : num) :
  val (gaz_gamma self) <> 1 -> val T <> 0 ->
  returns (variation_entropie self T V T V) 0.
Proof.
  intros Hg HT.
  set (B := val (gaz_b self) * val (gaz_n self)).
  pose proof (Rmax_floor_pos (val V - B)) as HV.
  assert (H1 : val T / val T = 1) by (field; exact HT).
  destruct (variation_entropie_returns self T V T V) as (s & Hs & Hv);
    [assumption | assumption | lra |].
  exists s. split; [exact Hs|]. rewrite Hv. fold B. rewrite H1.
  replace (Rmax 1e-10 (val V - B) / Rmax 1e-10 (val V - B)) with 1 by (field; lra).
  rewrite ln_1. lra.
Qed.

Lemma variation_entropie_same_state_witness :
  returns (variation_entropie (GazVanDerWaals (Py 2) (Py 1.4) (Py 0.14) (Py 1))
             (Py 600) (Py 1) (Py 600) (Py 1)) 0.
Proof.
  apply (variation_entropie_same_state
           (GazVanDerWaals (Py 2) (Py 1.4) (Py 0.14) (Py 1)) (Py 600) (Py 1));
    simpl; lra.
Defined.



(** X7. With Python floats, [variation_entropie] fails with
    [ZeroDivisionError] when [gamma = 1], and when [gamma <> 1] and
    the reference temperature is zero. *)
Theorem variation_entropie_zero_division (self : ModeleGaz) (T V T_ref V_ref : num) :
  np (gaz_n self) = false -> np (gaz_R self) = false -> np (gaz_gamma self) = false ->
  np T = false -> np T_ref = false ->
  (val (gaz_gamma self) = 1 ->
   variation_entropie self T V T_ref V_ref = Raise ZeroDivisionError) /\
  (val (gaz_gamma self) <> 1 -> val T_ref = 0 ->
   variation_entropie self T V T_ref V_ref = Raise ZeroDivisionError).
Proof.
  intros Nn NR Ng NT NTr. unfold variation_entropie. split.
  - intros Hg.
    rewrite (div_zero_py (mul (gaz_n self) (gaz_R self)) (sub (gaz_gamma self) (Py 1)));
      [reflexivity|simpl; lra|simpl; now rewrite Nn, NR|simpl; now rewrite Ng].
  - intros Hg HTr. rewrite (div_ok (mul _ _) (sub _ _)) by (simpl; lra).
    cbn [mbind py_bind]. rewrite (div_zero_py T T_ref) by assumption. reflexivity.
Qed.

Lemma variation_entropie_zero_division_witness :
  variation_entropie (GazParfait (Py 1) (Py 1)) (Py 600) (Py 1) (Py 300) (Py 1)
  = Raise ZeroDivisionError /\
  variation_entropie (GazParfait (Py 1) (Py 1.4)) (Py 600) (Py 1) (Py 0) (Py 1)
  = Raise ZeroDivisionError.
Proof.
  split.
  - exact (proj1 (variation_entropie_zero_division (GazParfait (Py 1) (Py 1))
                    (Py 600) (Py 1) (Py 300) (Py 1)
                    eq_refl eq_refl eq_refl eq_refl eq_refl) eq_refl).
  - refine (proj2 (variation_entropie_zero_division (GazParfait (Py 1) (Py 1.4))
                     (Py 600) (Py 1) (Py 0) (Py 1)
                     eq_refl eq_refl eq_refl eq_refl eq_refl) _ eq_refl).
    simpl. lra.
Defined.

(** ** The base class *)

(** X9. A cycle on an instance of the base class [ModeleGaz] cannot
    compute its corners: with positive volumes the adiabatic pressure
    at B is computed, and the temperature then raises
    [NotImplementedError], for the Otto and for the Diesel cycle. *)
Theorem ModeleGaz_base_not_implemented
    (fsolve : (num -> py num) -> num -> py num) (self : Cycle) (n gamma : num) :
  gaz self = ModeleGaz_base n gamma ->
  0 < val (V_min self) -> 0 < val (V_max self) ->
  CycleOtto.calculer_points_cycle self = Raise NotImplementedError /\
  CycleDiesel.calculer_points_cycle fsolve self = Raise NotImplementedError.
Proof.
  intros Hg Hmin Hmax.
  destruct (adiabatique_returns gamma (V_min self) (P_A self) (V_max self))
    as (P_B & HPB & _); [assumption..|].
  unfold CycleOtto.calculer_points_cycle, CycleDiesel.calculer_points_cycle.
  rewrite Hg. simpl pression_adiabatique. simpl temperature.
  rewrite HPB. split; reflexivity.
Qed.

Lemma ModeleGaz_base_not_implemented_witness :
  let self := {| gaz := ModeleGaz_base (Py 1) (Py 1.4);
                 V_min := Py 1; V_max := Py 8; V_A := Py 8;
                 T_A := Py 300; P_A := Py 101300; T_C := Py 2000;
                 points := ∅; tau := Py 8 |} in
  CycleOtto.calculer_points_cycle self = Raise NotImplementedError /\
  CycleDiesel.calculer_points_cycle fsolve_from_root self = Raise NotImplementedError.
Proof.
  intros self.
  apply (ModeleGaz_base_not_implemented fsolve_from_root self (Py 1) (Py 1.4));
    [reflexivity|simpl; lra..].
Defined.

(** * Further properties of the cycles *)

(** ** Corners that are not there *)

(** X10. Before [calculer_points_cycle] has run the dict of corners is
    empty: [obtenir_courbe_adiabatique] and both [calculer_rendement]
    then fail with [KeyError], in particular on an engine that the
    constructor has just returned. *)
Theorem rendement_before_points (simpson : list R -> list R -> R)
    (g : ModeleGaz) (Vmin Vmax TA PA TC : num) (d f : string) (k : nat) :
  val Vmin <> 0 ->
  exists self,
    CycleOtto.__init__ g Vmin Vmax TA PA TC = Ret self /\
    CycleOtto.obtenir_courbe_adiabatique self d f k = Raise KeyError /\
    CycleOtto.calculer_rendement simpson self = Raise KeyError /\
    CycleDiesel.calculer_rendement simpson self = Raise KeyError.
Proof.
  intros Hmin. unfold CycleOtto.__init__. rewrite div_ok by assumption.
  cbn [mbind py_bind mret py_ret]. eexists. split; [reflexivity|].
  repeat split; reflexivity.
Qed.

Lemma rendement_before_points_witness :
  exists self,
    CycleOtto.__init__ (GazParfait (Py 1) (Py 1.4))
      (Py 1) (Py 8) (Py 300) (Py 101300) (Py 2000) = Ret self /\
    CycleOtto.calculer_rendement trapezes self = Raise KeyError.
Proof.
  destruct (rendement_before_points trapezes (GazParfait (Py 1) (Py 1.4))
              (Py 1) (Py 8) (Py 300) (Py 101300) (Py 2000) "A" "B" 100)
    as (self & H1 & _ & H2 & _); [simpl; lra|].
  exists self. split; assumption.
Defined.

(** ** Shape of a sampled path *)

Lemma linspace_length (a b : num) (k : nat) : length (linspace a b k) = k.
Proof. unfold linspace. now rewrite length_map, length_seq. Qed.

Lemma linspace_nth (a b : num) (k i : nat) :
  (i < k)%nat ->
  nth_error (linspace a b k) i
  = Some (Np (val a + INR i * ((val b - val a) / INR (k - 1)))).
Proof.
  intros Hi. unfold linspace. rewrite nth_error_map, nth_error_seq.
  destruct (Nat.ltb_spec i k) as [_|C]; [reflexivity|lia].
Qed.

Lemma linspace_last (a b : num) (k : nat) :
  exists v, nth_error (linspace a b (S (S k))) (S k) = Some v /\
            val v = val b /\ np v = true.
Proof.
  eexists. split; [apply linspace_nth; lia|]. split; [|reflexivity].
  cbn [val Np]. replace (S (S k) - 1)%nat with (S k) by lia.
  assert (0 < INR (S k)) by (apply lt_0_INR; lia). field. lra.
Qed.

Lemma Forall2_nth_error {A B} (P : A -> B -> Prop) (l : list A) (k : list B)
    (i : nat) (x : A) :
  Forall2 P l k -> nth_error l i = Some x ->
  exists y, nth_error k i = Some y /\ P x y.
Proof.
  intros HF. revert i. induction HF as [|a b' l k Hab _ IH]; intros [|i] Hx;
    try discriminate.
  - injection Hx as <-. now exists b'.
  - now apply IH.
Qed.

(** X11. When [obtenir_courbe_adiabatique] returns, both arrays have
    [n_points] entries; for [n_points >= 2] the volumes start at the
    volume of the first corner and end at the volume of the other. *)
Theorem obtenir_courbe_adiabatique_shape (self : Cycle) (d f : string) (k : nat)
    (Vs Ps : list num) (p1 p2 : point) :
  CycleOtto.obtenir_courbe_adiabatique self d f (S (S k)) = Ret (Vs, Ps) ->
  points self !! d = Some p1 -> points self !! f = Some p2 ->
  length Vs = S (S k) /\ length Ps = S (S k) /\
  (exists v, nth_error Vs 0 = Some v /\ val v = val (p1.1.1)) /\
  (exists v, nth_error Vs (S k) = Some v /\ val v = val (p2.1.1)).
Proof.
  intros H Hd Hf.
  destruct (obtenir_courbe_adiabatique_inv self d f _ Vs Ps H)
    as (V1 & P1 & T1 & V2 & P2 & T2 & Hd' & Hf' & -> & HF).
  rewrite Hd in Hd'. rewrite Hf in Hf'. injection Hd' as ->. injection Hf' as ->.
  cbn [fst snd]. split; [apply linspace_length|].
  split; [rewrite <- (List.Forall2_length HF); apply linspace_length|].
  split.
  - eexists. split; [apply linspace_nth; lia|]. cbn [val Np INR]. lra.
  - destruct (linspace_last V1 V2 k) as (v & Hv & Hval & _). now exists v.
Qed.

Lemma obtenir_courbe_adiabatique_shape_witness :
  exists Vs Ps,
    CycleOtto.obtenir_courbe_adiabatique engine_tau_4 "A" "B" 100 = Ret (Vs, Ps) /\
    length Vs = 100%nat /\ length Ps = 100%nat /\
    (exists v, nth_error Vs 99 = Some v /\ val v = 2).
Proof.
  destruct (courbe_total engine_tau_4 (Py 1) (Py 1.4) (Py 0) (Py 0)
              ltac:(now left) ltac:(simpl; lra) "A" "B"
              (Py 8, Py 101300, Py 300) (Py 2, Py 705000, Py 522) 100
              eq_refl eq_refl)
    as (Ps & H); [simpl; lra..|].
  destruct (obtenir_courbe_adiabatique_shape engine_tau_4 "A" "B" 98 _ Ps
              (Py 8, Py 101300, Py 300) (Py 2, Py 705000, Py 522) H eq_refl eq_refl)
    as (L1 & L2 & _ & E).
  eexists _, Ps. split; [exact H|]. repeat split; assumption.
Defined.

(** ** The corners of the Otto cycle on the ideal gas *)

Lemma CycleOtto_ideal_corners (self : Cycle) (n gamma : num) :
  gaz self = GazParfait n gamma ->
  0 < val n -> 0 < val (V_min self) -> 0 < val (V_max self) ->
  exists P_B T_B P_C P_D T_D,
    CycleOtto.calculer_points_cycle self
    = Ret (set_points self
             (corners (V_max self, P_A self, T_A self) (V_min self, P_B, T_B)
                      (V_min self, P_C, T_C self) (V_max self, P_D, T_D))) /\
    val P_B = val (P_A self)
              * Rpower (val (V_max self) / val (V_min self)) (val gamma) /\
    val T_B = val P_B * val (V_min self) / (val n * 8.314) /\
    val P_C = val n * 8.314 * val (T_C self) / val (V_min self) /\
    val P_D = val P_C * Rpower (val (V_min self) / val (V_max self)) (val gamma) /\
    val T_D = val P_D * val (V_max self) / (val n * 8.314).
Proof.
  intros Hg Hn Hmin Hmax.
  destruct (adiabatique_returns gamma (V_min self) (P_A self) (V_max self))
    as (P_B & HPB & HvB); [assumption..|].
  destruct (GazParfait_temperature_returns n gamma P_B (V_min self))
    as (T_B & HTB & HvTB); [lra|].
  destruct (isotherme_returns n (V_min self) (T_C self)) as (P_C & HPC & HvC); [lra|].
  destruct (adiabatique_returns gamma (V_max self) P_C (V_min self))
    as (P_D & HPD & HvD); [assumption..|].
  destruct (GazParfait_temperature_returns n gamma P_D (V_max self))
    as (T_D & HTD & HvTD); [lra|].
  exists P_B, T_B, P_C, P_D, T_D. split.
  - apply calculer_points_cycle_returns; rewrite Hg; assumption.
  - repeat split; assumption.
Qed.

(** X12. On the ideal gas with [n > 0], positive volumes, a positive
    ambient pressure and positive ambient and imposed temperatures,
    the Otto corners are computed and every volume, pressure and
    temperature in them is positive. *)
Theorem CycleOtto_ideal_corners_positive (self : Cycle) (n gamma : num) :
  gaz self = GazParfait n gamma ->
  0 < val n -> 0 < val (V_min self) -> 0 < val (V_max self) ->
  0 < val (P_A self) -> 0 < val (T_A self) -> 0 < val (T_C self) ->
  exists self',
    CycleOtto.calculer_points_cycle self = Ret self' /\
    forall (k : string) (V P T : num),
      points self' !! k = Some (V, P, T) -> 0 < val V /\ 0 < val P /\ 0 < val T.
Proof.
  intros Hg Hn Hmin Hmax HPA HTA HTC.
  destruct (CycleOtto_ideal_corners self n gamma Hg Hn Hmin Hmax)
    as (P_B & T_B & P_C & P_D & T_D & H & HB & HTB & HC & HD & HTD).
  eexists. split; [exact H|].
  assert (0 < val P_B) by (rewrite HB; apply Rmult_lt_0_compat; [lra|apply exp_pos]).
  assert (0 < val T_B) by (rewrite HTB; apply Rdiv_lt_0_compat; nra).
  assert (0 < val P_C)
    by (rewrite HC; apply Rdiv_lt_0_compat; [|lra];
        apply Rmult_lt_0_compat; [nra|lra]).
  assert (0 < val P_D) by (rewrite HD; apply Rmult_lt_0_compat; [lra|apply exp_pos]).
  assert (0 < val T_D) by (rewrite HTD; apply Rdiv_lt_0_compat; nra).
  intros k V P T Hk. cbn [points set_points] in Hk. unfold corners in Hk.
  destruct (decide (k = "A")) as [->|NA];
    [rewrite lookup_insert_eq in Hk; injection Hk as <- <- <-; auto|].
  rewrite lookup_insert_ne in Hk by congruence.
  destruct (decide (k = "B")) as [->|NB];
    [rewrite lookup_insert_eq in Hk; injection Hk as <- <- <-; auto|].
  rewrite lookup_insert_ne in Hk by congruence.
  destruct (decide (k = "C")) as [->|NC];
    [rewrite lookup_insert_eq in Hk; injection Hk as <- <- <-; auto|].
  rewrite lookup_insert_ne in Hk by congruence.
  destruct (decide (k = "D")) as [->|ND];
    [rewrite lookup_insert_eq in Hk; injection Hk as <- <- <-; auto|].
  rewrite lookup_insert_ne in Hk by congruence.
  rewrite lookup_empty in Hk. discriminate.
Qed.

Lemma CycleOtto_ideal_corners_positive_witness :
  let self := {| gaz := GazParfait (Py 1) (Py 1.4);
                 V_min := Py 1; V_max := Py 8; V_A := Py 8;
                 T_A := Py 300; P_A := Py 101300; T_C := Py 2000;
                 points := ∅; tau := Py 8 |} in
  exists self',
    CycleOtto.calculer_points_cycle self = Ret self' /\
    forall (k : string) (V P T : num),
      points self' !! k = Some (V, P, T) -> 0 < val V /\ 0 < val P /\ 0 < val T.
Proof.
  intros self.
  apply (CycleOtto_ideal_corners_positive self (Py 1) (Py 1.4) eq_refl);
    simpl; lra.
Defined.

(** ** Sampled paths and corners *)

Lemma gas_cases (g : ModeleGaz) (n gamma a b : num) :
  g = GazParfait n gamma \/ g = GazVanDerWaals n gamma a b ->
  exists a' b',
    ((g = GazParfait n gamma /\ val a' = 0 /\ val b' = 0)
     \/ g = GazVanDerWaals n gamma a' b') /\
    forall V : num, 0 < val V -> val n * val b < val V -> val n * val b' < val V.
Proof.
  intros [H|H].
  - exists (Py 0), (Py 0). split; [left; repeat split; assumption|].
    intros V HV _. simpl. lra.
  - exists a, b. split; [now right|]. auto.
Qed.

(** The adiabatic pressure of either gas depends on the value of the
    volume only, not on the kind of number that carries it. *)
Lemma pression_adiabatique_same_value (g : ModeleGaz) (n gamma a b V V' P0 V0 P P' : num) :
  g = GazParfait n gamma \/ g = GazVanDerWaals n gamma a b ->
  0 < val n -> 0 < val V -> val n * val b < val V ->
  0 < val V0 -> val n * val b < val V0 ->
  val V' = val V ->
  pression_adiabatique g V P0 V0 = Ret P ->
  pression_adiabatique g V' P0 V0 = Ret P' ->
  val P' = val P.
Proof.
  intros Hg Hn HV HVb HV0 HV0b E HP HP'.
  destruct (gas_cases g n gamma a b Hg) as (a' & b' & Hg' & Hb').
  destruct (gas_pression_adiabatique_returns g n gamma a' b' Hg' Hn V P0 V0)
    as (p & Hp & Hv); auto.
  destruct (gas_pression_adiabatique_returns g n gamma a' b' Hg' Hn V' P0 V0)
    as (p' & Hp' & Hv'); auto; try (rewrite E; auto).
  assert (p = P) by congruence. assert (p' = P') by congruence. subst.
  rewrite Hv, Hv', E. reflexivity.
Qed.

Section PathEnd.
Variables (self : Cycle) (n gamma a b : num).
Hypothesis self_gaz :
  gaz self = GazParfait n gamma \/ gaz self = GazVanDerWaals n gamma a b.
Hypothesis n_pos : 0 < val n.

(** The last sample of a path carries the adiabatic pressure at the
    volume of the end corner. *)
Lemma courbe_last (d f : string) (k : nat) (V1 P1 T1 V2 P2 T2 P : num) :
  points self !! d = Some (V1, P1, T1) ->
  points self !! f = Some (V2, P2, T2) ->
  0 < val V1 -> val n * val b < val V1 ->
  0 < val V2 -> val n * val b < val V2 ->
  pression_adiabatique (gaz self) V2 P1 V1 = Ret P ->
  exists Vs Ps v p,
    CycleOtto.obtenir_courbe_adiabatique self d f (S (S k)) = Ret (Vs, Ps) /\
    nth_error Vs (S k) = Some v /\ nth_error Ps (S k) = Some p /\
    val v = val V2 /\ val p = val P.
Proof.
  intros Hd Hf H1 H1b H2 H2b HP.
  destruct (courbe_total self n gamma a b self_gaz n_pos d f
              (V1, P1, T1) (V2, P2, T2) (S (S k)) Hd Hf)
    as (Ps & HPs); try assumption.
  cbn [fst snd] in HPs.
  destruct (obtenir_courbe_adiabatique_inv self d f _ _ _ HPs)
    as (V' & P' & T' & V'' & P'' & T'' & Hd' & _ & _ & HF).
  rewrite Hd in Hd'. injection Hd' as <- <- <-.
  destruct (linspace_last V1 V2 k) as (v & Hv & Hval & _).
  destruct (Forall2_nth_error _ _ _ _ _ HF Hv) as (p & Hp & Hpv).
  exists (linspace V1 V2 (S (S k))), Ps, v, p.
  repeat split; try assumption.
  apply (pression_adiabatique_same_value (gaz self) n gamma a b V2 v P1 V1 P p);
    assumption.
Qed.
End PathEnd.

(** X14. For both gases, with [n > 0] and both volumes positive and
    above [n b], the corners of the Otto cycle are computed and the
    sampled paths agree with them: the path from A ends at the volume
    and pressure stored for B, the path from C at those stored for D. *)
Theorem courbes_reach_corners (self : Cycle) (n gamma a b : num) (k : nat) :
  gaz self = GazParfait n gamma \/ gaz self = GazVanDerWaals n gamma a b ->
  0 < val n ->
  0 < val (V_min self) -> val n * val b < val (V_min self) ->
  0 < val (V_max self) -> val n * val b < val (V_max self) ->
  exists self' P_B T_B P_D T_D,
    CycleOtto.calculer_points_cycle self = Ret self' /\
    points self' !! "B" = Some (V_min self, P_B, T_B) /\
    points self' !! "D" = Some (V_max self, P_D, T_D) /\
    (exists Vs Ps v p,
       CycleOtto.obtenir_courbe_adiabatique self' "A" "B" (S (S k)) = Ret (Vs, Ps) /\
       nth_error Vs (S k) = Some v /\ nth_error Ps (S k) = Some p /\
       val v = val (V_min self) /\ val p = val P_B) /\
    (exists Vs Ps v p,
       CycleOtto.obtenir_courbe_adiabatique self' "C" "D" (S (S k)) = Ret (Vs, Ps) /\
       nth_error Vs (S k) = Some v /\ nth_error Ps (S k) = Some p /\
       val v = val (V_max self) /\ val p = val P_D).
Proof.
  intros Hg Hn Hmin Hminb Hmax Hmaxb.
  destruct (gas_cases (gaz self) n gamma a b Hg) as (a' & b' & Hg' & Hb').
  destruct (gas_pression_adiabatique_returns (gaz self) n gamma a' b' Hg' Hn
              (V_min self) (P_A self) (V_max self)) as (P_B & HPB & _); auto.
  destruct (gas_temperature_returns (gaz self) n gamma a' b' Hg' Hn P_B (V_min self))
    as (T_B & HTB & _); auto.
  destruct (gas_pression_returns (gaz self) n gamma a' b' Hg' (V_min self) (T_C self))
    as (P_C & HPC & _); auto.
  destruct (gas_pression_adiabatique_returns (gaz self) n gamma a' b' Hg' Hn
              (V_max self) P_C (V_min self)) as (P_D & HPD & _); auto.
  destruct (gas_temperature_returns (gaz self) n gamma a' b' Hg' Hn P_D (V_max self))
    as (T_D & HTD & _); auto.
  pose proof (calculer_points_cycle_returns self P_B T_B P_C P_D T_D
                HPB HTB HPC HPD HTD) as H.
  set (self' := set_points self _) in H.
  exists self', P_B, T_B, P_D, T_D. split; [exact H|].
  split; [reflexivity|]. split; [reflexivity|]. split.
  - apply (courbe_last self' n gamma a b Hg Hn "A" "B" k
             (V_max self) (P_A self) (T_A self) (V_min self) P_B T_B P_B);
      try reflexivity; assumption.
  - apply (courbe_last self' n gamma a b Hg Hn "C" "D" k
             (V_min self) P_C (T_C self) (V_max self) P_D T_D P_D);
      try reflexivity; assumption.
Qed.

Lemma courbes_reach_corners_witness :
  let self := {| gaz := GazVanDerWaals (Py 1) (Py 1.4) (Py 0.14) (Py 0.5);
                 V_min := Py 1; V_max := Py 8; V_A := Py 8;
                 T_A := Py 300; P_A := Py 101300; T_C := Py 2000;
                 points := ∅; tau := Py 8 |} in
  exists self' P_B T_B Vs Ps p,
    CycleOtto.calculer_points_cycle self = Ret self' /\
    points self' !! "B" = Some (Py 1, P_B, T_B) /\
    CycleOtto.obtenir_courbe_adiabatique self' "A" "B" 100 = Ret (Vs, Ps) /\
    nth_error Ps 99 = Some p /\ val p = val P_B.
Proof.
  intros self.
  destruct (courbes_reach_corners self (Py 1) (Py 1.4) (Py 0.14) (Py 0.5) 98)
    as (self' & P_B & T_B & P_D & T_D & H & HB & _ & (Vs & Ps & v & p & Hc & _ & Hp & _ & E) & _);
    [now right|simpl; lra..|].
  exists self', P_B, T_B, Vs, Ps, p. repeat split; assumption.
Defined.

(** ** What computing the corners keeps *)

Lemma calculer_points_cycle_inv (self self' : Cycle) :
  CycleOtto.calculer_points_cycle self = Ret self' ->
  exists P_B T_B P_C P_D T_D,
    pression_adiabatique (gaz self) (V_min self) (P_A self) (V_max self) = Ret P_B /\
    temperature (gaz self) P_B (V_min self) = Ret T_B /\
    pression (gaz self) (V_min self) (T_C self) = Ret P_C /\
    pression_adiabatique (gaz self) (V_max self) P_C (V_min self) = Ret P_D /\
    temperature (gaz self) P_D (V_max self) = Ret T_D /\
    self' = set_points self
              (corners (V_max self, P_A self, T_A self) (V_min self, P_B, T_B)
                       (V_min self, P_C, T_C self) (V_max self, P_D, T_D)).
Proof.
  unfold CycleOtto.calculer_points_cycle.
  destruct (pression_adiabatique (gaz self) (V_min self) (P_A self) (V_max self))
    as [P_B| |] eqn:H1; try discriminate. cbn [mbind py_bind].
  destruct (temperature (gaz self) P_B (V_min self)) as [T_B| |] eqn:H2;
    try discriminate. cbn [mbind py_bind].
  destruct (pression (gaz self) (V_min self) (T_C self)) as [P_C| |] eqn:H3;
    try discriminate. cbn [mbind py_bind].
  destruct (pression_adiabatique (gaz self) (V_max self) P_C (V_min self))
    as [P_D| |] eqn:H4; try discriminate. cbn [mbind py_bind].
  destruct (temperature (gaz self) P_D (V_max self)) as [T_D| |] eqn:H5;
    try discriminate. cbn [mbind py_bind mret py_ret].
  intros [= <-]. exists P_B, T_B, P_C, P_D, T_D. repeat split; assumption.
Qed.

Lemma corners_dom (a b c d : point) :
  dom (corners a b c d) = ({["A"; "B"; "C"; "D"]} : gset string).
Proof. unfold corners. rewrite !dom_insert_L, dom_empty_L. set_solver. Qed.

(** X18. For every gas model, when the Otto [calculer_points_cycle]
    returns, the new state has the gas, the boundary values and the
    compression ratio of the old one, its dict of corners has exactly
    the keys A, B, C and D whatever it held before, and computing the
    corners again returns the same state. *)
Theorem calculer_points_cycle_idempotent (self self' : Cycle) :
  CycleOtto.calculer_points_cycle self = Ret self' ->
  CycleOtto.calculer_points_cycle self' = Ret self' /\
  dom (points self') = ({["A"; "B"; "C"; "D"]} : gset string) /\
  gaz self' = gaz self /\ V_min self' = V_min self /\ V_max self' = V_max self /\
  V_A self' = V_A self /\ T_A self' = T_A self /\ P_A self' = P_A self /\
  T_C self' = T_C self /\ tau self' = tau self.
Proof.
  intros H.
  destruct (calculer_points_cycle_inv self self' H)
    as (P_B & T_B & P_C & P_D & T_D & H1 & H2 & H3 & H4 & H5 & ->).
  split.
  - apply (calculer_points_cycle_returns (set_points self _) P_B T_B P_C P_D T_D);
      assumption.
  - split; [apply corners_dom|]. repeat split.
Qed.

Lemma calculer_points_cycle_idempotent_witness :
  let self := {| gaz := GazVanDerWaals (Py 1) (Py 1.4) (Py 0.14) (Py 0.5);
                 V_min := Py 1; V_max := Py 8; V_A := Py 8;
                 T_A := Py 300; P_A := Py 101300; T_C := Py 2000;
                 points := {["Z" := (Py 1, Py 1, Py 1)]}; tau := Py 8 |} in
  exists self',
    CycleOtto.calculer_points_cycle self = Ret self' /\
    CycleOtto.calculer_points_cycle self' = Ret self' /\
    dom (points self') = ({["A"; "B"; "C"; "D"]} : gset string).
Proof.
  intros self.
  destruct (calculer_points_cycle_total self (Py 1) (Py 1.4) (Py 0.14) (Py 0.5))
    as (self' & H); [now right|simpl; lra..|].
  destruct (calculer_points_cycle_idempotent self self' H) as (H1 & H2 & _).
  exists self'. repeat split; assumption.
Defined.

(** * The entropy trace *)

Lemma mapM_py_length {A B} (f : A -> py B) (l : list A) (ys : list B) :
  mapM f l = Ret ys -> length ys = length l.
Proof. intros H. symmetry. exact (List.Forall2_length (mapM_py_inv f l ys H)). Qed.

Lemma generer_donnees_entropie_with_A
    (fsolve : (num -> py num) -> num -> py num) (diesel : bool)
    (self : Cycle) (n_points : nat) (V_ref P_ref T_ref : num) :
  points self !! "A" = Some (V_ref, P_ref, T_ref) ->
  generer_donnees_entropie fsolve diesel self n_points
  = data ← mapM (segment_entropie diesel self n_points V_ref T_ref) segments;
    mret (self, (map fst data, map snd data, ["A->B"; "B->C"; "C->D"; "D->A"])).
Proof.
  intros HA. unfold generer_donnees_entropie.
  rewrite bool_decide_eq_false_2
    by (apply (map_size_ne_0_lookup_2 _ "A"); rewrite HA; eauto).
  cbn [mbind py_bind mret py_ret]. rewrite HA. reflexivity.
Qed.

(** X19. On a dict of corners that is not empty, a missing corner A
    makes [generer_donnees_entropie] return three empty lists, while a
    missing corner B, with A there, makes it fail with [KeyError]. *)
Theorem generer_donnees_entropie_missing_corner
    (fsolve : (num -> py num) -> num -> py num) (diesel : bool)
    (self : Cycle) (n_points : nat) :
  (size (points self) <> 0%nat -> points self !! "A" = None ->
   generer_donnees_entropie fsolve diesel self n_points = Ret (self, ([], [], []))) /\
  (forall pA : point,
     points self !! "A" = Some pA -> points self !! "B" = None ->
     generer_donnees_entropie fsolve diesel self n_points = Raise KeyError).
Proof.
  split.
  - intros Hs HA. unfold generer_donnees_entropie.
    rewrite bool_decide_eq_false_2 by assumption.
    cbn [mbind py_bind mret py_ret]. now rewrite HA.
  - intros [[V_ref P_ref] T_ref] HA HB.
    rewrite (generer_donnees_entropie_with_A _ _ _ _ _ _ _ HA).
    assert (E : segment_entropie diesel self n_points V_ref T_ref ("A", "B")
                = Raise KeyError)
      by (unfold segment_entropie, getitem; rewrite HA, HB; reflexivity).
    unfold segments. cbn [mapM]. rewrite E. reflexivity.
Qed.

(** ** Arrays evaluated entry by entry *)

Lemma mapM_cons_inv {A B} (f : A -> py B) (x : A) (l : list A) (ys : list B) :
  mapM f (x :: l) = Ret ys ->
  exists y ys', f x = Ret y /\ mapM f l = Ret ys' /\ ys = y :: ys'.
Proof.
  cbn [mapM]. destruct (f x) as [y| |]; try discriminate. cbn [mbind py_bind].
  destruct (mapM f l) as [ys'| |]; try discriminate.
  cbn [mbind py_bind mret py_ret]. intros [= <-]. now exists y, ys'.
Qed.

Lemma mapM_cons_Ret {A B} (f : A -> py B) (x : A) (l : list A) (y : B) (ys : list B) :
  f x = Ret y -> mapM f l = Ret ys -> mapM f (x :: l) = Ret (y :: ys).
Proof. intros Hx Hl. cbn [mapM]. now rewrite Hx, Hl. Qed.

Lemma gas_cases_nonneg (g : ModeleGaz) (n gamma a b : num) :
  g = GazParfait n gamma \/ g = GazVanDerWaals n gamma a b ->
  0 < val n -> 0 <= val a -> 0 <= val b ->
  exists a' b',
    ((g = GazParfait n gamma /\ val a' = 0 /\ val b' = 0)
     \/ g = GazVanDerWaals n gamma a' b') /\
    0 <= val a' /\ 0 <= val n * val b' <= val n * val b.
Proof.
  intros [H|H] Hn Ha Hb.
  - exists (Py 0), (Py 0). split; [left; repeat split; assumption|]. simpl. nra.
  - exists a, b. split; [now right|]. nra.
Qed.

Section Samples.
Variables (g : ModeleGaz) (n gamma a b : num).
Hypothesis g_gas :
  (g = GazParfait n gamma /\ val a = 0 /\ val b = 0) \/ g = GazVanDerWaals n gamma a b.
Hypothesis n_pos : 0 < val n.
Hypothesis a_nonneg : 0 <= val a.
Hypothesis gamma_ne_1 : val gamma <> 1.
Variables V_ref T_ref : num.
Hypothesis T_ref_pos : 0 < val T_ref.

Lemma gas_temperature_positive (P V T : num) :
  0 < val V -> val n * val b < val V ->
  0 < val P + val a * (val n * val n) / (val V * val V) ->
  temperature g P V = Ret T -> 0 < val T.
Proof.
  intros HV HVb HP HT.
  destruct (gas_temperature_returns g n gamma a b g_gas n_pos P V HV) as (t & Ht & Hv).
  assert (t = T) by congruence. subst t. rewrite Hv.
  apply Rdiv_lt_0_compat; [|lra]. apply Rmult_lt_0_compat; lra.
Qed.

(** The entropy difference is computed at every sample whose
    temperature is positive. *)
Lemma entropie_samples_return (Vs Ts : list num) :
  Forall (fun t => 0 < val t) Ts ->
  exists Ss, mapM (fun vt : num * num => variation_entropie g vt.2 vt.1 T_ref V_ref)
                  (zip Vs Ts) = Ret Ss.
Proof.
  intros HT. apply mapM_py_returns. revert Vs.
  induction HT as [|t Ts Ht _ IH]; intros [|v Vs]; simpl; constructor.
  - destruct (variation_entropie_returns g t v T_ref V_ref) as (s & Hs & _).
    + destruct (gas_attributes g n gamma a b g_gas) as (_ & -> & _). assumption.
    + lra.
    + apply Rdiv_lt_0_compat; assumption.
    + now exists s.
  - apply IH.
Qed.

(** Temperatures read from pressures [Ps] at volumes [Vs]. *)
Lemma temperatures_return (Ps Vs : list num) :
  Forall2 (fun P V => 0 < val V /\ val n * val b < val V /\
                      0 < val P + val a * (val n * val n) / (val V * val V)) Ps Vs ->
  exists Ts, mapM (fun PV : num * num => temperature g PV.1 PV.2) (zip Ps Vs) = Ret Ts /\
             Forall (fun t => 0 < val t) Ts.
Proof.
  induction 1 as [|P V Ps Vs (HV & HVb & HP) _ (Ts & HTs & Hpos)].
  - exists []. split; [reflexivity|constructor].
  - destruct (gas_temperature_returns g n gamma a b g_gas n_pos P V HV) as (t & Ht & _).
    exists (t :: Ts). split.
    + apply (mapM_cons_Ret (fun PV : num * num => temperature g PV.1 PV.2) (P, V));
        assumption.
    + constructor; [|assumption].
      now apply (gas_temperature_positive P V t).
Qed.
End Samples.

Section AdiabaticSegment.
Variables (g : ModeleGaz) (n gamma a b : num).
Hypothesis g_gas :
  (g = GazParfait n gamma /\ val a = 0 /\ val b = 0) \/ g = GazVanDerWaals n gamma a b.
Hypothesis n_pos : 0 < val n.
Hypothesis a_nonneg : 0 <= val a.
Hypothesis gamma_ne_1 : val gamma <> 1.
Variables V_ref T_ref P0 V0 T0 : num.
Hypothesis T_ref_pos : 0 < val T_ref.
Hypothesis P0_pos : 0 < val P0.
Hypothesis V0_pos : 0 < val V0.
Hypothesis V0_above : val n * val b < val V0.
Hypothesis T0_read : temperature g P0 V0 = Ret T0.

Lemma adiabatic_T0_pos : 0 < val T0.
Proof.
  apply (gas_temperature_positive g n gamma a b g_gas n_pos P0 V0 T0);
    try assumption.
  assert (0 <= val a * (val n * val n) / (val V0 * val V0)); [|lra].
  apply Rmult_le_pos; [nra|]. left. apply Rinv_0_lt_compat. nra.
Qed.

(** Pressures and temperatures along the adiabatic from [(P0, V0)]. *)
Lemma adiabatic_samples_return (Vs : list num) :
  Forall (fun V => 0 < val V /\ val n * val b < val V) Vs ->
  exists Ps Ts,
    mapM (fun V => pression_adiabatique g V P0 V0) Vs = Ret Ps /\
    mapM (fun PV : num * num => temperature g PV.1 PV.2) (zip Ps Vs) = Ret Ts /\
    Forall (fun t => 0 < val t) Ts.
Proof.
  intros HVs.
  assert (HPs : exists Ps,
             mapM (fun V => pression_adiabatique g V P0 V0) Vs = Ret Ps /\
             Forall2 (fun P V => 0 < val V /\ val n * val b < val V /\
                        0 < val P + val a * (val n * val n) / (val V * val V)) Ps Vs).
  { induction HVs as [|V Vs (HV & HVb) _ (Ps & HPs & HF)].
    - exists []. split; [reflexivity|constructor].
    - destruct (gas_pression_adiabatique_returns g n gamma a b g_gas n_pos V P0 V0)
        as (P & HP & Hv); try assumption.
      exists (P :: Ps). split; [now apply mapM_cons_Ret|].
      constructor; [|assumption]. repeat split; try assumption.
      destruct (gas_temperature_returns g n gamma a b g_gas n_pos P0 V0 V0_pos)
        as (t0 & Ht0 & Hvt0).
      assert (t0 = T0) by congruence. subst t0.
      pose proof adiabatic_T0_pos as HT0. rewrite Hvt0 in HT0.
      rewrite Hv.
      match goal with |- 0 < ?x * (?t * ?q) / ?d - ?c + ?c' =>
        replace (x * (t * q) / d - c + c') with (x * (t * q) / d) by lra
      end.
      apply Rdiv_lt_0_compat; [|lra].
      apply Rmult_lt_0_compat; [lra|].
      apply Rmult_lt_0_compat; [assumption|apply exp_pos]. }
  destruct HPs as (Ps & HPs & HF).
  destruct (temperatures_return g n gamma a b g_gas n_pos Ps Vs HF) as (Ts & HTs & Hpos).
  now exists Ps, Ts.
Qed.

End AdiabaticSegment.

(** ** One segment of the trace *)

Section Segment.
Variables (diesel : bool) (self : Cycle) (n_points : nat) (V_ref T_ref : num).

Lemma segment_entropie_lengths (segment : string * string) (S T : list num) :
  segment_entropie diesel self n_points V_ref T_ref segment = Ret (S, T) ->
  length S = n_points /\ length T = n_points.
Proof.
  destruct segment as [p q]. unfold segment_entropie, getitem.
  destruct (points self !! p) as [[[V1 P1] T1]|]; [|discriminate].
  cbn [mbind py_bind].
  destruct (points self !! q) as [[[V2 P2] T2]|]; [|discriminate].
  cbn [mbind py_bind].
  assert (Hend : forall Vs Ts : list num,
            length Vs = n_points -> length Ts = n_points ->
            (mapM (fun vt : num * num =>
                     variation_entropie (gaz self) vt.2 vt.1 T_ref V_ref) (zip Vs Ts)
             ≫= fun S_space => mret (S_space, Ts)) = Ret (S, T) ->
            length S = n_points /\ length T = n_points).
  { intros Vs Ts HVs HTs.
    destruct (mapM _ (zip Vs Ts)) as [Ss| |] eqn:HS; try discriminate.
    cbn [mbind py_bind mret py_ret]. intros [= <- <-].
    apply mapM_py_length in HS. rewrite length_zip, HVs, HTs in HS. lia. }
  assert (Htemp : forall Ps Vs Ts : list num,
            length Ps = n_points -> length Vs = n_points ->
            mapM (fun PV : num * num => temperature (gaz self) PV.1 PV.2) (zip Ps Vs)
            = Ret Ts -> length Ts = n_points).
  { intros Ps Vs Ts HPs HVs HT. apply mapM_py_length in HT.
    rewrite length_zip, HPs, HVs in HT. lia. }
  destruct (_ || _).
  - destruct (mapM _ (linspace V1 V2 n_points)) as [Ps| |] eqn:HP; try discriminate.
    cbn [mbind py_bind].
    destruct (mapM _ (zip Ps _)) as [Ts| |] eqn:HT; try discriminate.
    cbn [mbind py_bind mret py_ret].
    apply mapM_py_length in HP. rewrite linspace_length in HP.
    apply Hend; [apply linspace_length|].
    now apply (Htemp Ps (linspace V1 V2 n_points)); [|apply linspace_length|].
  - destruct (diesel && _).
    + destruct (mapM _ (zip _ _)) as [Ts| |] eqn:HT; try discriminate.
      cbn [mbind py_bind mret py_ret].
      apply Hend; [apply linspace_length|].
      apply (Htemp (np_full n_points P1) (linspace V1 V2 n_points));
        [apply length_replicate|apply linspace_length|assumption].
    + destruct (Rlt_dec _ _); cbn [mbind py_bind mret py_ret];
        (apply Hend; [|apply linspace_length]);
        [apply length_replicate|apply linspace_length].
Qed.

Lemma segment_DA_inv (S T : list num) :
  segment_entropie diesel self n_points V_ref T_ref ("D", "A") = Ret (S, T) ->
  exists V1 P1 T1 V2 P2 T2 Vs,
    points self !! "D" = Some (V1, P1, T1) /\
    points self !! "A" = Some (V2, P2, T2) /\
    (Vs = np_full n_points V1 \/ Vs = linspace V1 V2 n_points) /\
    T = linspace T1 T2 n_points /\
    mapM (fun vt : num * num => variation_entropie (gaz self) vt.2 vt.1 T_ref V_ref)
         (zip Vs T) = Ret S.
Proof.
  unfold segment_entropie, getitem.
  destruct (points self !! "D") as [[[V1 P1] T1]|]; [|discriminate].
  cbn [mbind py_bind].
  destruct (points self !! "A") as [[[V2 P2] T2]|]; [|discriminate].
  cbn [mbind py_bind].
  replace (diesel && String.eqb "D" "B") with false by (now destruct diesel).
  change ((String.eqb "D" "A" && String.eqb "A" "B")
          || (String.eqb "D" "C" && String.eqb "A" "D")) with false.
  cbv iota.
  destruct (Rlt_dec _ _); cbn [mbind py_bind mret py_ret];
    (destruct (mapM _ (zip _ _)) as [Ss| |] eqn:HS; try discriminate);
    cbn [mbind py_bind mret py_ret]; intros [= <- <-].
  - exists V1, P1, T1, V2, P2, T2, (np_full n_points V1).
    split; [reflexivity|]. split; [reflexivity|]. split; [now left|].
    split; [reflexivity|exact HS].
  - exists V1, P1, T1, V2, P2, T2, (linspace V1 V2 n_points).
    split; [reflexivity|]. split; [reflexivity|]. split; [now right|].
    split; [reflexivity|exact HS].
Qed.
End Segment.

Lemma generer_donnees_entropie_inv
    (fsolve : (num -> py num) -> num -> py num) (diesel : bool)
    (self self' : Cycle) (n_points : nat) (S T : list (list num)) (L : list string)
    (V_ref P_ref T_ref : num) :
  generer_donnees_entropie fsolve diesel self n_points = Ret (self', (S, T, L)) ->
  points self' !! "A" = Some (V_ref, P_ref, T_ref) ->
  exists d1 d2 d3 d4,
    segment_entropie diesel self' n_points V_ref T_ref ("A", "B") = Ret d1 /\
    segment_entropie diesel self' n_points V_ref T_ref ("B", "C") = Ret d2 /\
    segment_entropie diesel self' n_points V_ref T_ref ("C", "D") = Ret d3 /\
    segment_entropie diesel self' n_points V_ref T_ref ("D", "A") = Ret d4 /\
    S = [d1.1; d2.1; d3.1; d4.1] /\ T = [d1.2; d2.2; d3.2; d4.2] /\
    L = ["A->B"; "B->C"; "C->D"; "D->A"].
Proof.
  unfold generer_donnees_entropie.
  destruct (if bool_decide _ then _ else _) as [s| |]; try discriminate.
  cbn [mbind py_bind].
  destruct (points s !! "A") as [[[V P] T0]|] eqn:HA.
  - destruct (mapM _ segments) as [data| |] eqn:HM; try discriminate.
    cbn [mbind py_bind mret py_ret]. intros [= <- <- <- <-] HA'.
    rewrite HA in HA'. injection HA' as <- <- <-.
    unfold segments in HM.
    apply mapM_cons_inv in HM as (d1 & l1 & H1 & HM & ->).
    apply mapM_cons_inv in HM as (d2 & l2 & H2 & HM & ->).
    apply mapM_cons_inv in HM as (d3 & l3 & H3 & HM & ->).
    apply mapM_cons_inv in HM as (d4 & l4 & H4 & HM & ->).
    injection HM as <-.
    exists d1, d2, d3, d4. repeat split; assumption.
  - cbn [mret py_ret]. intros [= <- <- <- <-] HA'. congruence.
Qed.

(** ** The trace on valid corners *)

Lemma linspace_pos (x y : num) (k : nat) :
  0 < val x -> 0 < val y -> Forall (fun t => 0 < val t) (linspace x y k).
Proof.
  intros Hx Hy. eapply Forall_impl; [apply linspace_range|].
  intros t Ht. exact (Rmin_Rmax_gt 0 _ _ _ Hx Hy Ht).
Qed.

Lemma linspace_above (lo : R) (x y : num) (k : nat) :
  0 < val x -> lo < val x -> 0 < val y -> lo < val y ->
  Forall (fun V => 0 < val V /\ lo < val V) (linspace x y k).
Proof.
  intros Hx Hxl Hy Hyl. eapply Forall_impl; [apply linspace_range|].
  intros t Ht. split.
  - exact (Rmin_Rmax_gt 0 _ _ _ Hx Hy Ht).
  - exact (Rmin_Rmax_gt lo _ _ _ Hxl Hyl Ht).
Qed.

Section TraceTotal.
Variables (diesel : bool) (self : Cycle) (n gamma a b : num) (n_points : nat).
Variables (V_ref T_ref : num).
Hypothesis self_gaz :
  gaz self = GazParfait n gamma \/ gaz self = GazVanDerWaals n gamma a b.
Hypothesis n_pos : 0 < val n.
Hypothesis a_nonneg : 0 <= val a.
Hypothesis b_nonneg : 0 <= val b.
Hypothesis gamma_ne_1 : val gamma <> 1.
Hypothesis T_ref_pos : 0 < val T_ref.

(** A corner with positive values, whose volume is above the covolume. *)
Local Abbreviation valid p :=
  (0 < val (p.1.1) /\ val n * val b < val (p.1.1) /\ 0 < val (p.1.2) /\ 0 < val (p.2)).

Lemma segment_adiabatic_total (p q : string) (p1 p2 : point) :
  (p, q) = ("A", "B") \/ (p, q) = ("C", "D") ->
  points self !! p = Some p1 -> points self !! q = Some p2 ->
  valid p1 -> valid p2 ->
  exists d, segment_entropie diesel self n_points V_ref T_ref (p, q) = Ret d.
Proof.
  destruct p1 as [[V1 P1] T1], p2 as [[V2 P2] T2].
  intros Hpq Hp Hq (H1 & H1b & HP1 & _) (H2 & H2b & _).
  cbn [fst snd] in *.
  destruct (gas_cases_nonneg (gaz self) n gamma a b self_gaz n_pos a_nonneg b_nonneg)
    as (a' & b' & Hg & Ha' & Hb').
  destruct (gas_temperature_returns (gaz self) n gamma a' b' Hg n_pos P1 V1 H1)
    as (T0 & HT0 & _).
  destruct (adiabatic_samples_return (gaz self) n gamma a' b' Hg n_pos Ha'
              P1 V1 T0 HP1 H1 ltac:(lra) HT0 (linspace V1 V2 n_points))
    as (Ps & Ts & HPs & HTs & Hpos).
  { apply linspace_above; lra. }
  destruct (entropie_samples_return (gaz self) n gamma a' b' Hg gamma_ne_1
              V_ref T_ref T_ref_pos (linspace V1 V2 n_points) Ts Hpos) as (Ss & HSs).
  exists (Ss, Ts). unfold segment_entropie, getitem. rewrite Hp, Hq.
  cbn [mbind py_bind].
  assert (E : (String.eqb p "A" && String.eqb q "B")
              || (String.eqb p "C" && String.eqb q "D") = true)
    by (destruct Hpq as [[= -> ->]|[= -> ->]]; reflexivity).
  rewrite E, HPs. cbn [mbind py_bind]. rewrite HTs. cbn [mbind py_bind mret py_ret].
  rewrite HSs. reflexivity.
Qed.

Lemma segment_other_total (p q : string) (p1 p2 : point) :
  (p, q) = ("B", "C") \/ (p, q) = ("D", "A") ->
  points self !! p = Some p1 -> points self !! q = Some p2 ->
  valid p1 -> valid p2 ->
  exists d, segment_entropie diesel self n_points V_ref T_ref (p, q) = Ret d.
Proof.
  destruct p1 as [[V1 P1] T1], p2 as [[V2 P2] T2].
  intros Hpq Hp Hq (H1 & H1b & HP1 & HT1) (H2 & H2b & _ & HT2).
  cbn [fst snd] in *.
  destruct (gas_cases_nonneg (gaz self) n gamma a b self_gaz n_pos a_nonneg b_nonneg)
    as (a' & b' & Hg & Ha' & Hb').
  unfold segment_entropie, getitem. rewrite Hp, Hq. cbn [mbind py_bind].
  assert (E : (String.eqb p "A" && String.eqb q "B")
              || (String.eqb p "C" && String.eqb q "D") = false)
    by (destruct Hpq as [[= -> ->]|[= -> ->]]; reflexivity).
  rewrite E.
  assert (Hlin : forall Vs : list num,
            exists Ss,
              mapM (fun vt : num * num =>
                      variation_entropie (gaz self) vt.2 vt.1 T_ref V_ref)
                   (zip Vs (linspace T1 T2 n_points)) = Ret Ss).
  { intros Vs.
    apply (entropie_samples_return (gaz self) n gamma a' b' Hg gamma_ne_1
             V_ref T_ref T_ref_pos Vs).
    now apply linspace_pos. }
  destruct (diesel && String.eqb p "B").
  - destruct (temperatures_return (gaz self) n gamma a' b' Hg n_pos
                (np_full n_points P1) (linspace V1 V2 n_points)) as (Ts & HTs & Hpos).
    { apply Forall2_replicate_l; [apply linspace_length|].
      eapply Forall_impl; [apply (linspace_above (val n * val b')); lra|].
      intros V (HV & HVb). repeat split; try assumption. simpl val.
      assert (0 <= val a' * (val n * val n) / (val V * val V)); [|lra].
      apply Rmult_le_pos; [nra|]. left. apply Rinv_0_lt_compat. nra. }
    destruct (entropie_samples_return (gaz self) n gamma a' b' Hg gamma_ne_1
                V_ref T_ref T_ref_pos (linspace V1 V2 n_points) Ts Hpos) as (Ss & HSs).
    rewrite HTs. cbn [mbind py_bind mret py_ret]. rewrite HSs. now eexists.
  - destruct (Rlt_dec _ _); cbn [mbind py_bind mret py_ret].
    + destruct (Hlin (np_full n_points V1)) as (Ss & ->). now eexists.
    + destruct (Hlin (linspace V1 V2 n_points)) as (Ss & ->). now eexists.
Qed.

Lemma segments_total (pA pB pC pD : point) :
  points self = corners pA pB pC pD ->
  valid pA -> valid pB -> valid pC -> valid pD ->
  exists d1 d2 d3 d4,
    mapM (segment_entropie diesel self n_points V_ref T_ref) segments
    = Ret [d1; d2; d3; d4].
Proof.
  intros Hpts HA HB HC HD.
  destruct (corners_lookup pA pB pC pD) as (LA & LB & LC & LD).
  rewrite <- Hpts in LA, LB, LC, LD.
  destruct (segment_adiabatic_total "A" "B" pA pB) as (d1 & H1); auto.
  destruct (segment_other_total "B" "C" pB pC) as (d2 & H2); auto.
  destruct (segment_adiabatic_total "C" "D" pC pD) as (d3 & H3); auto.
  destruct (segment_other_total "D" "A" pD pA) as (d4 & H4); auto.
  exists d1, d2, d3, d4.
  unfold segments. cbn [mapM]. rewrite H1. cbn [mbind py_bind].
  rewrite H2. cbn [mbind py_bind]. rewrite H3. cbn [mbind py_bind].
  rewrite H4. reflexivity.
Qed.
End TraceTotal.

Lemma generer_donnees_entropie_total
    (fsolve : (num -> py num) -> num -> py num) (diesel : bool) (self : Cycle)
    (n gamma a b : num) (n_points : nat) (VA PA TA : num) (pB pC pD : point) :
  gaz self = GazParfait n gamma \/ gaz self = GazVanDerWaals n gamma a b ->
  0 < val n -> 0 <= val a -> 0 <= val b -> val gamma <> 1 ->
  points self = corners (VA, PA, TA) pB pC pD ->
  Forall (fun p : point =>
            0 < val (p.1.1) /\ val n * val b < val (p.1.1) /\
            0 < val (p.1.2) /\ 0 < val (p.2)) [(VA, PA, TA); pB; pC; pD] ->
  exists S T,
    generer_donnees_entropie fsolve diesel self n_points
    = Ret (self, (S, T, ["A->B"; "B->C"; "C->D"; "D->A"])).
Proof.
  intros Hg Hn Ha Hb Hgam Hpts Hv.
  apply Forall_cons_1 in Hv as [HA Hv]. apply Forall_cons_1 in Hv as [HB Hv].
  apply Forall_cons_1 in Hv as [HC Hv]. apply Forall_cons_1 in Hv as [HD _].
  destruct (segments_total diesel self n gamma a b n_points VA TA Hg Hn Ha Hb Hgam
              ltac:(apply HA) (VA, PA, TA) pB pC pD Hpts HA HB HC HD)
    as (d1 & d2 & d3 & d4 & H).
  assert (LA : points self !! "A" = Some (VA, PA, TA)) by (rewrite Hpts; reflexivity).
  rewrite (generer_donnees_entropie_with_A _ _ _ _ _ _ _ LA), H.
  cbn [mbind py_bind mret py_ret]. now eexists _, _.
Qed.

Lemma engine_tau_4_trace (fsolve : (num -> py num) -> num -> py num) (diesel : bool)
    (n_points : nat) :
  exists S T,
    generer_donnees_entropie fsolve diesel engine_tau_4 n_points
    = Ret (engine_tau_4, (S, T, ["A->B"; "B->C"; "C->D"; "D->A"])).
Proof.
  apply (generer_donnees_entropie_total fsolve diesel engine_tau_4
           (Py 1) (Py 1.4) (Py 0) (Py 0) n_points
           (Py 8) (Py 101300) (Py 300) (Py 2, Py 705000, Py 522)
           (Py 2, Py 2700000, Py 2000) (Py 8, Py 388000, Py 1150));
    try (now left); try reflexivity; try (simpl; lra).
  repeat constructor; simpl; lra.
Qed.

(** ** Properties of the trace *)

(** X20. When [generer_donnees_entropie] returns, either corner A is
    missing and the three lists are empty, or the labels are A->B,
    B->C, C->D, D->A in this order and there are four arrays of entropy
    differences and four arrays of temperatures, each of [n_points]
    entries. *)
Theorem generer_donnees_entropie_shape
    (fsolve : (num -> py num) -> num -> py num) (diesel : bool)
    (self self' : Cycle) (n_points : nat) (S T : list (list num)) (L : list string) :
  generer_donnees_entropie fsolve diesel self n_points = Ret (self', (S, T, L)) ->
  (points self' !! "A" = None /\ S = [] /\ T = [] /\ L = []) \/
  (is_Some (points self' !! "A") /\
   L = ["A->B"; "B->C"; "C->D"; "D->A"] /\
   length S = 4%nat /\ length T = 4%nat /\
   Forall (fun s => length s = n_points) S /\
   Forall (fun t => length t = n_points) T).
Proof.
  intros H. destruct (points self' !! "A") as [[[V_ref P_ref] T_ref]|] eqn:HA.
  - right.
    destruct (generer_donnees_entropie_inv _ _ _ _ _ _ _ _ _ _ _ H HA)
      as ([S1 T1] & [S2 T2] & [S3 T3] & [S4 T4] & H1 & H2 & H3 & H4 & -> & -> & ->).
    apply segment_entropie_lengths in H1 as [? ?], H2 as [? ?], H3 as [? ?], H4 as [? ?].
    split; [eauto|]. repeat split; try reflexivity; repeat constructor; assumption.
  - left. split; [reflexivity|]. revert H. unfold generer_donnees_entropie.
    destruct (if bool_decide _ then _ else _) as [s| |]; try discriminate.
    cbn [mbind py_bind].
    destruct (points s !! "A") as [[[V P] T0]|] eqn:HA'.
    + destruct (mapM _ segments); try discriminate.
      cbn [mbind py_bind mret py_ret]. intros [= <- <- <- <-]. congruence.
    + cbn [mret py_ret]. intros [= <- <- <- <-]. repeat split.
Qed.

Lemma generer_donnees_entropie_shape_witness :
  exists S T L,
    generer_donnees_entropie fsolve_from_root false engine_tau_4 50
    = Ret (engine_tau_4, (S, T, L)) /\
    length S = 4%nat /\ Forall (fun s => length s = 50%nat) S /\
    Forall (fun t => length t = 50%nat) T.
Proof.
  destruct (engine_tau_4_trace fsolve_from_root false 50) as (S & T & H).
  destruct (generer_donnees_entropie_shape _ _ _ _ _ _ _ _ H)
    as [(HA & _)|(_ & _ & HS & _ & HFS & HFT)]; [discriminate|].
  exists S, T, ["A->B"; "B->C"; "C->D"; "D->A"]. repeat split; assumption.
Defined.

Lemma zip_nth_error {A B} (l : list A) (k : list B) (i : nat) (x : A) (y : B) :
  nth_error l i = Some x -> nth_error k i = Some y ->
  nth_error (zip l k) i = Some (x, y).
Proof.
  revert k i. induction l as [|a l IH]; intros [|b' k] [|i]; simpl; try discriminate.
  - now intros [= ->] [= ->].
  - apply IH.
Qed.

Lemma np_full_nth (k i : nat) (x : num) :
  (i < k)%nat -> nth_error (np_full k x) i = Some (Np (val x)).
Proof.
  unfold np_full. revert i. induction k as [|k IH]; intros [|i] Hi; simpl; try lia.
  - reflexivity.
  - apply IH. lia.
Qed.

(** X21. The trace closes on its reference: when corner D is stored at
    the volume of corner A, with [gamma <> 1], a positive temperature
    at A and at least two samples, the last sample of the segment D->A
    is at the temperature of A and its entropy difference is zero. *)
Theorem generer_donnees_entropie_closes
    (fsolve : (num -> py num) -> num -> py num) (diesel : bool)
    (self self' : Cycle) (k : nat) (S_data T_data : list (list num))
    (labels : list string)
    (V_A P_A T_A V_D P_D T_D : num) :
  generer_donnees_entropie fsolve diesel self (S (S k))
  = Ret (self', (S_data, T_data, labels)) ->
  points self' !! "A" = Some (V_A, P_A, T_A) ->
  points self' !! "D" = Some (V_D, P_D, T_D) ->
  val V_D = val V_A ->
  val (gaz_gamma (gaz self')) <> 1 -> 0 < val T_A ->
  exists S_DA T_DA s t,
    nth_error S_data 3 = Some S_DA /\ nth_error T_data 3 = Some T_DA /\
    nth_error S_DA (S k) = Some s /\ nth_error T_DA (S k) = Some t /\
    val s = 0 /\ val t = val T_A.
Proof.
  intros H HA HD EV Hg HTA.
  destruct (generer_donnees_entropie_inv _ _ _ _ _ _ _ _ _ _ _ H HA)
    as (d1 & d2 & d3 & [S4 T4] & _ & _ & _ & H4 & -> & -> & _).
  apply segment_DA_inv in H4
    as (V1 & P1 & T1 & V2 & P2 & T2 & Vs & HD' & HA' & HVs & -> & HS).
  rewrite HD in HD'. rewrite HA in HA'.
  injection HD' as <- <- <-. injection HA' as <- <- <-.
  destruct (linspace_last T_D T_A k) as (t & Ht & Hvt & _).
  assert (Hv : exists v, nth_error Vs (S k) = Some v /\ val v = val V_A).
  { destruct HVs as [-> | ->].
    - exists (Np (val V_D)). split; [apply np_full_nth; lia|exact EV].
    - destruct (linspace_last V_D V_A k) as (v & Hv & Hvv & _). now exists v. }
  destruct Hv as (v & Hv & Hvv).
  pose proof (zip_nth_error _ _ _ _ _ Hv Ht) as Hz.
  destruct (Forall2_nth_error _ _ _ _ _ (mapM_py_inv _ _ _ HS) Hz) as (s & Hs & Hsv).
  cbn [fst snd] in Hsv.
  exists S4, (linspace T_D T_A (S (S k))), s, t.
  repeat split; try assumption.
  destruct (variation_entropie_returns (gaz self') t v T_A V_A) as (s' & Hs' & Hv');
    [assumption|lra|rewrite Hvt; apply Rdiv_lt_0_compat; assumption|].
  assert (s' = s) by congruence. subst s'.
  rewrite Hv', Hvt, Hvv.
  pose proof (Rmax_floor_pos (val V_A - val (gaz_b (gaz self')) * val (gaz_n (gaz self')))).
  replace (val T_A / val T_A) with 1 by (field; lra).
  match goal with |- context [ln (?x / ?x)] =>
    replace (x / x) with 1 by (field; lra) end.
  rewrite ln_1. lra.
Qed.

Lemma generer_donnees_entropie_closes_witness :
  exists S T L S_DA T_DA s t,
    generer_donnees_entropie fsolve_from_root false engine_tau_4 50
    = Ret (engine_tau_4, (S, T, L)) /\
    nth_error S 3 = Some S_DA /\ nth_error T 3 = Some T_DA /\
    nth_error S_DA 49 = Some s /\ nth_error T_DA 49 = Some t /\
    val s = 0 /\ val t = 300.
Proof.
  destruct (engine_tau_4_trace fsolve_from_root false 50) as (S & T & H).
  destruct (generer_donnees_entropie_closes fsolve_from_root false
              engine_tau_4 engine_tau_4 48 S T _
              (Py 8) (Py 101300) (Py 300) (Py 8) (Py 388000) (Py 1150) H)
    as (S_DA & T_DA & s & t & H1 & H2 & H3 & H4 & H5 & H6);
    try reflexivity; try (simpl; lra).
  exists S, T, ["A->B"; "B->C"; "C->D"; "D->A"], S_DA, T_DA, s, t.
  repeat split; assumption.
Defined.

(** X23. Called on an Otto engine that has no corner yet, on the ideal
    gas with [n > 0], [gamma <> 1] and positive volumes, ambient
    pressure and temperatures, [generer_donnees_entropie] computes the
    corners itself and returns the state that holds them together with
    the trace of the four segments. *)
Theorem generer_donnees_entropie_computes_corners
    (fsolve : (num -> py num) -> num -> py num) (self : Cycle) (n gamma : num)
    (n_points : nat) :
  gaz self = GazParfait n gamma -> points self = ∅ ->
  0 < val n -> val gamma <> 1 ->
  0 < val (V_min self) -> 0 < val (V_max self) ->
  0 < val (P_A self) -> 0 < val (T_A self) -> 0 < val (T_C self) ->
  exists self' S_data T_data,
    CycleOtto.calculer_points_cycle self = Ret self' /\
    generer_donnees_entropie fsolve false self n_points
    = Ret (self', (S_data, T_data, ["A->B"; "B->C"; "C->D"; "D->A"])).
Proof.
  intros Hg Hpts Hn Hgam Hmin Hmax HPA HTA HTC.
  destruct (CycleOtto_ideal_corners self n gamma Hg Hn Hmin Hmax)
    as (P_B & T_B & P_C & P_D & T_D & H & HB & HTB & HC & HD & HTD).
  assert (0 < val P_B) by (rewrite HB; apply Rmult_lt_0_compat; [lra|apply exp_pos]).
  assert (0 < val T_B) by (rewrite HTB; apply Rdiv_lt_0_compat; nra).
  assert (0 < val P_C)
    by (rewrite HC; apply Rdiv_lt_0_compat; [|lra];
        apply Rmult_lt_0_compat; [nra|lra]).
  assert (0 < val P_D) by (rewrite HD; apply Rmult_lt_0_compat; [lra|apply exp_pos]).
  assert (0 < val T_D) by (rewrite HTD; apply Rdiv_lt_0_compat; nra).
  set (self' := set_points self _) in H.
  destruct (generer_donnees_entropie_total fsolve false self' n gamma (Py 0) (Py 0)
              n_points (V_max self) (P_A self) (T_A self) (V_min self, P_B, T_B)
              (V_min self, P_C, T_C self) (V_max self, P_D, T_D))
    as (S_data & T_data & HG);
    try (now left); try reflexivity; try (simpl; lra).
  { repeat constructor; simpl; lra. }
  exists self', S_data, T_data. split; [exact H|].
  rewrite <- HG. unfold generer_donnees_entropie at 1.
  rewrite bool_decide_eq_true_2 by (rewrite Hpts; apply map_size_empty).
  unfold self_calculer_points_cycle. rewrite H. cbn [mbind py_bind].
  unfold generer_donnees_entropie.
  rewrite bool_decide_eq_false_2; [reflexivity|].
  apply (map_size_ne_0_lookup_2 _ "A"). eexists. reflexivity.
Qed.

Lemma generer_donnees_entropie_computes_corners_witness :
  let self := {| gaz := GazParfait (Py 1) (Py 1.4);
                 V_min := Py 1; V_max := Py 8; V_A := Py 8;
                 T_A := Py 300; P_A := Py 101300; T_C := Py 2000;
                 points := ∅; tau := Py 8 |} in
  exists self' S_data T_data,
    CycleOtto.calculer_points_cycle self = Ret self' /\
    generer_donnees_entropie fsolve_from_root false self 50
    = Ret (self', (S_data, T_data, ["A->B"; "B->C"; "C->D"; "D->A"])).
Proof.
  intros self.
  apply (generer_donnees_entropie_computes_corners fsolve_from_root self
           (Py 1) (Py 1.4) 50); try reflexivity; simpl; lra.
Defined.

(** * Rounded arithmetic

    From here on the names are those of [Binary64]. *)

Import Binary64.

(** ** Evaluations on binary64 numbers *)

(** C5: on the ideal gas with [n = 1], the temperature read back from
    the pressure at [V = 0.001], [T = 300] is [299.99999999999994]. *)
Lemma round_trip_not_exact :
  (299.99999999999994 =? 300)%float = false /\
  forall libm_pow,
    (P ← pression (GazParfait (A := prim libm_pow) 1 1.4) 0.001 300;
     temperature (GazParfait (A := prim libm_pow) 1 1.4) P 0.001)%float
    = Ret 299.99999999999994%float.
Proof. split; [reflexivity|]. intros libm_pow. vm_compute. reflexivity. Qed.

(** C6: with [a = b = 0], [n = 1] and [V = V0 = 1] every power has base
    1 and is settled by Python itself; from [P0 = 5] the Van der Waals
    method returns [4.999999999999999] and the ideal-gas one [5]. *)
Lemma degenerate_adiabatic_differs :
  (4.999999999999999 =? 5)%float = false /\
  forall libm_pow,
    (pression_adiabatique (GazVanDerWaals (A := prim libm_pow) 1 1.4 0 0) 1 5 1
     = Ret 4.999999999999999 /\
     pression_adiabatique (GazParfait (A := prim libm_pow) 1 1.4) 1 5 1
     = Ret 5)%float.
Proof. split; [reflexivity|]. intros libm_pow. split; vm_compute; reflexivity. Qed.




(** ** Accumulated rounding errors *)

Section Within.
Variable u : R.
Hypothesis u_range : 0 <= u < 1.

Lemma low_pos (k : nat) : 0 < (1 - u) ^ k.
Proof. apply pow_lt. lra. Qed.

Lemma low_le_1 (k : nat) : (1 - u) ^ k <= 1.
Proof.
  induction k as [|k IH]; cbn [Rpow_def.pow]; [lra|].
  pose proof (low_pos k). nra.
Qed.

Lemma high_ge_1 (k : nat) : 1 <= / (1 - u) ^ k.
Proof.
  pose proof (low_pos k) as Hp. pose proof (low_le_1 k) as Hl.
  apply Rle_trans with (/ 1); [rewrite Rinv_1; lra|].
  apply Rinv_le_contravar; lra.
Qed.

Lemma low_add (j k : nat) : (1 - u) ^ (j + k) = (1 - u) ^ j * (1 - u) ^ k.
Proof. apply pow_add. Qed.

Lemma high_add (j k : nat) :
  / (1 - u) ^ (j + k) = / (1 - u) ^ j * / (1 - u) ^ k.
Proof.
  rewrite pow_add, Rinv_mult. reflexivity.
Qed.


Lemma tol_le (j k : nat) : (j <= k)%nat -> tol u j <= tol u k.
Proof.
  intros Hjk. unfold tol.
  replace k with (j + (k - j))%nat by lia.
  rewrite high_add.
  pose proof (high_ge_1 j). pose proof (high_ge_1 (k - j)). nra.
Qed.

Lemma within_refl (x : R) : within u 0 x x.
Proof. exists 1. cbn [Rpow_def.pow]. split; [ring | rewrite Rinv_1; lra]. Qed.

Lemma within_weaken (j k : nat) (x y : R) :
  (j <= k)%nat -> within u j x y -> within u k x y.
Proof.
  intros Hjk (q & -> & Hl & Hh). exists q. split; [reflexivity|].
  replace k with (j + (k - j))%nat by lia.
  rewrite high_add, low_add.
  pose proof (low_pos j) as Hj. pose proof (low_le_1 (k - j)) as Hk.
  pose proof (high_ge_1 (k - j)) as Hk'. pose proof (high_ge_1 j) as Hj'.
  split.
  - apply Rle_trans with ((1 - u) ^ j); [|exact Hl].
    rewrite <- (Rmult_1_r ((1 - u) ^ j)) at 2.
    apply Rmult_le_compat_l; lra.
  - apply Rle_trans with (/ (1 - u) ^ j); [exact Hh|].
    rewrite <- (Rmult_1_r (/ (1 - u) ^ j)) at 1.
    apply Rmult_le_compat_l; lra.
Qed.

Lemma within_mul (j k : nat) (x1 y1 x2 y2 : R) :
  within u j x1 y1 -> within u k x2 y2 -> within u (j + k) (x1 * x2) (y1 * y2).
Proof.
  intros (q1 & -> & Hl1 & Hh1) (q2 & -> & Hl2 & Hh2).
  exists (q1 * q2). split; [ring|].
  rewrite high_add, low_add.
  pose proof (low_pos j). pose proof (low_pos k).
  split; apply Rmult_le_compat; lra.
Qed.

Lemma within_inv (k : nat) (x y : R) :
  within u k x y -> within u k (/ x) (/ y).
Proof.
  intros (q & -> & Hl & Hh).
  pose proof (low_pos k) as Hp.
  assert (Hq : 0 < q) by lra.
  exists (/ q). split.
  - rewrite Rinv_mult. reflexivity.
  - split.
    + rewrite <- (Rinv_inv ((1 - u) ^ k)).
      apply Rinv_le_contravar; [lra|].
      exact Hh.
    + apply Rinv_le_contravar; lra.
Qed.

Lemma within_div (j k : nat) (x1 y1 x2 y2 : R) :
  within u j x1 y1 -> within u k x2 y2 -> within u (j + k) (x1 / x2) (y1 / y2).
Proof.
  intros H1 H2. unfold Rdiv. apply within_mul; [exact H1|].
  apply within_inv. exact H2.
Qed.

Lemma within_trans (j k : nat) (x y z : R) :
  within u j x y -> within u k y z -> within u (j + k) x z.
Proof.
  intros (q1 & -> & Hl1 & Hh1) (q2 & -> & Hl2 & Hh2).
  exists (q2 * q1). split; [ring|].
  rewrite high_add, low_add.
  pose proof (low_pos j). pose proof (low_pos k).
  split; rewrite (Rmult_comm q2 q1); apply Rmult_le_compat; lra.
Qed.

Lemma within_sym (k : nat) (x y : R) : within u k x y -> within u k y x.
Proof.
  intros (q & -> & Hl & Hh).
  pose proof (low_pos k) as Hp.
  assert (Hq : 0 < q) by lra.
  exists (/ q). split.
  - field. lra.
  - split.
    + rewrite <- (Rinv_inv ((1 - u) ^ k)).
      apply Rinv_le_contravar; [lra|]. exact Hh.
    + apply Rinv_le_contravar; lra.
Qed.

Lemma within_pos (k : nat) (x y : R) : within u k x y -> 0 < y -> 0 < x.
Proof.
  intros (q & -> & Hl & _) Hy. pose proof (low_pos k).
  apply Rmult_lt_0_compat; lra.
Qed.

Lemma within_nonneg (k : nat) (x y : R) : within u k x y -> 0 <= y -> 0 <= x.
Proof.
  intros (q & -> & Hl & _) Hy. pose proof (low_pos k).
  apply Rmult_le_pos; lra.
Qed.

Lemma within_nonzero (k : nat) (x y : R) : within u k x y -> y <> 0 -> x <> 0.
Proof.
  intros (q & -> & Hl & _) Hy. pose proof (low_pos k).
  apply Rmult_integral_contrapositive_currified; lra.
Qed.

Lemma within_sign (k : nat) (x y : R) : within u k x y -> 0 <= x -> 0 <= y.
Proof. intros H. apply within_nonneg with k. apply within_sym. exact H. Qed.

Lemma factor_tol (k : nat) (q : R) :
  (1 - u) ^ k <= q <= / (1 - u) ^ k -> Rabs (q - 1) <= tol u k.
Proof.
  intros [Hl Hh]. unfold tol.
  pose proof (low_pos k) as Hp. pose proof (low_le_1 k) as Hl1.
  assert (Hsum : 2 <= (1 - u) ^ k + / (1 - u) ^ k).
  { assert (Hi : 0 < / (1 - u) ^ k) by (apply Rinv_0_lt_compat; lra).
    assert (He : (1 - u) ^ k * / (1 - u) ^ k = 1) by (apply Rinv_r; lra).
    nra. }
  apply Rabs_le. lra.
Qed.

(** The relative error that [k] roundings leave. *)
Lemma within_tol (k : nat) (x y : R) :
  within u k x y -> Rabs (x - y) <= tol u k * Rabs y.
Proof.
  intros (q & -> & Hq).
  replace (y * q - y) with (y * (q - 1)) by ring.
  rewrite Rabs_mult, Rmult_comm.
  apply Rmult_le_compat_r; [apply Rabs_pos|].
  apply factor_tol, Hq.
Qed.



Lemma exp_le (x y : R) : x <= y -> exp x <= exp y.
Proof.
  intros [H| ->]; [left; apply exp_increasing, H | apply Rle_refl].
Qed.

(** A power with exponent between 0 and [m] multiplies the number of
    roundings by [m] at most. *)
Lemma within_Rpower (k m : nat) (x y g : R) :
  0 < y -> 0 <= g <= INR m -> within u k x y ->
  within u (k * m) (Rpower x g) (Rpower y g).
Proof.
  intros Hy [Hg Hgm] (q & -> & Hl & Hh).
  pose proof (low_pos k) as Hp. pose proof (low_le_1 k) as Hl1.
  pose proof (high_ge_1 k) as Hh1.
  assert (Hq : 0 < q) by lra.
  exists (Rpower q g). split.
  - symmetry. apply Rpower_mult_distr; assumption.
  - rewrite !pow_mult. split.
    + apply Rle_trans with (Rpower ((1 - u) ^ k) g).
      * rewrite <- (Rpower_pow m ((1 - u) ^ k)) by exact Hp.
        unfold Rpower. apply exp_le.
        assert (Hln : ln ((1 - u) ^ k) <= 0).
        { rewrite <- ln_1. destruct Hl1 as [Hl1|Hl1].
          - left. apply ln_increasing; assumption.
          - rewrite Hl1. apply Rle_refl. }
        nra.
      * apply Rle_Rpower_l; [exact Hg | split; assumption].
    + apply Rle_trans with (Rpower (/ (1 - u) ^ k) g).
      * apply Rle_Rpower_l; [exact Hg | split; assumption].
      * rewrite <- (pow_inv ((1 - u) ^ k) m).
        rewrite <- (Rpower_pow m (/ (1 - u) ^ k)) by (apply Rinv_0_lt_compat, Hp).
        apply Rle_Rpower; [exact Hh1 | exact Hgm].
Qed.

Lemma within_eq (k : nat) (x y y' : R) :
  within u k x y -> y = y' -> within u k x y'.
Proof. intros H <-. exact H. Qed.

(** Dividing or multiplying by a number both sides share. *)
Lemma within_div_by (k : nat) (x y d : R) :
  d <> 0 -> within u k x (y * d) -> within u k (x / d) y.
Proof.
  intros Hd (q & -> & Hq). exists q. split; [field; exact Hd | exact Hq].
Qed.

Lemma within_mul_by (k : nat) (x y d : R) :
  d <> 0 -> within u k x (y / d) -> within u k (x * d) y.
Proof.
  intros Hd (q & -> & Hq). exists q. split; [field; exact Hd | exact Hq].
Qed.

Lemma within_tol_pos (k : nat) (x y : R) :
  within u k x y -> 0 <= y -> Rabs (x - y) <= tol u k * y.
Proof.
  intros H Hy. rewrite <- (Rabs_pos_eq y) at 2 by exact Hy.
  apply within_tol, H.
Qed.

End Within.

(** ** The standard model of rounding

    [rnd] rounds a real number to a binary64 number, with a relative
    error of at most [u]: for rounding to nearest, [u] is [2^-53] as
    long as no result overflows or falls below the normal range.  The
    power function of the C library is accurate to the same bound
    ([2^-52] covers one unit in the last place).  [rnd x = x] says that
    [x] is a binary64 number. *)

Section Rounding.
Variable u : R.
Variable rnd : R -> R.
Variable libm_pow : R -> R -> R.
Hypothesis u_range : 0 <= u < 1.
Hypothesis rnd_error : forall x, Rabs (rnd x - x) <= u * Rabs x.
Hypothesis libm_pow_error :
  forall x y, 0 < x -> Rabs (libm_pow x y - Rpower x y) <= u * Rpower x y.

Local Abbreviation M := (rounded rnd libm_pow).

Lemma Rabs_bounds (a b : R) : Rabs a <= b -> - b <= a <= b.
Proof. unfold Rabs. destruct (Rcase_abs a); lra. Qed.

Lemma error_within (x y : R) : Rabs (x - y) <= u * Rabs y -> within u 1 x y.
Proof.
  intros H. destruct (Req_dec_T y 0) as [->|Hy].
  - rewrite Rabs_R0, Rmult_0_r, Rminus_0_r in H.
    assert (x = 0) as ->.
    { pose proof (Rabs_pos x). destruct (Req_dec_T x 0) as [E|E]; [exact E|].
      pose proof (Rabs_pos_lt x E). lra. }
    apply within_weaken with 0%nat; [assumption | lia | apply within_refl].
  - exists (x / y). split; [field; exact Hy|].
    assert (Hq : Rabs (x / y - 1) <= u).
    { replace (x / y - 1) with ((x - y) / y) by (field; exact Hy).
      unfold Rdiv. rewrite Rabs_mult, Rabs_inv.
      pose proof (Rabs_pos_lt y Hy) as Hp.
      apply Rmult_le_reg_r with (Rabs y); [exact Hp|].
      rewrite Rmult_assoc, Rinv_l by lra. lra. }
    apply Rabs_bounds in Hq. cbn [Rpow_def.pow]. rewrite Rmult_1_r.
    split; [lra|].
    apply Rmult_le_reg_r with (1 - u); [lra|].
    rewrite Rinv_l by lra. nra.
Qed.

Lemma rnd_within (x : R) : within u 1 (rnd x) x.
Proof. apply error_within, rnd_error. Qed.

Lemma rnd_0 : rnd 0 = 0.
Proof.
  pose proof (rnd_error 0) as H.
  rewrite Rabs_R0, Rmult_0_r, Rminus_0_r in H.
  destruct (Req_dec_T (rnd 0) 0) as [E|E]; [exact E|].
  pose proof (Rabs_pos_lt _ E). lra.
Qed.

Lemma rnd_step (k : nat) (x y : R) : within u k x y -> within u (S k) (rnd x) y.
Proof.
  intros H. change (S k) with (1 + k)%nat.
  apply within_trans with x; [assumption | apply rnd_within | exact H].
Qed.

Lemma libm_pow_within (x y : R) : 0 < x -> within u 1 (libm_pow x y) (Rpower x y).
Proof.
  intros Hx. apply error_within.
  rewrite (Rabs_pos_eq (Rpower x y)); [apply libm_pow_error, Hx|].
  unfold Rpower. left. apply exp_pos.
Qed.

(** [x ** y] for a positive base: the special cases return the exact
    power, the C library is within one rounding of it. *)
Lemma power_within (x y : R) :
  0 < x ->
  exists p, power (a := M) x y = Ret p /\
            within u 1 p (Rpower x y).
Proof.
  intros Hx. cbn [power rounded]. unfold real_pow.
  destruct (Req_dec_T y 0) as [->|Hy].
  - exists 1. split; [reflexivity|].
    rewrite Rpower_O by exact Hx.
    apply within_weaken with 0%nat; [assumption | lia | apply within_refl].
  - destruct (Req_dec_T x 0) as [E|_]; [lra|].
    destruct (Rlt_dec x 0) as [E|_]; [lra|].
    destruct (Req_dec_T x 1) as [->|Hx1].
    + exists 1. split; [reflexivity|].
      rewrite Rpower_1_l.
      apply within_weaken with 0%nat; [assumption | lia | apply within_refl].
    + eexists. split; [reflexivity|]. apply libm_pow_within, Hx.
Qed.

Lemma power_2_within (x : R) :
  0 < x ->
  exists p, power (a := M) x 2 = Ret p /\
            within u 1 p (x * x).
Proof.
  intros Hx. destruct (power_within x 2 Hx) as (p & Hp & Hw).
  exists p. split; [exact Hp|].
  replace (x * x) with (Rpower x 2); [exact Hw|].
  replace 2 with (INR 2) by (simpl; lra).
  rewrite Rpower_pow by exact Hx. simpl. ring.
Qed.

Lemma truediv_returns (x y : R) :
  y <> 0 -> truediv (a := M) x y = Ret (rnd (x / y)).
Proof.
  intros Hy. cbn [truediv rounded].
  destruct (Req_dec_T y 0) as [E|_]; [contradiction | reflexivity].
Qed.

(** The adiabatic pressure of the ideal gas against [P0 (V0/V)^gamma]:
    one rounding for the quotient, raised to [gamma], one for the
    power and one for the product. *)
Lemma adiabatique_within (m : nat) (gamma V P0 V0 : R) :
  0 < V -> 0 < V0 -> 0 <= gamma <= INR m ->
  exists P,
    adiabatique (A := M) V P0 V0 gamma = Ret P /\
    within u (m + 2) P (P0 * Rpower (V0 / V) gamma).
Proof.
  intros HV HV0 Hg.
  assert (Hq : 0 < V0 / V)
    by (apply Rmult_lt_0_compat; [lra | apply Rinv_0_lt_compat; lra]).
  set (r := rnd (V0 / V)).
  assert (Wr : within u 1 r (V0 / V)) by apply rnd_within.
  assert (Hr : 0 < r) by (apply (within_pos u u_range 1 _ _ Wr), Hq).
  destruct (power_within r gamma Hr) as (p & Hp & Wp).
  exists (rnd (P0 * p)). split.
  - unfold adiabatique. rewrite truediv_returns by lra. fold r.
    cbn [mbind py_bind]. rewrite Hp. reflexivity.
  - replace (m + 2)%nat with (S (0 + (1 + 1 * m)))%nat by lia.
    apply rnd_step.
    apply within_mul; [exact u_range | apply within_refl; exact u_range|].
    apply within_trans with (Rpower r gamma); [exact u_range | exact Wp|].
    apply within_Rpower; assumption.
Qed.

(** X1.  On positive volumes and with an exponent between 0 and [m],
    [adiabatique] returns a pressure [P] for which [P V^gamma] is
    [P0 V0^gamma] up to rounding: within [m + 2] roundings. *)
Theorem adiabatique_PV_gamma_within_tolerance (m : nat) (gamma V P0 V0 : R) :
  0 < V -> 0 < V0 -> 0 <= gamma <= INR m ->
  exists P,
    adiabatique (A := M) V P0 V0 gamma = Ret P /\
    Rabs (P * Rpower V gamma - P0 * Rpower V0 gamma)
      <= tol u (m + 2) * Rabs (P0 * Rpower V0 gamma).
Proof.
  intros HV HV0 Hg.
  destruct (adiabatique_within m gamma V P0 V0 HV HV0 Hg) as (P & HP & WP).
  exists P. split; [exact HP|].
  apply within_tol; [exact u_range|].
  replace (P0 * Rpower V0 gamma)
    with (P0 * Rpower (V0 / V) gamma * Rpower V gamma).
  - replace (m + 2)%nat with ((m + 2) + 0)%nat by lia.
    apply within_mul; [exact u_range | exact WP | apply within_refl; exact u_range].
  - rewrite Rmult_assoc, Rpower_mult_distr.
    + f_equal. f_equal. field. lra.
    + apply Rmult_lt_0_compat; [lra | apply Rinv_0_lt_compat; lra].
    + exact HV.
Qed.

(** X3.  On the ideal gas, with positive volumes and an exponent
    between 0 and [m], two adiabatic changes in a row give the pressure
    of the direct change up to rounding, within [3 (m + 2)] roundings,
    and going back to the first volume gives the first pressure up to
    rounding, within [2 (m + 2)]. *)
Theorem adiabatique_compose_within_tolerance (m : nat) (n gamma V1 V2 P0 V0 : R) :
  0 < V0 -> 0 < V1 -> 0 < V2 -> 0 <= gamma <= INR m ->
  let g := GazParfait (A := M) n gamma in
  exists P1 P2 P P0',
    pression_adiabatique g V1 P0 V0 = Ret P1 /\
    pression_adiabatique g V2 P1 V1 = Ret P2 /\
    pression_adiabatique g V2 P0 V0 = Ret P /\
    pression_adiabatique g V0 P1 V1 = Ret P0' /\
    Rabs (P2 - P) <= tol u (3 * (m + 2)) * Rabs P /\
    Rabs (P0' - P0) <= tol u (2 * (m + 2)) * Rabs P0.
Proof.
  intros HV0 HV1 HV2 Hg g. cbn [pression_adiabatique GazParfait g].
  destruct (adiabatique_within m gamma V1 P0 V0 HV1 HV0 Hg) as (P1 & HP1 & W1).
  destruct (adiabatique_within m gamma V2 P1 V1 HV2 HV1 Hg) as (P2 & HP2 & W2).
  destruct (adiabatique_within m gamma V2 P0 V0 HV2 HV0 Hg) as (P & HP & W).
  destruct (adiabatique_within m gamma V0 P1 V1 HV0 HV1 Hg) as (P0' & HP0' & W0).
  exists P1, P2, P, P0'. repeat (split; [assumption|]).
  assert (Hq : forall x y, 0 < x -> 0 < y -> 0 < x / y).
  { intros x y Hx Hy.
    apply Rmult_lt_0_compat; [lra | apply Rinv_0_lt_compat; lra]. }
  split.
  - apply within_tol; [exact u_range|].
    replace (3 * (m + 2))%nat with (((m + 2) + ((m + 2) + 0)) + (m + 2))%nat by lia.
    apply within_trans with (P0 * Rpower (V0 / V2) gamma);
      [exact u_range | | apply within_sym; assumption].
    apply within_trans with (P1 * Rpower (V1 / V2) gamma);
      [exact u_range | exact W2 |].
    replace (P0 * Rpower (V0 / V2) gamma)
      with (P0 * Rpower (V0 / V1) gamma * Rpower (V1 / V2) gamma).
    + apply within_mul;
        [exact u_range | exact W1 | apply within_refl; exact u_range].
    + rewrite Rmult_assoc, Rpower_mult_distr by (apply Hq; assumption).
      f_equal. f_equal. field. lra.
  - apply within_tol; [exact u_range|].
    replace (2 * (m + 2))%nat with ((m + 2) + ((m + 2) + 0))%nat by lia.
    apply within_trans with (P1 * Rpower (V1 / V0) gamma);
      [exact u_range | exact W0 |].
    apply within_eq
      with (P0 * Rpower (V0 / V1) gamma * Rpower (V1 / V0) gamma).
    + apply within_mul;
        [exact u_range | exact W1 | apply within_refl; exact u_range].
    + rewrite Rmult_assoc, Rpower_mult_distr by (apply Hq; assumption).
      replace (V0 / V1 * (V1 / V0)) with 1 by (field; lra).
      rewrite Rpower_1_l. ring.
Qed.

(** [n * R], as both gases compute it. *)
Lemma nR_nonzero (n : R) : n <> 0 -> rnd (n * rnd 8.314) <> 0.
Proof.
  intros Hn. apply (within_nonzero u u_range 1 _ _ (rnd_within _)).
  apply Rmult_integral_contrapositive_currified; [exact Hn|].
  apply (within_nonzero u u_range 1 _ _ (rnd_within _)). lra.
Qed.

Lemma within_add_back (k : nat) (P X Y : R) :
  0 <= Y <= X -> within u k P (X - Y) -> within u k (P + Y) X.
Proof.
  intros [HY HYX] (q & -> & Hl & Hh).
  pose proof (low_pos u u_range k) as Hp.
  pose proof (low_le_1 u u_range k) as Hl1.
  pose proof (high_ge_1 u u_range k) as Hh1.
  destruct (Req_dec_T X 0) as [->|HX].
  - assert (Y = 0) as -> by lra.
    exists 1. split; [ring | lra].
  - exists (((X - Y) * q + Y) / X). split; [field; exact HX|].
    assert (HXp : 0 < X) by lra.
    split.
    + apply Rmult_le_reg_r with X; [exact HXp|].
      unfold Rdiv. rewrite Rmult_assoc, Rinv_l, Rmult_1_r by exact HX. nra.
    + apply Rmult_le_reg_r with X; [exact HXp|].
      unfold Rdiv. rewrite Rmult_assoc, Rinv_l, Rmult_1_r by exact HX. nra.
Qed.

(** The attraction term [a * n**2 / V**2], as [van_der_waals] and
    [temperature] both compute it. *)
Lemma attraction_returns (n a V : R) :
  0 < n -> 0 < V ->
  exists n2 V2,
    power (a := M) n 2 = Ret n2 /\
    power (a := M) V 2 = Ret V2 /\
    V2 <> 0 /\
    within u 4 (rnd (rnd (a * n2) / V2)) (a * (n * n) / (V * V)).
Proof.
  intros Hn HV.
  destruct (power_2_within n Hn)
    as (n2 & Hn2 & Wn2).
  destruct (power_2_within V HV)
    as (V2 & HV2 & WV2).
  exists n2, V2. split; [exact Hn2|]. split; [exact HV2|]. split.
  - apply (within_nonzero u u_range 1 _ _ WV2). nra.
  - apply (rnd_step 3).
    change 3%nat with (2 + 1)%nat. apply within_div; [exact u_range| |exact WV2].
    apply (rnd_step 1).
    change 1%nat with (0 + 1)%nat.
    apply within_mul; [exact u_range | apply within_refl; exact u_range | exact Wn2].
Qed.

(** C5 (as amended).  For both gases and positive [n], [V] and [T], the
    state equation returns a pressure, and [temperature] applied to it
    returns [T] up to rounding: within four roundings for the ideal
    gas; within six for the Van der Waals gas with [a >= 0], at a
    volume above the covolume as computed and a pressure that is not
    negative.  With exact operations ([u = 0]) the temperature
    returned is [T] itself. *)
Theorem round_trip_within_tolerance (n gamma a b V T : R) :
  0 < n -> 0 < V -> 0 < T -> 0 <= a -> rnd (n * b) < V ->
  (exists P T',
     pression (GazParfait (A := M) n gamma) V T = Ret P /\
     temperature (GazParfait (A := M) n gamma) P V = Ret T' /\
     Rabs (T' - T) <= tol u 4 * T) /\
  (exists P,
     pression (GazVanDerWaals (A := M) n gamma a b) V T = Ret P /\
     (0 <= P ->
      exists T',
        temperature (GazVanDerWaals (A := M) n gamma a b) P V
          = Ret T' /\
        Rabs (T' - T) <= tol u 6 * T)).
Proof.
  intros Hn HV HT Ha Hb.
  pose proof (nR_nonzero n ltac:(lra)) as HN.
  set (N := rnd (n * rnd 8.314)) in HN.
  split.
  - exists (rnd (rnd (N * T) / V)), (rnd (rnd (rnd (rnd (N * T) / V) * V) / N)).
    split; [|split].
    + cbn [pression GazParfait]. unfold isotherme, CONST_R.
      cbn [fmul lit_8_314 rounded]. fold N.
      apply truediv_returns. lra.
    + cbn [temperature GazParfait]. cbn [fmul lit_8_314 rounded]. fold N.
      apply truediv_returns. exact HN.
    + apply within_tol_pos; [exact u_range | | lra].
      apply (rnd_step 3).
      apply within_div_by; [exact HN|].
      apply (rnd_step 2).
      apply within_mul_by; [lra|].
      apply (rnd_step 1).
      apply within_div_by; [lra|].
      replace (T * N / V * V) with (N * T) by (field; lra).
      apply rnd_within.
  - destruct (attraction_returns n a V Hn HV) as (n2 & V2 & Hn2 & HV2 & HV2' & WY).
    set (Y := rnd (rnd (a * n2) / V2)) in WY.
    set (W := rnd (V - rnd (n * b))).
    assert (HW : 0 < W).
    { apply (within_pos u u_range 1 _ (V - rnd (n * b))); [|lra].
      apply rnd_within. }
    set (X := rnd (rnd (N * T) / W)).
    assert (WX : within u 2 X (N * T / W)).
    { apply (rnd_step 1).
      apply within_div_by; [lra|].
      replace (N * T / W * W) with (N * T) by (field; lra).
      apply rnd_within. }
    exists (rnd (X - Y)). split.
    + cbn [pression GazVanDerWaals]. unfold van_der_waals, CONST_R.
      cbn [fmul fsub lit_8_314 lit_2 rounded]. fold N. fold W.
      rewrite truediv_returns by lra. fold X.
      cbn [mbind py_bind].
      change (real_pow libm_pow n 2) with (power (a := M) n 2).
      rewrite Hn2. cbn [mbind py_bind].
      change (real_pow libm_pow V 2) with (power (a := M) V 2).
      rewrite HV2. cbn [mbind py_bind].
      rewrite truediv_returns by exact HV2'. reflexivity.
    + intros HP.
      exists (rnd (rnd (rnd (rnd (X - Y) + Y) * W) / N)). split.
      * cbn [temperature GazVanDerWaals]. unfold GazVanDerWaals_temperature.
        cbn [fmul fsub fadd lit_8_314 lit_2 rounded]. fold N. fold W.
        change (real_pow libm_pow n 2) with (power (a := M) n 2).
        rewrite Hn2. cbn [mbind py_bind].
        change (real_pow libm_pow V 2) with (power (a := M) V 2).
        rewrite HV2. cbn [mbind py_bind].
        rewrite truediv_returns by exact HV2'. cbn [mbind py_bind]. fold Y.
        apply truediv_returns. exact HN.
      * assert (HY : 0 <= Y).
        { apply (within_nonneg u u_range 4 _ _ WY).
          apply Rmult_le_pos; [nra|]. left. apply Rinv_0_lt_compat. nra. }
        assert (HXY : 0 <= X - Y).
        { apply (within_sign u u_range 1 (rnd (X - Y))); [|exact HP].
          apply rnd_within. }
        apply within_tol_pos; [exact u_range | | lra].
        apply (rnd_step 5).
        apply within_div_by; [exact HN|].
        apply (rnd_step 4).
        apply within_mul_by; [lra|].
        replace (T * N / W) with (N * T / W) by (field; lra).
        change 4%nat with (2 + 2)%nat.
        apply within_trans with X; [exact u_range | | exact WX].
        apply (rnd_step 1).
        apply within_add_back; [lra|].
        apply rnd_within.
Qed.


(** 1 is a binary64 number. *)
Hypothesis rnd_1 : rnd 1 = 1.

Lemma power_1 (y : R) : power (a := M) 1 y = Ret 1.
Proof.
  cbn [power rounded]. unfold real_pow.
  destruct (Req_dec_T y 0) as [_|_]; [reflexivity|].
  destruct (Req_dec_T 1 0) as [E|_]; [lra|].
  destruct (Rlt_dec 1 0) as [E|_]; [lra|].
  destruct (Req_dec_T 1 1) as [_|E]; [reflexivity | lra].
Qed.


(** Rounding leaves a binary64 number as it is. *)
Hypothesis rnd_idem : forall x, rnd (rnd x) = rnd x.

Lemma degenerate_attraction (n V : R) :
  0 < V ->
  exists n2 V2,
    power (a := M) n 2 = Ret n2 /\
    power (a := M) V 2 = Ret V2 /\
    truediv (a := M) (rnd (0 * n2)) V2 = Ret 0.
Proof.
  intros HV.
  destruct (power_2_within V HV)
    as (V2 & HV2 & WV2).
  assert (HV2' : V2 <> 0)
    by (apply (within_nonzero u u_range 1 _ _ WV2); nra).
  assert (Hn2 : exists n2, power (a := M) n 2 = Ret n2).
  { cbn [power rounded]. unfold real_pow.
    destruct (Req_dec_T 2 0) as [E|_]; [lra|].
    destruct (Req_dec_T n 0) as [_|_].
    - destruct (Rlt_dec 2 0) as [E|_]; [lra | eexists; reflexivity].
    - destruct (Rlt_dec n 0) as [_|_].
      + destruct (Req_dec_T (frac_part 2) 0) as [_|E]; [eexists; reflexivity|].
        exfalso. apply E, frac_part_2.
      + destruct (Req_dec_T n 1); eexists; reflexivity. }
  destruct Hn2 as (n2 & Hn2). exists n2, V2.
  split; [exact Hn2|]. split; [exact HV2|].
  rewrite truediv_returns by exact HV2'.
  rewrite Rmult_0_l, rnd_0.
  unfold Rdiv. rewrite Rmult_0_l, rnd_0. reflexivity.
Qed.

Lemma degenerate_pression (n V T : R) :
  0 < V -> rnd V = V ->
  van_der_waals (A := M) V n T 0 0
  = Ret (rnd (rnd (rnd (n * rnd 8.314) * T) / V)).
Proof.
  intros HV HrV. unfold van_der_waals, CONST_R.
  destruct (degenerate_attraction n V HV) as (n2 & V2 & Hn2 & HV2 & HA).
  cbn [fsub fmul lit_8_314 lit_2 rounded].
  rewrite Rmult_0_r, rnd_0, Rminus_0_r, HrV.
  rewrite truediv_returns by lra. cbn [mbind py_bind].
  rewrite Hn2. cbn [mbind py_bind]. rewrite HV2. cbn [mbind py_bind].
  rewrite HA. cbn [mbind py_bind mret py_ret].
  rewrite Rminus_0_r, rnd_idem. reflexivity.
Qed.

Lemma degenerate_temperature (n P V : R) :
  0 < V -> rnd V = V -> rnd P = P ->
  GazVanDerWaals_temperature (A := M) n 0 0 P V
  = truediv (a := M) (rnd (P * V)) (rnd (n * rnd 8.314)).
Proof.
  intros HV HrV HrP. unfold GazVanDerWaals_temperature.
  destruct (degenerate_attraction n V HV) as (n2 & V2 & Hn2 & HV2 & HA).
  cbn [fadd fsub fmul lit_8_314 lit_2 rounded].
  rewrite Hn2. cbn [mbind py_bind]. rewrite HV2. cbn [mbind py_bind].
  rewrite HA. cbn [mbind py_bind].
  rewrite Rplus_0_r, HrP, Rmult_0_r, rnd_0, Rminus_0_r, HrV.
  reflexivity.
Qed.

(** C6 (as amended).  With [a = 0] and [b = 0], on binary64 arguments
    and a positive volume, the Van der Waals methods [pression] and
    [temperature] return what the ideal-gas methods return, also with
    rounded operations.  The adiabatic pressure is computed along
    another path, through the temperature, and matches the ideal-gas
    one up to rounding: within nine roundings, for [n <> 0], positive
    volumes and an exact difference [gamma - 1] (as it is in binary64
    for every [gamma] between 1/2 and 2). *)
Theorem GazVanDerWaals_degenerate_rounded (n gamma V T P P0 V0 : R) :
  n <> 0 -> 0 < V -> 0 < V0 ->
  rnd V = V -> rnd P = P -> rnd V0 = V0 -> rnd P0 = P0 ->
  rnd (gamma - 1) = gamma - 1 ->
  pression (GazVanDerWaals (A := M) n gamma 0 0) V T
    = pression (GazParfait (A := M) n gamma) V T /\
  temperature (GazVanDerWaals (A := M) n gamma 0 0) P V
    = temperature (GazParfait (A := M) n gamma) P V /\
  exists Pv Pi,
    pression_adiabatique (GazVanDerWaals (A := M) n gamma 0 0)
      V P0 V0 = Ret Pv /\
    pression_adiabatique (GazParfait (A := M) n gamma)
      V P0 V0 = Ret Pi /\
    Rabs (Pv - Pi) <= tol u 9 * Rabs Pi.
Proof.
  intros Hn HV HV0 HrV HrP HrV0 HrP0 Hg. split; [|split].
  - cbn [pression GazVanDerWaals GazParfait].
    rewrite degenerate_pression by assumption.
    unfold isotherme, CONST_R. cbn [fmul lit_8_314 rounded].
    rewrite truediv_returns by lra. reflexivity.
  - cbn [temperature GazVanDerWaals GazParfait].
    rewrite degenerate_temperature by assumption. reflexivity.
  - pose proof (nR_nonzero n Hn) as HN.
    set (N := rnd (n * rnd 8.314)) in HN.
    set (r := rnd (V0 / V)).
    assert (Wr : within u 1 r (V0 / V)) by (apply rnd_within).
    assert (Hr : 0 < r).
    { apply (within_pos u u_range 1 _ _ Wr).
      apply Rmult_lt_0_compat; [lra | apply Rinv_0_lt_compat; lra]. }
    destruct (power_within r (gamma - 1) Hr)
      as (p' & Hp' & Wp').
    destruct (power_within r gamma Hr)
      as (p & Hp & Wp).
    set (T0 := rnd (rnd (P0 * V0) / N)).
    exists (rnd (rnd (N * rnd (T0 * p')) / V)), (rnd (P0 * p)).
    split; [|split].
    + cbn [pression_adiabatique GazVanDerWaals].
      unfold GazVanDerWaals_pression_adiabatique.
      rewrite degenerate_temperature by assumption. fold N.
      rewrite (truediv_returns _ N) by exact HN.
      fold T0. cbn [mbind py_bind].
      cbn [fsub fmul lit_1 rounded].
      rewrite Rmult_0_r, rnd_0, !Rminus_0_r, HrV, HrV0, Hg.
      rewrite truediv_returns by lra. fold r. cbn [mbind py_bind].
      change (real_pow libm_pow r (gamma - 1))
        with (power (a := M) r (gamma - 1)).
      rewrite Hp'. cbn [mbind py_bind].
      rewrite degenerate_pression by assumption. reflexivity.
    + cbn [pression_adiabatique GazParfait]. unfold adiabatique.
      rewrite truediv_returns by lra. fold r. cbn [mbind py_bind].
      rewrite Hp. reflexivity.
    + apply within_tol; [exact u_range|].
      change 9%nat with (6 + (1 + 2))%nat.
      apply within_trans with (P0 * (V0 / V) * Rpower r (gamma - 1));
        [exact u_range | |].
      * apply (rnd_step 5).
        apply within_div_by; [lra|].
        apply (rnd_step 4).
        replace (P0 * (V0 / V) * Rpower r (gamma - 1) * V)
          with (N * (P0 * V0 / N * Rpower r (gamma - 1))) by (field; lra).
        change 4%nat with (0 + 4)%nat.
        apply within_mul; [exact u_range | apply within_refl; exact u_range|].
        apply (rnd_step 3).
        change 3%nat with (2 + 1)%nat.
        apply within_mul; [exact u_range | | exact Wp'].
        apply (rnd_step 1).
        apply within_div_by; [exact HN|].
        replace (P0 * V0 / N * N) with (P0 * V0) by (field; exact HN).
        apply rnd_within.
      * apply within_trans with (P0 * Rpower r gamma); [exact u_range | |].
        -- replace (Rpower r gamma) with (r * Rpower r (gamma - 1)).
           ++ rewrite <- Rmult_assoc. change 1%nat with (1 + 0)%nat.
              apply within_mul;
                [exact u_range | | apply within_refl; exact u_range].
              change 1%nat with (0 + 1)%nat.
              apply within_mul;
                [exact u_range | apply within_refl; exact u_range|].
              apply within_sym; assumption.
           ++ rewrite <- (Rpower_1 r) at 1 by exact Hr.
              rewrite <- Rpower_plus. f_equal. ring.
        -- apply within_sym; [exact u_range|].
           apply (rnd_step 1).
           change 1%nat with (0 + 1)%nat.
           apply within_mul;
             [exact u_range | apply within_refl; exact u_range | exact Wp].
Qed.

End Rounding.

(** ** Order

    Rounding to nearest preserves the order, and so does a power
    function that is correctly rounded. *)

Section Monotone.
Variable rnd : R -> R.
Variable libm_pow : R -> R -> R.
Hypothesis rnd_zero : rnd 0 = 0.
Hypothesis rnd_mono : forall x y, x <= y -> rnd x <= rnd y.
Hypothesis libm_pow_pos : forall x y, 0 < x -> 0 < libm_pow x y.
Hypothesis libm_pow_mono :
  forall x x' y, 0 < x <= x' -> 0 <= y -> libm_pow x y <= libm_pow x' y.

Local Abbreviation M := (rounded rnd libm_pow).



Hypothesis rnd_one : rnd 1 = 1.
Hypothesis libm_pow_ge_1 : forall x y, 1 <= x -> 0 <= y -> 1 <= libm_pow x y.

(** X15.  With [gamma >= 1] and a compression ratio of at least one,
    the theoretical efficiency that [calculer_rendement] computes lies
    between 0 and 1, both included, when rounding preserves the order
    and the power function of the C library returns at least 1 for a
    base of at least 1 and an exponent that is not negative. *)
Theorem eta_th_between_0_and_1 (gamma tau : R) :
  1 <= gamma -> 1 <= tau ->
  exists e, eta_th (A := M) tau gamma = Ret e /\ 0 <= e <= 1.
Proof.
  intros Hg Ht.
  assert (Hgn : 0 <= rnd (gamma - 1)).
  { rewrite <- rnd_zero. apply rnd_mono. lra. }
  assert (Hp : exists p, power (a := M) tau (rnd (gamma - 1))
                         = Ret p /\ 1 <= p).
  { cbn [power rounded]. unfold real_pow.
    destruct (Req_dec_T (rnd (gamma - 1)) 0) as [E|E].
    - exists 1. split; [reflexivity | lra].
    - destruct (Req_dec_T tau 0) as [E0|_]; [lra|].
      destruct (Rlt_dec tau 0) as [E0|_]; [lra|].
      destruct (Req_dec_T tau 1) as [E0|_].
      + exists 1. split; [reflexivity | lra].
      + eexists. split; [reflexivity|]. apply libm_pow_ge_1; assumption. }
  destruct Hp as (p & Hp & Hp1).
  exists (rnd (1 - rnd (1 / p))). split.
  - unfold eta_th. cbn [fsub lit_1 rounded]. rewrite Hp. cbn [mbind py_bind].
    rewrite truediv_returns by lra. reflexivity.
  - assert (Hq : 0 <= rnd (1 / p) <= 1).
    { split.
      - rewrite <- rnd_zero. apply rnd_mono.
        unfold Rdiv. rewrite Rmult_1_l. left. apply Rinv_0_lt_compat. lra.
      - rewrite <- rnd_one at 2. apply rnd_mono.
        unfold Rdiv. rewrite Rmult_1_l, <- Rinv_1.
        apply Rinv_le_contravar; lra. }
    revert Hq. generalize (rnd (1 / p)). intros q Hq. split.
    + rewrite <- rnd_zero. apply rnd_mono. lra.
    + rewrite <- rnd_one. apply rnd_mono. lra.
Qed.

End Monotone.

(** ** The theorems on an arithmetic that rounds

    [decimal3] keeps three decimals of a number that is at least 1 in
    magnitude and leaves a smaller one as it is: a rounding function
    with relative error at most [1/2000], which preserves the order
    and leaves its own results as they are. *)

Lemma decimal3_small (x : R) : -1 < x < 1 -> decimal3 x = x.
Proof.
  intros Hx. unfold decimal3.
  destruct (Rlt_dec (Rabs x) 1) as [_|H]; [reflexivity|].
  exfalso. apply H. apply Rabs_def1; lra.
Qed.

Lemma decimal3_big (x : R) :
  1 <= Rabs x ->
  exists k, decimal3 x = IZR k / 1000 /\
            IZR k - / 2 <= 1000 * x < IZR k + / 2.
Proof.
  intros Hx. unfold decimal3.
  destruct (Rlt_dec (Rabs x) 1) as [H|_]; [lra|].
  exists (up (1000 * x - / 2)). split; [reflexivity|].
  destruct (archimed (1000 * x - / 2)) as [H1 H2]. lra.
Qed.

Lemma decimal3_eq (x : R) (k : Z) :
  1 <= Rabs x -> IZR k - / 2 <= 1000 * x < IZR k + / 2 ->
  decimal3 x = IZR k / 1000.
Proof.
  intros Hx Hk. unfold decimal3.
  destruct (Rlt_dec (Rabs x) 1) as [H|_]; [lra|].
  rewrite <- (tech_up (1000 * x - / 2) k); [reflexivity | lra | lra].
Qed.

(** A number with three decimals is left as it is. *)
Lemma decimal3_exact (x : R) (k : Z) : x = IZR k / 1000 -> decimal3 x = x.
Proof.
  intros Hk. destruct (Rlt_dec (Rabs x) 1) as [H|H].
  - unfold decimal3. destruct (Rlt_dec (Rabs x) 1); [reflexivity | contradiction].
  - rewrite (decimal3_eq x k); [symmetry; exact Hk | lra | lra].
Qed.

Lemma decimal3_error (x : R) : Rabs (decimal3 x - x) <= / 2000 * Rabs x.
Proof.
  destruct (Rlt_dec (Rabs x) 1) as [H|H].
  - unfold decimal3. destruct (Rlt_dec (Rabs x) 1); [|contradiction].
    rewrite Rminus_diag, Rabs_R0. pose proof (Rabs_pos x). lra.
  - destruct (decimal3_big x) as (k & -> & Hk); [lra|].
    apply Rle_trans with (/ 2000); [|lra].
    apply Rabs_le. lra.
Qed.

Lemma decimal3_idem (x : R) : decimal3 (decimal3 x) = decimal3 x.
Proof.
  destruct (Rlt_dec (Rabs x) 1) as [H|H].
  - unfold decimal3 at 2. destruct (Rlt_dec (Rabs x) 1); [reflexivity | contradiction].
  - destruct (decimal3_big x) as (k & -> & Hk); [lra|].
    apply (decimal3_exact _ k). reflexivity.
Qed.

Lemma decimal3_mono (x y : R) : x <= y -> decimal3 x <= decimal3 y.
Proof.
  intros Hxy.
  destruct (Rlt_dec (Rabs x) 1) as [Hx|Hx];
    destruct (Rlt_dec (Rabs y) 1) as [Hy|Hy].
  - apply Rabs_def2 in Hx, Hy. rewrite !decimal3_small by lra. exact Hxy.
  - apply Rabs_def2 in Hx. rewrite (decimal3_small x) by lra.
    destruct (decimal3_big y) as (k & -> & Hk); [lra|].
    assert (Hy1 : 1 <= y).
    { unfold Rabs in Hy. destruct (Rcase_abs y); lra. }
    assert (Hk' : (999 < k)%Z) by (apply lt_IZR; lra).
    assert (1000 <= IZR k) by (apply IZR_le; lia). lra.
  - apply Rabs_def2 in Hy. rewrite (decimal3_small y) by lra.
    destruct (decimal3_big x) as (k & -> & Hk); [lra|].
    assert (Hx1 : x <= -1).
    { unfold Rabs in Hx. destruct (Rcase_abs x); lra. }
    assert (Hk' : (k < -999)%Z) by (apply lt_IZR; lra).
    assert (IZR k <= -1000) by (apply IZR_le; lia). lra.
  - destruct (decimal3_big x) as (k & -> & Hk); [lra|].
    destruct (decimal3_big y) as (l & -> & Hl); [lra|].
    assert (Hkl : (k < l + 1)%Z) by (apply lt_IZR; rewrite plus_IZR; lra).
    assert (IZR k <= IZR l) by (apply IZR_le; lia). lra.
Qed.

Lemma decimal3_pow_error (x y : R) :
  Rabs (decimal3 (Rpower x y) - Rpower x y) <= / 2000 * Rpower x y.
Proof.
  rewrite <- (Rabs_pos_eq (Rpower x y)) at 3; [apply decimal3_error|].
  left. apply exp_pos.
Qed.


Lemma decimal3_pow_ge_1 (x y : R) :
  1 <= x -> 0 <= y -> 1 <= decimal3 (Rpower x y).
Proof.
  intros Hx Hy. rewrite <- (decimal3_exact 1 1000) by lra.
  apply decimal3_mono. rewrite <- (Rpower_O x) by lra.
  apply Rle_Rpower; lra.
Qed.

Lemma round_trip_within_tolerance_witness :
  let A := rounded decimal3 (fun x y => decimal3 (Rpower x y)) in
  (exists P T',
     pression (GazParfait (A := A) 1 1.4) 1 300 = Ret P /\
     temperature (GazParfait (A := A) 1 1.4) P 1 = Ret T' /\
     Rabs (T' - 300) <= tol (/ 2000) 4 * 300) /\
  (exists P,
     pression (GazVanDerWaals (A := A) 1 1.4 0.5 0.5) 1 300 = Ret P /\
     0 <= P /\
     exists T',
       temperature (GazVanDerWaals (A := A) 1 1.4 0.5 0.5) P 1 = Ret T' /\
       Rabs (T' - 300) <= tol (/ 2000) 6 * 300).
Proof.
  intros A.
  assert (Hb : decimal3 (1 * 0.5) = 0.5)
    by (rewrite (decimal3_exact _ 500) by lra; lra).
  destruct (round_trip_within_tolerance (/ 2000) decimal3
              (fun x y => decimal3 (Rpower x y)) ltac:(lra) decimal3_error
              (fun x y _ => decimal3_pow_error x y)
              1 1.4 0.5 0.5 1 300) as [Hi (P & HP & Hv)]; try lra.
  split; [exact Hi|]. exists P. split; [exact HP|].
  assert (HP0 : 0 <= P).
  { cbn [pression GazVanDerWaals] in HP. unfold van_der_waals, CONST_R in HP.
    cbn [fmul fsub lit_8_314 lit_2 rounded] in HP.
    rewrite Hb in HP.
    rewrite (decimal3_exact 8.314 8314) in HP by lra.
    rewrite (decimal3_exact (1 * 8.314) 8314) in HP by lra.
    rewrite (decimal3_exact (1 * 8.314 * 300) 2494200) in HP by lra.
    rewrite (decimal3_exact (1 - 0.5) 500) in HP by lra.
    rewrite truediv_returns in HP by lra.
    cbn [mbind py_bind] in HP.
    change (real_pow (fun x y => decimal3 (Rpower x y)) 1 2)
      with (power (a := A) 1 2) in HP.
    rewrite (power_1 decimal3) in HP. cbn [mbind py_bind] in HP.
    rewrite truediv_returns in HP by lra.
    injection HP as <-.
    rewrite <- (decimal3_small 0) by lra. apply decimal3_mono.
    rewrite (decimal3_exact (1 * 8.314 * 300 / (1 - 0.5)) 4988400) by lra.
    rewrite (decimal3_exact (0.5 * 1) 500) by lra.
    rewrite (decimal3_exact (0.5 * 1 / 1) 500) by lra. lra. }
  split; [exact HP0 | exact (Hv HP0)].
Defined.


Lemma GazVanDerWaals_degenerate_rounded_witness :
  let A := rounded decimal3 (fun x y => decimal3 (Rpower x y)) in
  pression (GazVanDerWaals (A := A) 1 1.4 0 0) 2 300
    = pression (GazParfait (A := A) 1 1.4) 2 300 /\
  temperature (GazVanDerWaals (A := A) 1 1.4 0 0) 5 2
    = temperature (GazParfait (A := A) 1 1.4) 5 2 /\
  exists Pv Pi,
    pression_adiabatique (GazVanDerWaals (A := A) 1 1.4 0 0) 2 5 1 = Ret Pv /\
    pression_adiabatique (GazParfait (A := A) 1 1.4) 2 5 1 = Ret Pi /\
    Rabs (Pv - Pi) <= tol (/ 2000) 9 * Rabs Pi.
Proof.
  intros A.
  apply (GazVanDerWaals_degenerate_rounded (/ 2000) decimal3
           (fun x y => decimal3 (Rpower x y)) ltac:(lra) decimal3_error
           (fun x y _ => decimal3_pow_error x y)
           decimal3_idem 1 1.4 2 300 5 5 1); try lra.
  - apply (decimal3_exact 2 2000). lra.
  - apply (decimal3_exact 5 5000). lra.
  - apply (decimal3_exact 1 1000). lra.
  - apply (decimal3_exact 5 5000). lra.
  - apply decimal3_small. lra.
Defined.



Lemma eta_th_between_0_and_1_witness :
  exists e,
    eta_th (A := rounded decimal3 (fun x y => decimal3 (Rpower x y))) 8 1.4 = Ret e /\
    0 <= e <= 1.
Proof.
  apply (eta_th_between_0_and_1 decimal3 (fun x y => decimal3 (Rpower x y))
           (decimal3_small 0 ltac:(lra)) decimal3_mono
           (decimal3_exact 1 1000 ltac:(lra)) decimal3_pow_ge_1); lra.
Defined.

Lemma adiabatique_PV_gamma_within_tolerance_witness :
  exists P,
    adiabatique (A := rounded decimal3 (fun x y => decimal3 (Rpower x y)))
      2 101300 8 1.4 = Ret P /\
    Rabs (P * Rpower 2 1.4 - 101300 * Rpower 8 1.4)
      <= tol (/ 2000) (2 + 2) * Rabs (101300 * Rpower 8 1.4).
Proof.
  apply (adiabatique_PV_gamma_within_tolerance (/ 2000) decimal3
           (fun x y => decimal3 (Rpower x y)) ltac:(lra) decimal3_error
           (fun x y _ => decimal3_pow_error x y) 2 1.4 2 101300 8);
    simpl; lra.
Defined.

Lemma adiabatique_compose_within_tolerance_witness :
  let g := GazParfait (A := rounded decimal3 (fun x y => decimal3 (Rpower x y)))
             1 1.4 in
  exists P1 P2 P P0',
    pression_adiabatique g 4 101300 8 = Ret P1 /\
    pression_adiabatique g 2 P1 4 = Ret P2 /\
    pression_adiabatique g 2 101300 8 = Ret P /\
    pression_adiabatique g 8 P1 4 = Ret P0' /\
    Rabs (P2 - P) <= tol (/ 2000) (3 * (2 + 2)) * Rabs P /\
    Rabs (P0' - 101300) <= tol (/ 2000) (2 * (2 + 2)) * Rabs 101300.
Proof.
  apply (adiabatique_compose_within_tolerance (/ 2000) decimal3
           (fun x y => decimal3 (Rpower x y)) ltac:(lra) decimal3_error
           (fun x y _ => decimal3_pow_error x y) 2 1 1.4 4 2 101300 8);
    simpl; lra.
Defined.
